(** * viam-chess: a shallow embedding of the perception-to-motion core

    The development follows the Go sources of the repository:
    - the board camera (estimatePieceColor and the label it produces),
    - the chess service (getCenterFor, movePiece, myGrab, goToStart,
      getGame, saveGame, pickMove, makeAMove, DoCommand).

    Conventions of the embedding.
    - A finite Go [float64] is the rational it denotes ([Q]).  The
      arithmetic of the board camera rounds every result to the nearest
      binary64 value, ties to even, as IEEE 754 prescribes ([round64], built
      on the Standard Library's [SpecFloat]).  The arithmetic of the chess
      service (the mean of two coordinates, steps of 10 on a height, an
      offset divided by 1000) is kept exact.  Infinities and NaN are
      outside the model.
    - A Go [int] is a [Z]; a [uint8] is a [Byte.byte].
    - Calls to external collaborators (arm, gripper, motion service, switch,
      frame system, camera, engine, file system, logger) append one event to
      a chronological trace; what a call answers is read from the
      collaborators' script at the index of the call. *)

From Stdlib Require Import ZArith QArith Qround Lqa Lia List String Ascii Bool.
From Stdlib Require Import Strings.Byte DecimalString.
From Stdlib Require Import Permutation.
From Stdlib Require Floats.SpecFloat.
Import ListNotations.

Set Implicit Arguments.

(* ================================================================== *)
(** * Part I: definitions *)
(* ================================================================== *)

(** ** Numbers *)

Abbreviation float64 := Q (only parsing).

(** [x < y] on float64, as a boolean. *)
Definition Qlt_bool (x y : Q) : bool := negb (Qle_bool y x).

(** *** Rounding to binary64

    [round64 q] is the binary64 value nearest to [q], ties to even: the
    quotient of numerator and denominator as IEEE 754 division rounds it
    (precision 53, exponents up to 1024).  A magnitude beyond the largest
    finite value rounds to 2^1024, which stands for the infinity. *)

Definition spec_of_Z (n : Z) : SpecFloat.spec_float :=
  match n with
  | Z0 => SpecFloat.S754_zero false
  | Zpos p => SpecFloat.S754_finite false p 0
  | Zneg p => SpecFloat.S754_finite true p 0
  end.

Definition Q_of_spec (x : SpecFloat.spec_float) : Q :=
  match x with
  | SpecFloat.S754_zero _ | SpecFloat.S754_nan => 0
  | SpecFloat.S754_infinity s => inject_Z (SpecFloat.cond_Zopp s (2 ^ 1024))
  | SpecFloat.S754_finite s m e =>
      match e with
      | Zneg k => Qmake (SpecFloat.cond_Zopp s (Zpos m)) (Pos.shiftl 1 (Npos k))
      | _ => inject_Z (SpecFloat.cond_Zopp s (Zpos m * 2 ^ e))
      end
  end.

Definition round64 (q : Q) : float64 :=
  let q' := Qred q in
  Qred (Q_of_spec (SpecFloat.SFdiv 53 1024 (spec_of_Z (Qnum q'))
                                   (SpecFloat.S754_finite false (Qden q') 0))).

(** [x + y], [x - y] and [x / y] on float64. *)
Definition fadd (x y : float64) : float64 := round64 (x + y).
Definition fsub (x y : float64) : float64 := round64 (x - y).
Definition fdiv (x y : float64) : float64 := round64 (x / y).

(** [float64(b)] for a uint8: exact. *)
Definition float64_of_uint8 (b : byte) : float64 :=
  inject_Z (Z.of_N (Byte.to_N b)).

(** [float64(n)] for an int. *)
Definition float64_of_int (n : Z) : float64 := round64 (inject_Z n).

(** ** Geometry and point clouds (rdk types, as far as the code reads them) *)

Module r3.
Record Vector := mkVector { X : float64; Y : float64; Z : float64 }.
End r3.

Module pointcloud.

(** [pointcloud.Data]: the code asks [HasColor()] and [RGB255()]. *)
Record Data := mkData
  { HasColor : bool;
    RGB255 : byte * byte * byte }.

(** [pointcloud.MetaData]: the code reads [MaxZ] and [Center()]. *)
Record MetaData := mkMetaData
  { MaxZ : float64;
    Center : r3.Vector }.

(** A point is a position and a possibly nil [Data]. *)
Definition Point : Type := r3.Vector * option Data.

Record PointCloud := mkPointCloud
  { metaData : MetaData;
    points : list Point }.

(** [pc.Iterate(0, 0, fn)] with a callback that always answers [true]:
    the callback's captured variables are the accumulator. *)
Definition Iterate {A : Type} (pc : PointCloud)
    (fn : A -> r3.Vector -> option Data -> A) (init : A) : A :=
  fold_left (fun acc pd => fn acc (fst pd) (snd pd)) (points pc) init.

End pointcloud.

Import pointcloud.

(** ** Board camera: estimatePieceColor *)

Definition minPieceSize : float64 := 20.

(** The accumulator of the iteration: totalR, totalG, totalB, count. *)
Definition ColorAcc : Type := (float64 * float64 * float64 * Z)%type.

(** Body of the callback given to [Iterate].  The totals are sums of
    integers from 0 to 255: float64 addition is exact on them as long as
    they stay below 2^53, that is for any cloud of fewer than 2^45 points,
    and they are added without rounding. *)
Definition accumulateColor (minZ : float64) (acc : ColorAcc)
    (p : r3.Vector) (d : option Data) : ColorAcc :=
  let '(totalR, totalG, totalB, count) := acc in
  match d with
  | Some d' =>
      if Qlt_bool (r3.Z p) minZ && HasColor d' then
        let '(r, g, b) := RGB255 d' in
        ((totalR + float64_of_uint8 r)%Q,
         (totalG + float64_of_uint8 g)%Q,
         (totalB + float64_of_uint8 b)%Q,
         (count + 1)%Z)
      else acc
  | None => acc
  end.

(** 0 - blank, 1 - white, 2 - black *)
Definition estimatePieceColor (pc : PointCloud) : Z :=
  let minZ := fsub (MaxZ (metaData pc)) minPieceSize in
  let '(totalR, totalG, totalB, count) :=
    Iterate pc (accumulateColor minZ) (0%Q, 0%Q, 0%Q, 0%Z) in
  if (count <=? 10)%Z then 0%Z
  else
    let avgR := fdiv totalR (float64_of_int count) in
    let avgG := fdiv totalG (float64_of_int count) in
    let avgB := fdiv totalB (float64_of_int count) in
    let brightness := fdiv (fadd (fadd avgR avgG) avgB) 3 in
    if Qlt_bool 128 brightness then 1%Z else 2%Z.

(** *** Vocabulary used to state what the classifier depends on *)

(** The points the classifier counts: a color sample and a Z coordinate
    strictly below the float64 difference [MaxZ - minPieceSize]. *)
Definition countedPoint (maxZ : float64) (pd : Point) : bool :=
  match snd pd with
  | Some d => Qlt_bool (r3.Z (fst pd)) (fsub maxZ minPieceSize) && HasColor d
  | None => false
  end.

(** The points of the 20-unit band below the maximum that carry a color
    sample: the reading "within the band below the region's maximum". *)
Definition bandPoint (maxZ : float64) (pd : Point) : bool :=
  match snd pd with
  | Some d =>
      Qle_bool (maxZ - minPieceSize) (r3.Z (fst pd))
      && Qle_bool (r3.Z (fst pd)) maxZ && HasColor d
  | None => false
  end.

Definition countedPoints (pc : PointCloud) : list Point :=
  filter (countedPoint (MaxZ (metaData pc))) (points pc).

Definition Qsum (l : list Q) : Q := fold_right Qplus 0%Q l.

Definition redOf (pd : Point) : Q :=
  match snd pd with Some d => float64_of_uint8 (fst (fst (RGB255 d))) | None => 0%Q end.
Definition greenOf (pd : Point) : Q :=
  match snd pd with Some d => float64_of_uint8 (snd (fst (RGB255 d))) | None => 0%Q end.
Definition blueOf (pd : Point) : Q :=
  match snd pd with Some d => float64_of_uint8 (snd (RGB255 d)) | None => 0%Q end.

(** The mean of a channel over the counted points, without rounding. *)
Definition channelMean (channel : Point -> Q) (pc : PointCloud) : Q :=
  (Qsum (map channel (countedPoints pc))
   / inject_Z (Z.of_nat (List.length (countedPoints pc))))%Q.

(** The mean brightness of the counted points, without rounding: the mean
    of the three channel means. *)
Definition exactBrightness (pc : PointCloud) : Q :=
  ((channelMean redOf pc + channelMean greenOf pc + channelMean blueOf pc) / 3)%Q.

(** Mean brightness of the counted points as float64 arithmetic gives it:
    each channel mean rounded, the three added from the left with a
    rounding after each addition, and the sum divided by 3 and rounded. *)
Definition meanBrightness (pc : PointCloud) : float64 :=
  let q := countedPoints pc in
  let n := float64_of_int (Z.of_nat (List.length q)) in
  fdiv (fadd (fadd (fdiv (Qsum (map redOf q)) n) (fdiv (Qsum (map greenOf q)) n))
             (fdiv (Qsum (map blueOf q)) n)) 3.

(** *** Concrete clouds *)

Definition colored (z : Q) (v : byte) : Point :=
  (r3.mkVector 0 0 z, Some (mkData true (v, v, v))).

(** A point with the color (r, g, b). *)
Definition tinted (z : Q) (r g b : byte) : Point :=
  (r3.mkVector 0 0 z, Some (mkData true (r, g, b))).

(** The largest Z among the points, as the cloud's metadata keeps it; the
    value for no point at all is the metadata's initial one, the opposite
    of the largest finite float64. *)
Definition largestZ (l : list Point) : float64 :=
  fold_left (fun best pd => if Qlt_bool best (r3.Z (fst pd)) then r3.Z (fst pd) else best)
            l (- inject_Z (2 ^ 1024 - 2 ^ 971))%Q.

(** A cloud whose metadata holds the largest Z of its points; the
    classifier does not read the center. *)
Definition cloudOf (l : list Point) : PointCloud :=
  mkPointCloud (mkMetaData (largestZ l) (r3.mkVector 0 0 0)) l.

(** A point of the board's surface at Z = 100, the largest of the clouds
    below, and eleven bright points at Z = 0. *)
Definition lowWhiteCloud : PointCloud :=
  cloudOf (colored 100 x80 :: repeat (colored 0 xff) 11).

(** The same with the eleven low points dark. *)
Definition lowBlackCloud : PointCloud :=
  cloudOf (colored 100 x80 :: repeat (colored 0 x00) 11).

(** The eleven bright points at Z = 0 again, under other points of the
    band: three dark ones at Z = 100, 90 and 80, the last visited last. *)
Definition lowWhiteCloudDarkBand : PointCloud :=
  cloudOf (colored 100 x00 :: colored 90 x00 :: repeat (colored 0 xff) 11
           ++ [colored 80 x00]).

(** Eleven points of color (128,128,128) at Z = 0 under a point at
    Z = 100. *)
Definition grey128Cloud : PointCloud :=
  cloudOf (colored 100 xff :: repeat (colored 0 x80) 11).

(** Ten points of color (2,255,128) and one of color (0,249,125) at Z = 0
    under a point at Z = 100: the channel totals are 20, 2799 and 1405,
    and the mean brightness without rounding is 4224 / 33 = 128. *)
Definition roundedUpCloud : PointCloud :=
  cloudOf (colored 100 x00 :: tinted 0 x00 xf9 x7d :: repeat (tinted 0 x02 xff x80) 10).

(** The float64 nearest to 0.7 and the float64 nearest to -19.3. *)
Definition near_0_7 : float64 := (3152519739159347 # 4503599627370496)%Q.
Definition near_minus_19_3 : float64 := (- (5432467050515661 # 281474976710656))%Q.

(** Eleven bright points at the float64 nearest to -19.3 under a point at
    the float64 nearest to 0.7. *)
Definition grazingCloud : PointCloud :=
  cloudOf (colored near_0_7 x00 :: repeat (colored near_minus_19_3 xff) 11).

(** ** Strings *)

Open Scope string_scope.

(** [strings.HasPrefix(s, prefix)] *)
Definition HasPrefix (s pre : string) : bool := String.prefix pre s.

(** [strings.HasSuffix(s, suffix)] *)
Definition HasSuffix (s suf : string) : bool :=
  let n := String.length s in
  let m := String.length suf in
  (m <=? n)%nat && String.eqb (substring (n - m) m s) suf.

(** ** What one capture holds *)

Module viz.
(** [viz.Object]: a labelled geometry over a point cloud. *)
Record Object := mkObject
  { Label : string;          (* o.Geometry.Label() *)
    cloud : PointCloud }.

Definition MetaData (o : Object) : pointcloud.MetaData := metaData (cloud o).
End viz.

Module viscapture.
Record VisCapture := mkVisCapture { Objects : list viz.Object }.
End viscapture.

Import viscapture.

Module image.
Record Rectangle := Rect { x0 : Z; y0 : Z; x1 : Z; y1 : Z }.
End image.

(** ** Moves of the chess library *)

Module chess.
Inductive MoveTag :=
| KingSideCastle | QueenSideCastle | Capture | EnPassant | Check.

Definition MoveTag_eqb (a b : MoveTag) : bool :=
  match a, b with
  | KingSideCastle, KingSideCastle | QueenSideCastle, QueenSideCastle
  | Capture, Capture | EnPassant, EnPassant | Check, Check => true
  | _, _ => false
  end.

(** A move: [S1().String()], [S2().String()], the promotion suffix and
    the tags. *)
Record Move := mkMove
  { S1 : string; S2 : string; promo : string; tags : list MoveTag }.

Definition HasTag (m : Move) (t : MoveTag) : bool :=
  existsb (MoveTag_eqb t) (tags m).

(** [m.String()] *)
Definition MoveString (m : Move) : string := S1 m ++ S2 m ++ promo m.
End chess.

(** ** Commands *)

Record MoveCmd := mkMoveCmd { From : string; To : string; N : Z }.

Record cmdStruct := mkCmd { Move : MoveCmd; Go : Z }.

(** The reply map of DoCommand: nil, or the single entry "move". *)
Inductive Reply :=
| NilReply
| MoveReply (move : string).

(** ** Events, errors and outcomes *)

Inductive LogMsg :=
| InfoMove (from to : string)              (* "move %v to %v" *)
| InfoMovePieceCalled (from to : string)   (* "movePiece called: %s -> %s" *)
| InfoAlreadyHasPiece (to label : string)  (* "position %s already has a piece (%s), will move" *)
| WarnDidntGrab                            (* "didn't grab, going to try a little more" *)
| WarnGrabSaidGot                          (* "grab said we got, but i think no res: %v" *)
| DebugGripperRes                          (* "gripper res: %v" *)
| WarnCantGoHome.                          (* "can't go home: %v" *)

(** The request given to the motion service by moveGripper. *)
Record MoveReq := mkMoveReq
  { Destination : r3.Vector; OX : float64; OZ : float64; Theta : float64 }.

(** One event per call that leaves the service. *)
Inductive Event :=
| SwitchSetPosition (slot : Z)   (* s.poseStart.SetPosition(ctx, slot, nil) *)
| GripperOpen                    (* s.gripper.Open *)
| GripperGrab                    (* s.gripper.Grab *)
| ArmMoveGripper (width : float64) (* s.arm.DoCommand {"move_gripper": width} *)
| ArmGetGripper                  (* s.arm.DoCommand {"get_gripper": true} *)
| MotionMove (req : MoveReq)     (* s.motion.Move *)
| FrameGetPose                   (* s.rfs.GetPose *)
| CaptureAllFromCamera           (* s.pieceFinder.CaptureAllFromCamera *)
| EngineRun (position : string)  (* s.engine.Run(CmdPosition, CmdGo) *)
| ReadFile                       (* os.ReadFile(s.fenFile) *)
| WriteFile (data : string)      (* os.WriteFile(s.fenFile, data, 0666) *)
| Sleep (ms : Z)                 (* time.Sleep *)
| Log (msg : LogMsg).

(** The error values the service returns. *)
Inductive Error :=
| CollaboratorError (call : Event)     (* the error an external call returned *)
| CantFindObject (pos : string)        (* "can't find object for: %s" *)
| CantMoveOutOfTheWay (cause : Error)  (* "can't move piece out of the way: %w" *)
| CouldntGrab                          (* "couldn't grab, and scared to go lower" *)
| GetGripperWeird                      (* "Why is get_gripper weird %v" *)
| CantGoHome (cause : Error)           (* "can't go home: %v" *)
| ErrorReadingFen                      (* "error reading fen (%s) %T" *)
| InvalidFen (data : string)           (* "invalid fen from (%s) (%s) %w" *)
| NoValidMoves                         (* "no valid moves" *)
| CantHandleCastle (m : chess.Move)    (* "can't handle castle %v" *)
| IllegalMove (m : chess.Move)         (* the error of game.Move *)
| DecodeError                          (* the error of mapstructure.Decode *)
| BadCmd.                              (* "bad cmd %v" *)

(** What ends a call without an error value: a nil dereference in the Go
    run time, or the fuel of the embedding running out. *)
Inductive Abnormal := NilDereference | OutOfFuel.

Inductive Result (A : Type) :=
| Ok (a : A)
| Fail (e : Error)
| Abort (p : Abnormal).

Arguments Ok {A} a.
Arguments Fail {A} e.
Arguments Abort {A} p.

(** The names the specification gives to the errors. *)
Inductive ErrorClass :=
| PerceptionError | GraspError | MotionError | UnsupportedMoveError
| PersistenceError | CommandError | ExternalError.

Fixpoint classOf (e : Error) : ErrorClass :=
  match e with
  | CantFindObject _ => PerceptionError
  | CouldntGrab => GraspError
  | CollaboratorError (MotionMove _) => MotionError
  | CantHandleCastle _ => UnsupportedMoveError
  | ErrorReadingFen | InvalidFen _ => PersistenceError
  | DecodeError | BadCmd => CommandError
  | CantMoveOutOfTheWay cause => classOf cause
  | CantGoHome cause => classOf cause
  | _ => ExternalError
  end.

(** ** The service's state *)

(** The file at [s.fenFile]. *)
Inductive FileState :=
| Missing                   (* os.ReadFile fails with a not-exist error *)
| Unreadable                (* os.ReadFile fails with another error *)
| Content (data : string).

Record State := mkState
  { trace : list Event;          (* every call so far, oldest first *)
    fenFile : FileState;
    startPose : option float64;  (* Theta of s.startPose; nil is None *)
    engine : bool }.             (* s.engine != nil *)

(** ** Libraries and collaborators *)

(** Pure functions of libraries whose code is not part of the repository. *)
Class Libraries := mkLibraries
  { Game : Type;                                   (* *chess.Game *)
    NewGame : Game;                                (* chess.NewGame() *)
    FEN : string -> option Game;                   (* chess.FEN then chess.NewGame(f) *)
    GameFEN : Game -> string;                      (* g.FEN() *)
    ValidMoves : Game -> list chess.Move;          (* g.ValidMoves() *)
    GameMove : Game -> chess.Move -> option Game;  (* g.Move(m, nil) *)
    PCFindHighestInRegion : viz.Object -> image.Rectangle -> r3.Vector;
    CmdMap : Type;                                 (* map[string]interface{} *)
    Decode : CmdMap -> option cmdStruct }.         (* mapstructure.Decode *)

(** How an os.WriteFile that returns an error has left the file.  The
    file is opened with O_TRUNC and written afterwards: either the open
    failed and the file is as it was, or the file was emptied and holds
    the first [n] bytes of the data. *)
Inductive WriteFailure :=
| OpenFailed
| WroteBytes (n : nat).

(** What the collaborators answer to the call issued as event number [n]. *)
Class Collaborators := mkCollaborators
  { fails : nat -> Event -> bool;             (* the call returns an error *)
    failedWrite : nat -> WriteFailure;        (* what a failing WriteFile left *)
    grabbed : nat -> bool;                    (* first result of Grab *)
    gripper_position : nat -> option float64; (* res["gripper_position"].(float64) *)
    pose_theta : nat -> float64;              (* Theta of the pose GetPose returns *)
    captured : nat -> VisCapture;             (* result of CaptureAllFromCamera *)
    BestMove : nat -> option chess.Move }.    (* s.engine.SearchResults().BestMove *)

(** ** The monad of the service: state, errors and the trace *)

Definition M (A : Type) : Type := State -> Result A * State.

Definition ret {A : Type} (a : A) : M A := fun s => (Ok a, s).

Definition fail {A : Type} (e : Error) : M A := fun s => (Fail e, s).

Definition abort {A : Type} (p : Abnormal) : M A := fun s => (Abort p, s).

Definition bind {A B : Type} (m : M A) (k : A -> M B) : M B :=
  fun s =>
    match m s with
    | (Ok a, s') => k a s'
    | (Fail e, s') => (Fail e, s')
    | (Abort p, s') => (Abort p, s')
    end.

Notation "x <- m ;; k" := (bind m (fun x => k))
  (at level 61, m at next level, right associativity).
Notation "m ;; k" := (bind m (fun _ => k))
  (at level 61, right associativity).

(** [fmt.Errorf("...: %w", err)] on the error path. *)
Definition wrapError {A : Type} (wrap : Error -> Error) (m : M A) : M A :=
  fun s =>
    match m s with
    | (Fail e, s') => (Fail (wrap e), s')
    | other => other
    end.

(** A Go result [(value, error)] of a function without effects. *)
Definition lift {A : Type} (r : Result A) : M A := fun s => (r, s).

(** [defer finalizer()] around a body: the finalizer runs on every way out
    and cannot touch the unnamed results. *)
Definition defer {A : Type} (finalizer : M unit) (body : M A) : M A :=
  fun s =>
    let (r, s1) := body s in
    match finalizer s1 with
    | (Abort p, s2) => (Abort p, s2)
    | (_, s2) => (r, s2)
    end.

Definition now : M nat := fun s => (Ok (List.length (trace s)), s).

Definition emit (e : Event) : M unit :=
  fun s => (Ok tt, mkState (trace s ++ [e]) (fenFile s) (startPose s) (engine s)).

Definition logf (msg : LogMsg) : M unit := emit (Log msg).

Definition sleep (ms : Z) : M unit := emit (Sleep ms).

Definition getStartPose : M (option float64) := fun s => (Ok (startPose s), s).

Definition setStartPose (p : option float64) : M unit :=
  fun s => (Ok tt, mkState (trace s) (fenFile s) p (engine s)).

Definition getFenFile : M FileState := fun s => (Ok (fenFile s), s).

Definition setFenFile (f : FileState) : M unit :=
  fun s => (Ok tt, mkState (trace s) f (startPose s) (engine s)).

Definition getEngine : M bool := fun s => (Ok (engine s), s).

(** ** The chess service *)

Definition safeZ : float64 := 200.

Section Service.

Context {L : Libraries} {C : Collaborators}.

(** A call to a collaborator that answers an error or nothing. *)
Definition call (e : Event) : M unit :=
  n <- now ;;
  emit e ;;
  if fails n e then fail (CollaboratorError e) else ret tt.

Definition findObject (data : VisCapture) (pos : string) : option viz.Object :=
  find (fun o => HasPrefix (viz.Label o) pos) (Objects data).

Definition getCenterFor (data : VisCapture) (pos : string) : Result r3.Vector :=
  if pos =? "-" then Ok (r3.mkVector 400 (-400) 400)
  else
    match findObject data pos with
    | None => Fail (CantFindObject pos)
    | Some o =>
        let md := viz.MetaData o in
        let center := Center md in
        if HasSuffix (viz.Label o) "-0" then Ok center
        else
          let high :=
            PCFindHighestInRegion o (image.Rect (-1000) (-1000) 1000 1000) in
          Ok (r3.mkVector ((r3.X center + r3.X high) / 2)
                          ((r3.Y center + r3.Y high) / 2)
                          (r3.Z high))
    end.

Definition goToStart : M unit :=
  call (SwitchSetPosition 2) ;;
  call GripperOpen ;;
  sleep 1000 ;;
  n <- now ;;
  emit FrameGetPose ;;
  if fails n FrameGetPose then
    setStartPose None ;;
    fail (CollaboratorError FrameGetPose)
  else
    setStartPose (Some (pose_theta n)).

Definition setupGripper : M unit := call (ArmMoveGripper 450).

Definition moveGripper (p : r3.Vector) : M unit :=
  sp <- getStartPose ;;
  match sp with
  | None => abort NilDereference
  | Some theta =>
      let ox := if Qlt_bool 300 (r3.X p) then ((r3.X p - 300) / 1000)%Q else 0%Q in
      call (MotionMove (mkMoveReq p ox (-1) theta))
  end.

Definition myGrab : M bool :=
  n <- now ;;
  emit GripperGrab ;;
  if fails n GripperGrab then fail (CollaboratorError GripperGrab)
  else
    let got := grabbed n in
    sleep 300 ;;
    n' <- now ;;
    emit ArmGetGripper ;;
    if fails n' ArmGetGripper then fail (CollaboratorError ArmGetGripper)
    else
      match gripper_position n' with
      | None => fail GetGripperWeird
      | Some p =>
          logf DebugGripperRes ;;
          if Qlt_bool p 20 && got then
            logf WarnGrabSaidGot ;;
            ret false
          else ret got
      end.

(** The [for { ... }] loop of the pick block; it answers the height at
    which the grab succeeded. *)
Fixpoint grabLoop (fuel : nat) (center : r3.Vector) (useZ : float64) : M float64 :=
  match fuel with
  | O => abort OutOfFuel
  | S fuel' =>
      moveGripper (r3.mkVector (r3.X center) (r3.Y center) useZ) ;;
      got <- myGrab ;;
      if got then ret useZ
      else
        logf WarnDidntGrab ;;
        let useZ := (useZ - 10)%Q in
        if Qlt_bool useZ 0 then fail CouldntGrab
        else
          setupGripper ;;
          grabLoop fuel' center useZ
  end.

(** The two blocks of movePiece after the check of the destination: pick
    at [from], place at [to]. *)
Definition pickAndPlace (fuel : nat) (data : VisCapture) (from to : string) : M unit :=
  center <- lift (getCenterFor data from) ;;
  setupGripper ;;
  moveGripper (r3.mkVector (r3.X center) (r3.Y center) safeZ) ;;
  useZ <- grabLoop fuel center (r3.Z center) ;;
  moveGripper (r3.mkVector (r3.X center) (r3.Y center) safeZ) ;;
  center <- lift (getCenterFor data to) ;;
  moveGripper (r3.mkVector (r3.X center) (r3.Y center) safeZ) ;;
  let useZ := if to =? "-" then 300%Q else useZ in
  moveGripper (r3.mkVector (r3.X center) (r3.Y center) useZ) ;;
  setupGripper ;;
  moveGripper (r3.mkVector (r3.X center) (r3.Y center) safeZ).

(** [depth] bounds the nesting of calls, [fuel] the rounds of each grab
    loop. *)
Fixpoint movePiece (depth fuel : nat) (data : VisCapture) (from to : string) : M unit :=
  match depth with
  | O => abort OutOfFuel
  | S depth' =>
      logf (InfoMovePieceCalled from to) ;;
      (if negb (to =? "-") then
         match findObject data to with
         | None => fail (CantFindObject to)
         | Some o =>
             if negb (HasSuffix (viz.Label o) "-0") then
               logf (InfoAlreadyHasPiece to (viz.Label o)) ;;
               wrapError CantMoveOutOfTheWay (movePiece depth' fuel data to "-")
             else ret tt
         end
       else ret tt) ;;
      pickAndPlace fuel data from to
  end.

Definition getGame : M Game :=
  emit ReadFile ;;
  f <- getFenFile ;;
  match f with
  | Missing => ret NewGame
  | Unreadable => fail ErrorReadingFen
  | Content data =>
      match FEN data with
      | None => fail (InvalidFen data)
      | Some g => ret g
      end
  end.

Definition saveGame (g : Game) : M unit :=
  n <- now ;;
  emit (WriteFile (GameFEN g)) ;;
  if fails n (WriteFile (GameFEN g)) then
    match failedWrite n with
    | OpenFailed => ret tt
    | WroteBytes k => setFenFile (Content (substring 0 k (GameFEN g)))
    end ;;
    fail (CollaboratorError (WriteFile (GameFEN g)))
  else setFenFile (Content (GameFEN g)).

(** The answer is a pointer: [None] is nil. *)
Definition pickMove (game : Game) : M (option chess.Move) :=
  e <- getEngine ;;
  if negb e then
    match ValidMoves game with
    | [] => fail NoValidMoves
    | m :: _ => ret (Some m)
    end
  else
    n <- now ;;
    call (EngineRun (GameFEN game)) ;;
    ret (BestMove n).

Definition capture : M VisCapture :=
  n <- now ;;
  call CaptureAllFromCamera ;;
  ret (captured n).

Definition makeAMove (depth fuel : nat) : M chess.Move :=
  wrapError CantGoHome goToStart ;;
  game <- getGame ;;
  om <- pickMove game ;;
  match om with
  | None => abort NilDereference
  | Some m =>
      if chess.HasTag m chess.KingSideCastle || chess.HasTag m chess.QueenSideCastle
      then fail (CantHandleCastle m)
      else
        all <- capture ;;
        movePiece depth fuel all (chess.S1 m) (chess.S2 m) ;;
        match GameMove game m with
        | None => fail (IllegalMove m)
        | Some game' =>
            saveGame game' ;;
            ret m
        end
  end.

(** [for x := range cmd.Move.N { ... }], from round [x] on, [rounds] to go. *)
Fixpoint manualRounds (depth fuel : nat) (cmd : MoveCmd) (x : Z) (rounds : nat) : M unit :=
  match rounds with
  | O => ret tt
  | S rounds' =>
      goToStart ;;
      let '(from, to) :=
        if (x mod 2 =? 1)%Z then (To cmd, From cmd) else (From cmd, To cmd) in
      all <- capture ;;
      movePiece depth fuel all from to ;;
      manualRounds depth fuel cmd (x + 1)%Z rounds'
  end.

(** [for range cmd.Go { m, err = s.makeAMove(ctx) ... }] *)
Fixpoint goRounds (depth fuel : nat) (m : option chess.Move) (rounds : nat)
  : M (option chess.Move) :=
  match rounds with
  | O => ret m
  | S rounds' =>
      m' <- makeAMove depth fuel ;;
      goRounds depth fuel (Some m') rounds'
  end.

(** The deferred closure of DoCommand. *)
Definition homeOrWarn : M unit :=
  fun s =>
    match goToStart s with
    | (Fail _, s') => logf WarnCantGoHome s'
    | other => other
    end.

(** DoCommand after its two [defer] statements. *)
Definition DoCommandBody (depth fuel : nat) (cmdMap : CmdMap) : M Reply :=
  match Decode cmdMap with
  | None => fail DecodeError
  | Some cmd =>
      if negb (To (Move cmd) =? "") && negb (From (Move cmd) =? "") then
        logf (InfoMove (From (Move cmd)) (To (Move cmd))) ;;
        manualRounds depth fuel (Move cmd) 0 (Z.to_nat (N (Move cmd))) ;;
        ret NilReply
      else if (0 <? Go cmd)%Z then
        m <- goRounds depth fuel None (Z.to_nat (Go cmd)) ;;
        match m with
        | None => abort NilDereference
        | Some m => ret (MoveReply (chess.MoveString m))
        end
      else fail BadCmd
  end.

(** The lock taken first and released last serialises the calls; one call
    is what is modelled. *)
Definition DoCommand (depth fuel : nat) (cmdMap : CmdMap) : M Reply :=
  defer homeOrWarn (DoCommandBody depth fuel cmdMap).

End Service.

(** ** Vocabulary on traces *)

(** The heights the motion service was asked to reach, in order. *)
Definition moveHeights (evs : list Event) : list float64 :=
  flat_map (fun e => match e with
                     | MotionMove req => [r3.Z (Destination req)]
                     | _ => []
                     end) evs.

(** The number of grasp attempts. *)
Definition grabCount (evs : list Event) : nat :=
  List.length (filter (fun e => match e with GripperGrab => true | _ => false end) evs).

(** The verdict of the grasp attempt whose Grab call is event number [n]:
    the gripper reports a hold and the aperture, read two events later,
    is not below 20. *)
Definition accepted {C : Collaborators} (n : nat) : bool :=
  grabbed n &&
  match gripper_position (n + 2) with
  | Some p => negb (Qlt_bool p 20)
  | None => false
  end.

(** The event numbers of the Grab calls among events that continue a
    trace of [n] events. *)
Fixpoint grabIndices (n : nat) (evs : list Event) : list nat :=
  match evs with
  | [] => []
  | GripperGrab :: rest => n :: grabIndices (S n) rest
  | _ :: rest => grabIndices (S n) rest
  end.

(** The verdicts of the grasp attempts among these events, in order. *)
Definition verdicts {C : Collaborators} (n : nat) (evs : list Event) : list bool :=
  map accepted (grabIndices n evs).

(** Neither a grasp nor a motion. *)
Definition isReading (e : Event) : bool :=
  match e with
  | GripperGrab | MotionMove _ => false
  | _ => true
  end.

(** The invocations of movePiece, as its first statement logs them. *)
Definition movePieceCalls (evs : list Event) : list (string * string) :=
  flat_map (fun e => match e with
                     | Log (InfoMovePieceCalled from to) => [(from, to)]
                     | _ => []
                     end) evs.

(** Reads and writes of the position file. *)
Definition isFileEvent (e : Event) : bool :=
  match e with ReadFile | WriteFile _ => true | _ => false end.

(** Calls that reach the arm, the gripper, the motion service, the staging
    switch or the camera, and writes of the position file. *)
Definition isPhysical (e : Event) : bool :=
  match e with
  | SwitchSetPosition _ | GripperOpen | GripperGrab | ArmMoveGripper _
  | ArmGetGripper | MotionMove _ | CaptureAllFromCamera | WriteFile _ => true
  | _ => false
  end.

(** [h], [h - 10], [h - 10 - 10], ...: [k] heights. *)
Fixpoint lowered (k : nat) (h : float64) : list float64 :=
  match k with
  | O => []
  | S k' => h :: lowered k' (h - 10)%Q
  end.

(** The events of picking and placing: arm, gripper and motion calls, the
    pause after a grasp and the messages of the grab loop. *)
Definition isHandling (e : Event) : bool :=
  match e with
  | ArmMoveGripper _ | ArmGetGripper | GripperGrab | MotionMove _ | Sleep _
  | Log DebugGripperRes | Log WarnGrabSaidGot | Log WarnDidntGrab => true
  | _ => false
  end.

(** The two messages of movePiece itself. *)
Definition isMoveLog (e : Event) : bool :=
  match e with
  | Log (InfoMovePieceCalled _ _) | Log (InfoAlreadyHasPiece _ _) => true
  | _ => false
  end.

(** The events of goToStart and of the deferred closure around it. *)
Definition isHoming (e : Event) : bool :=
  match e with
  | SwitchSetPosition _ | GripperOpen | Sleep _ | FrameGetPose
  | Log WarnCantGoHome => true
  | _ => false
  end.

(** The events of a manual move. *)
Definition isManual (e : Event) : bool :=
  isHandling e || isMoveLog e || isHoming e
  || match e with CaptureAllFromCamera | Log (InfoMove _ _) => true | _ => false end.

(** From every state a computation extends the trace by events that
    satisfy [P], and it leaves the position file as it is unless one of
    these events is a read or a write of the file. *)
Definition emits {A : Type} (P : Event -> Prop) (m : M A) : Prop :=
  forall s, exists evs,
    trace (snd (m s)) = (trace s ++ evs)%list /\
    Forall P evs /\
    (Forall (fun e => isFileEvent e = false) evs -> fenFile (snd (m s)) = fenFile s).

(** The events of the homing sequence when every step is reached. *)
Definition homingEvents : list Event :=
  [SwitchSetPosition 2; GripperOpen; Sleep 1000; FrameGetPose].

(** ** Example boards, libraries and collaborators *)

(** A square: its label, the center of its cloud and its highest point. *)
Definition square (label : string) (center high : r3.Vector) : viz.Object :=
  viz.mkObject label (mkPointCloud (mkMetaData (r3.Z high) center) [(high, None)]).

(** A stand-in for touch.PCFindHighestInRegion on the example boards: the
    highest point of the object's cloud. *)
Definition highestPoint (o : viz.Object) (_ : image.Rectangle) : r3.Vector :=
  match points (viz.cloud o) with
  | [] => r3.mkVector 0 0 0
  | pd :: rest =>
      fold_left (fun best q => if Qlt_bool (r3.Z best) (r3.Z (fst q)) then fst q else best)
                rest (fst pd)
  end.

(** e2 holds a white piece 25 high, e4 is empty, d5 holds a black piece. *)
Definition exampleBoard : VisCapture :=
  mkVisCapture
    [ square "e2-1" (r3.mkVector 100 50 10) (r3.mkVector 104 52 25);
      square "e4-0" (r3.mkVector 100 150 2) (r3.mkVector 101 151 3);
      square "d5-2" (r3.mkVector 60 200 12) (r3.mkVector 62 204 30) ].

Definition castleShort : chess.Move :=
  chess.mkMove "e1" "g1" "" [chess.KingSideCastle].

Definition pawnPush : chess.Move := chess.mkMove "e2" "e4" "" [].

(** A game is its position text; the text "corrupt" does not parse; the
    only legal move is [first]. *)
Definition exampleLibraries (first : chess.Move) : Libraries :=
  mkLibraries
    "startpos"
    (fun data => if data =? "corrupt" then None else Some data)
    (fun g => g)
    (fun _ => [first])
    (fun g m => Some (g ++ " " ++ chess.MoveString m))
    highestPoint
    (fun cmd : option cmdStruct => cmd).

(** Collaborators that never answer an error: the gripper reports [got n]
    and the aperture [aperture n]; the camera sees [exampleBoard]. *)
Definition obliging (got : nat -> bool) (aperture : nat -> option float64)
    (best : option chess.Move) : Collaborators :=
  mkCollaborators
    (fun _ _ => false) (fun _ => OpenFailed)
    got aperture (fun _ => 0%Q) (fun _ => exampleBoard) (fun _ => best).

(** A service that has been homed once: empty trace, no position file. *)
Definition freshState (withEngine : bool) : State :=
  mkState [] Missing (Some 0%Q) withEngine.

(** The state after some more events. *)
Definition addEvents (s : State) (evs : list Event) : State :=
  mkState (trace s ++ evs) (fenFile s) (startPose s) (engine s).

(** Collaborators that answer no error and always report an aperture. *)
Definition wellBehaved (C : Collaborators) : Prop :=
  (forall n e, fails n e = false) /\ (forall n, gripper_position n <> None).

(** Rounds of the grab loop that suffice from height [h]. *)
Definition roundsFor (h : float64) : nat :=
  Nat.max 1 (Z.to_nat (Qfloor (h / 10) + 1)).

(** The gripper reports success every time; the aperture is 5 on the first
    three readings (events 3, 11 and 19) and 25 from then on. *)
Definition slippingGripper : Collaborators :=
  obliging (fun _ => true)
           (fun n => if (n <? 27)%nat then Some 5%Q else Some 25%Q) None.

(** The gripper never gets hold of anything. *)
Definition emptyGripper : Collaborators :=
  obliging (fun _ => false) (fun _ => Some 5%Q) None.

(** The request to the engine. *)
Definition isEngineRun (e : Event) : bool :=
  match e with EngineRun _ => true | _ => false end.

Definition exampleLibs : Libraries := exampleLibraries pawnPush.

(** Libraries whose only legal move is castling on the king's side. *)
Definition castlingLibs : Libraries := exampleLibraries castleShort.

(** The gripper holds the piece at once, aperture 25; the engine answers
    the castling move. *)
Definition firmGripper : Collaborators :=
  obliging (fun _ => true) (fun _ => Some 25%Q) (Some castleShort).

(** The gripper reports success with an aperture of exactly 20. *)
Definition thresholdGripper : Collaborators :=
  obliging (fun _ => true) (fun _ => Some 20%Q) None.

(** The grab loop at the top of the piece on e2, height 25, with a gripper
    that never gets hold of it. *)
Definition runFrom25 : Result Q * State :=
  grabLoop (C := emptyGripper) 4 (r3.mkVector 104 52 25) 25 (freshState true).

(** The same from an initial height of -5. *)
Definition runFromMinus5 : Result Q * State :=
  grabLoop (C := emptyGripper) 3 (r3.mkVector 104 52 (-5)) (-5) (freshState true).

(** From height 35 with the slipping gripper. *)
Definition runSlipping : Result Q * State :=
  grabLoop (C := slippingGripper) 5 (r3.mkVector 104 52 35) 35 (freshState true).

(** From height 25 with the aperture at the threshold. *)
Definition runThreshold : Result Q * State :=
  grabLoop (C := thresholdGripper) 3 (r3.mkVector 104 52 25) 25 (freshState true).

(** One automatic move when the only legal move is castling and no engine
    is configured. *)
Definition castlingRun : Result chess.Move * State :=
  makeAMove (L := castlingLibs) (C := firmGripper) 2 3 (freshState false).

(** The same when the engine answers the castling move. *)
Definition castlingEngineRun : Result chess.Move * State :=
  makeAMove (L := exampleLibs) (C := firmGripper) 2 3 (freshState true).

(** A manual move e2 -> e4, once, with a position file in place. *)
Definition manualCmd : cmdStruct := mkCmd (mkMoveCmd "e2" "e4" 1) 0.

Definition storedState : State := mkState [] (Content "startpos") (Some 0%Q) true.

Definition manualRun : Result Reply * State :=
  DoCommand (L := exampleLibs) (C := firmGripper) 2 3 (Some manualCmd) storedState.

(** A command that does not decode. *)
Definition undecodableRun : Result Reply * State :=
  DoCommand (L := exampleLibs) (C := firmGripper) 2 3 None storedState.

(** e2 -> d5 on the example board, d5 being occupied, and e2 -> e4, e4
    being empty. *)
Definition captureRun : Result unit * State :=
  movePiece (L := exampleLibs) (C := firmGripper) 2 3 exampleBoard "e2" "d5" (freshState true).

Definition quietRun : Result unit * State :=
  movePiece (L := exampleLibs) (C := firmGripper) 2 3 exampleBoard "e2" "e4" (freshState true).

(** ** Board camera: the label of a square

    GetObjectPointClouds labels the object of a square
    [fmt.Sprintf("%s-%d", s.name, s.color)], the color being what
    estimatePieceColor answered for the square's cloud. *)
Definition squareLabel (name : string) (color : Z) : string :=
  name ++ "-" ++ NilZero.string_of_int (Z.to_int color).

(** Eleven dark points below one bright point at the maximum, and the same
    points with the bright one visited last. *)
Definition mixedCloud : PointCloud :=
  cloudOf (colored 100 xff :: repeat (colored 0 x10) 11).

Definition mixedCloudReordered : PointCloud :=
  cloudOf (repeat (colored 0 x10) 11 ++ [colored 100 xff]).

(** Ten bright points at Z = 0 under a point at Z = 100. *)
Definition tenWhiteCloud : PointCloud :=
  cloudOf (colored 100 x80 :: repeat (colored 0 xff) 10).

(** ** Board camera: the grid of squares *)

(** [image.Rect(x0, y0, x1, y1)]: the corners are put in order. *)
Definition imageRect (x0 y0 x1 y1 : Z) : image.Rectangle :=
  let '(x0, x1) := if (x1 <? x0)%Z then (x1, x0) else (x0, x1) in
  let '(y0, y1) := if (y1 <? y0)%Z then (y1, y0) else (y0, y1) in
  image.Rect x0 y0 x1 y1.

Module boardcamera.
(** [squareInfo]; the file is a rune, 'a' being 97. *)
Record squareInfo := mkSquareInfo
  { rank : Z;
    file : Z;
    name : string;
    color : Z;
    pc : PointCloud }.
End boardcamera.

(** What a call of the camera ends with: a value, an error value, or a
    run-time panic (index out of range, nil interface). *)
Inductive CameraError :=
| LimitError        (* the error of touch.PCLimitToImageBoxes *)
| ImagesError       (* the error of bc.input.Images *)
| PointCloudError   (* the error of bc.input.NextPointCloud *)
| NoImages          (* "no images returned from input camera" *)
| ImageError        (* the error of ni[0].Image *)
| TransformError    (* the error of bc.rfs.TransformPointCloud *)
| NewObjectError.   (* the error of viz.NewObjectWithLabel *)

Inductive Outcome (A : Type) :=
| Done (a : A)
| Failed (e : CameraError)
| Panicked.

Arguments Done {A} a.
Arguments Failed {A} e.
Arguments Panicked {A}.

(** [xOffset] and [squareSize] of BoardDebugImageHack, from
    [srcImg.Bounds().Max]; Go's integer division truncates. *)
Definition xOffset (maxX maxY : Z) : Z := Z.quot (maxX - maxY) 2.

Definition squareSize (maxY : Z) : Z := Z.quot maxY 8.

(** [srcRect] of the square at a rank and a file. *)
Definition srcRect (maxX maxY rank file : Z) : image.Rectangle :=
  let xStartOffset := ((104 - file) * squareSize maxY)%Z in
  let yStartOffset := ((rank - 1) * squareSize maxY)%Z in
  imageRect (xStartOffset + xOffset maxX maxY)
            yStartOffset
            (xStartOffset + xOffset maxX maxY + squareSize maxY)
            (yStartOffset + squareSize maxY).

(** [fmt.Sprintf("%s%d", string([]byte{byte(file)}), rank)] *)
Definition squareName (rank file : Z) : string :=
  String (ascii_of_N (Z.to_N (file mod 256))) (NilZero.string_of_int (Z.to_int rank)).

Definition colorNames : list string := [""; "W"; "B"].

(** [l[i]] on a slice of strings: out of range is a panic ([None]). *)
Definition indexString (l : list string) (i : Z) : option string :=
  if (i <? 0)%Z then None else nth_error l (Z.to_nat i).

(** The ranks 1..8 and the files 'a'..'h' in the order of the two loops. *)
Definition boardRanks : list Z := map Z.of_nat (seq 1 8).

Definition boardFiles : list Z := map Z.of_nat (seq 97 8).

(** The cells in the order in which the loops visit them. *)
Definition boardCells : list (Z * Z) :=
  flat_map (fun r => map (fun f => (r, f)) boardFiles) boardRanks.

Section BoardCamera.

(** [touch.PCLimitToImageBoxes(pc, boxes, nil, props)]; [None] is an error. *)
Variable PCLimitToImageBoxes : PointCloud -> list image.Rectangle -> option PointCloud.

(** [bc.rfs.TransformPointCloud(ctx, pc, bc.conf.Input, "world")] and
    [viz.NewObjectWithLabel(pc, label, nil)]; [None] is an error. *)
Variable TransformPointCloud : PointCloud -> option PointCloud.
Variable NewObjectWithLabel : PointCloud -> string -> option viz.Object.

(** The body of the inner loop of BoardDebugImageHack for one square; the
    drawing into the debug image is left out. *)
Definition squareAt (maxX maxY : Z) (cloud : PointCloud) (rank file : Z)
  : Outcome boardcamera.squareInfo :=
  match PCLimitToImageBoxes cloud [srcRect maxX maxY rank file] with
  | None => Failed LimitError
  | Some subPc =>
      let name := squareName rank file in
      let pieceColor := estimatePieceColor subPc in
      match indexString colorNames pieceColor with
      | None => Panicked
      | Some meta => Done (boardcamera.mkSquareInfo rank file name pieceColor subPc)
      end
  end.

(** [for file := 'a'; file <= 'h'; file++ { ... }] over the files left. *)
Fixpoint fileLoop (maxX maxY : Z) (cloud : PointCloud) (rank : Z) (files : list Z)
    (squares : list boardcamera.squareInfo) : Outcome (list boardcamera.squareInfo) :=
  match files with
  | [] => Done squares
  | file :: files' =>
      match squareAt maxX maxY cloud rank file with
      | Done sq => fileLoop maxX maxY cloud rank files' (squares ++ [sq])
      | Failed e => Failed e
      | Panicked => Panicked
      end
  end.

(** [for rank := 1; rank <= 8; rank++ { ... }] over the ranks left. *)
Fixpoint rankLoop (maxX maxY : Z) (cloud : PointCloud) (ranks : list Z)
    (squares : list boardcamera.squareInfo) : Outcome (list boardcamera.squareInfo) :=
  match ranks with
  | [] => Done squares
  | rank :: ranks' =>
      match fileLoop maxX maxY cloud rank boardFiles squares with
      | Done squares' => rankLoop maxX maxY cloud ranks' squares'
      | Failed e => Failed e
      | Panicked => Panicked
      end
  end.

(** The squares BoardDebugImageHack answers for an image whose bounds end
    at (maxX, maxY); the debug image it also answers is not modelled. *)
Definition BoardDebugImageHack (maxX maxY : Z) (cloud : PointCloud)
  : Outcome (list boardcamera.squareInfo) :=
  rankLoop maxX maxY cloud boardRanks [].

(** The loop at the end of GetObjectPointClouds; [rfs] is nil when the
    frame system was not found at construction. *)
Fixpoint objectsLoop (rfs : bool) (squares : list boardcamera.squareInfo)
    (objs : list viz.Object) : Outcome (list viz.Object) :=
  match squares with
  | [] => Done objs
  | s :: squares' =>
      if negb rfs then Panicked
      else
        match TransformPointCloud (boardcamera.pc s) with
        | None => Failed TransformError
        | Some pc =>
            match NewObjectWithLabel
                    pc (squareLabel (boardcamera.name s) (boardcamera.color s)) with
            | None => Failed NewObjectError
            | Some o => objectsLoop rfs squares' (objs ++ [o])
            end
        end
  end.

(** GetObjectPointClouds on the answers of the input camera: the images
    with the bounds of each decoded image ([None] where an error is
    answered), and the point cloud.  The optional write of the debug image
    has no part in the result. *)
Definition GetObjectPointClouds (rfs : bool)
    (images : option (list (option (Z * Z)))) (nextPointCloud : option PointCloud)
  : Outcome (list viz.Object) :=
  match images with
  | None => Failed ImagesError
  | Some ni =>
      match nextPointCloud with
      | None => Failed PointCloudError
      | Some cloud =>
          match ni with
          | [] => Failed NoImages
          | img :: _ =>
              match img with
              | None => Failed ImageError
              | Some (maxX, maxY) =>
                  match BoardDebugImageHack maxX maxY cloud with
                  | Done squares => objectsLoop rfs squares []
                  | Failed e => Failed e
                  | Panicked => Panicked
                  end
              end
          end
      end
  end.

End BoardCamera.

(** A square as BoardDebugImageHack builds it for a cell: the clip of the
    cloud to the cell's rectangle, its classification and its name. *)
Definition squareOf (limit : PointCloud -> list image.Rectangle -> option PointCloud)
    (maxX maxY : Z) (cloud : PointCloud) (cell : Z * Z)
    (sq : boardcamera.squareInfo) : Prop :=
  boardcamera.rank sq = fst cell /\
  boardcamera.file sq = snd cell /\
  boardcamera.name sq = squareName (fst cell) (snd cell) /\
  limit cloud [srcRect maxX maxY (fst cell) (snd cell)] = Some (boardcamera.pc sq) /\
  boardcamera.color sq = estimatePieceColor (boardcamera.pc sq).

(** The names of the cells, in the order of the loops. *)
Definition boardNames : list string :=
  map (fun cell => squareName (fst cell) (snd cell)) boardCells.

(** No string occurs twice. *)
Fixpoint distinct (l : list string) : bool :=
  match l with
  | [] => true
  | x :: rest => negb (existsb (String.eqb x) rest) && distinct rest
  end.

(** A clip that keeps the whole cloud, a transform that changes nothing and
    the plain construction of an object: stand-ins for the libraries. *)
Definition keepAll (cloud : PointCloud) (_ : list image.Rectangle) : option PointCloud :=
  Some cloud.

Definition noTransform (cloud : PointCloud) : option PointCloud := Some cloud.

Definition plainObject (cloud : PointCloud) (label : string) : option viz.Object :=
  Some (viz.mkObject label cloud).

(** Two rectangles that share no pixel. *)
Definition disjointRects (r r' : image.Rectangle) : Prop :=
  (image.x1 r <= image.x0 r' \/ image.x1 r' <= image.x0 r \/
   image.y1 r <= image.y0 r' \/ image.y1 r' <= image.y0 r)%Z.

(** The camera on a 640 x 480 image, every clip being the whole of
    [lowWhiteCloud]. *)
Definition cameraRun : Outcome (list viz.Object) :=
  GetObjectPointClouds keepAll noTransform plainObject true
                       (Some [Some (640, 480)%Z]) (Some lowWhiteCloud).

(** The game a position file stands for when getGame reads it. *)
Definition loadedFrom {L : Libraries} (f : FileState) (g : Game) : Prop :=
  (f = Missing /\ g = NewGame) \/ (exists data, f = Content data /\ FEN data = Some g).

(** The position file after a list of moves played one by one, each loaded
    from what the one before saved. *)
Inductive played {L : Libraries} : FileState -> list chess.Move -> FileState -> Prop :=
| played_none (f : FileState) : played f [] f
| played_move (f f' : FileState) (g g' : Game) (m : chess.Move) (ms : list chess.Move) :
    loadedFrom f g ->
    GameMove g m = Some g' ->
    played (Content (GameFEN g')) ms f' ->
    played f (m :: ms) f'.

Definition isCastling (m : chess.Move) : bool :=
  chess.HasTag m chess.KingSideCastle || chess.HasTag m chess.QueenSideCastle.

(** The engine answers the pawn push; the gripper holds at once. *)
Definition pawnEngine : Collaborators :=
  obliging (fun _ => true) (fun _ => Some 25%Q) (Some pawnPush).

(** The same on a full disk: every write of the position file fails after
    the file was emptied and four bytes were written. *)
Definition fullDisk : Collaborators :=
  mkCollaborators
    (fun _ e => match e with WriteFile _ => true | _ => false end)
    (fun _ => WroteBytes 4)
    (fun _ => true) (fun _ => Some 25%Q) (fun _ => 0%Q) (fun _ => exampleBoard)
    (fun _ => Some pawnPush).

(** One automatic move on a full disk, the position file holding the
    starting position. *)
Definition fullDiskRun : Result chess.Move * State :=
  makeAMove (L := exampleLibs) (C := fullDisk) 2 3 storedState.

(** The command {go: 2} on a homed service with an engine and no position
    file. *)
Definition autoCmd : cmdStruct := mkCmd (mkMoveCmd "" "" 0) 2.

Definition autoRun : Result Reply * State :=
  DoCommand (L := exampleLibs) (C := pawnEngine) 2 3 (Some autoCmd) (freshState true).

(** Commands that match neither shape, and a manual move repeated -1
    times. *)
Definition emptyCmd : cmdStruct := mkCmd (mkMoveCmd "e2" "" 3) 0.

Definition backwardsCmd : cmdStruct := mkCmd (mkMoveCmd "e2" "e4" (-1)) 5.

(** The points the motion service was asked to reach, in order. *)
Definition moveTargets (evs : list Event) : list r3.Vector :=
  flat_map (fun e => match e with
                     | MotionMove req => [Destination req]
                     | _ => []
                     end) evs.

(** The point above or at a center, at height [z]. *)
Definition atHeight (center : r3.Vector) (z : float64) : r3.Vector :=
  r3.mkVector (r3.X center) (r3.Y center) z.

(** From a state whose start pose is set, a computation does not end in a
    nil dereference and, when it succeeds, leaves a start pose set. *)
Definition nilFree {A : Type} (m : M A) : Prop :=
  forall s, startPose s <> None ->
            fst (m s) <> Abort NilDereference /\
            (forall a, fst (m s) = Ok a -> startPose (snd (m s)) <> None).

(** The same from any state: the computation sets the start pose itself
    before it needs it. *)
Definition homed {A : Type} (m : M A) : Prop :=
  forall s, fst (m s) <> Abort NilDereference /\
            (forall a, fst (m s) = Ok a -> startPose (snd (m s)) <> None).

(** A computation does not run out of fuel. *)
Definition fuelled {A : Type} (m : M A) : Prop :=
  forall s, fst (m s) <> Abort OutOfFuel.

(** The fuel suffices for every height the resolver can answer on the
    captures of the collaborators. *)
Definition fuelForCaptures {L : Libraries} {C : Collaborators} (fuel : nat) : Prop :=
  forall (n : nat) (pos : string) (center : r3.Vector),
    getCenterFor (captured n) pos = Ok center -> (roundsFor (r3.Z center) <= fuel)%nat.

(** The manual move e2 -> e4 with fuel for every height of the example
    board, the discard point at height 400 included. *)
Definition manualRunFuelled : Result Reply * State :=
  DoCommand (L := exampleLibs) (C := firmGripper) 2 50 (Some manualCmd) storedState.

(** Every event but the entry line of a movePiece whose destination is a
    square: the invocations that put a piece aside go to "-". *)
Definition isAside (e : Event) : bool :=
  match e with
  | Log (InfoMovePieceCalled _ to) => to =? "-"
  | _ => true
  end.

(** The invocations of movePiece whose destination is a square. *)
Definition topCalls (evs : list Event) : list (string * string) :=
  filter (fun call => negb (snd call =? "-")) (movePieceCalls evs).

(** The moves of [rounds] rounds of a manual command from round [x] on:
    from -> to in the even rounds, to -> from in the odd ones. *)
Fixpoint alternating (from to : string) (x : Z) (rounds : nat) : list (string * string) :=
  match rounds with
  | O => []
  | S rounds' =>
      (if (x mod 2 =? 1)%Z then (to, from) else (from, to))
        :: alternating from to (x + 1) rounds'
  end.

(** Three rounds between e2 and e4; the first round puts the piece on e4,
    where the camera of the example still reports none. *)
Definition swingCmd : cmdStruct := mkCmd (mkMoveCmd "e2" "e4" 3) 0.

Definition swingRun : Result Reply * State :=
  DoCommand (L := exampleLibs) (C := firmGripper) 2 4 (Some swingCmd) storedState.

(** a1 -> d5 on the example board: the camera reports no a1, and d5 is
    occupied. *)
Definition ghostRun : Result unit * State :=
  movePiece (L := exampleLibs) (C := firmGripper) 2 3 exampleBoard "a1" "d5" (freshState true).

(** The orientation moveGripper asks for, the start pose having angle
    [theta]: the gripper points down, and leans along X only beyond
    X = 300. *)
Definition downward (theta : float64) (e : Event) : Prop :=
  match e with
  | MotionMove req =>
      OZ req = (-1)%Q /\ Theta req = theta /\
      OX req = (if Qlt_bool 300 (r3.X (Destination req))
                then ((r3.X (Destination req) - 300) / 1000)%Q else 0%Q)
  | _ => True
  end.

(** From a state whose start pose has angle [theta], a computation changes
    nothing of the state but the trace, and adds only events in [P]. *)
Definition steady {A : Type} (theta : float64) (P : Event -> Prop) (m : M A) : Prop :=
  forall s, startPose s = Some theta ->
            exists evs, snd (m s) = addEvents s evs /\ Forall P evs.

(* ================================================================== *)
(** * Part II: lemmas and theorems *)
(* ================================================================== *)

Lemma Qlt_bool_iff (x y : Q) : Qlt_bool x y = true <-> (x < y)%Q.
Proof.
  unfold Qlt_bool. rewrite negb_true_iff.
  destruct (Qle_bool y x) eqn:E.
  - apply Qle_bool_iff in E. split; [discriminate | intro H; exfalso; lra].
  - split; [intros _ | reflexivity].
    destruct (Qlt_le_dec x y) as [H | H]; [exact H |].
    apply Qle_bool_iff in H. congruence.
Qed.

Lemma Qlt_bool_false_iff (x y : Q) : Qlt_bool x y = false <-> (y <= x)%Q.
Proof.
  unfold Qlt_bool. rewrite negb_false_iff. apply Qle_bool_iff.
Qed.

(** ** Rounding *)

(** [round64] on a few values: the float64 nearest to 1/3, to 1/10, to 0.7
    and to -19.3; integers are kept up to 2^53, and beyond it a tie goes
    to the even neighbour. *)
Example round64_examples :
  round64 (1 # 3) = (6004799503160661 # 18014398509481984)%Q /\
  round64 (1 # 10) = (3602879701896397 # 36028797018963968)%Q /\
  round64 (7 # 10) = near_0_7 /\
  round64 (- (193 # 10)) = near_minus_19_3 /\
  round64 128 = 128%Q /\
  round64 (inject_Z (2 ^ 53 - 1)) = inject_Z (2 ^ 53 - 1) /\
  round64 (inject_Z (2 ^ 53 + 1)) = inject_Z (2 ^ 53) /\
  round64 (inject_Z (2 ^ 53 + 3)) = inject_Z (2 ^ 53 + 4).
Proof.
  split; [vm_compute; reflexivity |]. split; [vm_compute; reflexivity |].
  split; [vm_compute; reflexivity |]. split; [vm_compute; reflexivity |].
  split; [vm_compute; reflexivity |]. split; [vm_compute; reflexivity |].
  split; vm_compute; reflexivity.
Qed.

(** ** The classifier *)

Section Classifier.

Variable maxZ : float64.

Let step (acc : ColorAcc) (pd : Point) : ColorAcc :=
  accumulateColor (fsub maxZ minPieceSize) acc (fst pd) (snd pd).

Lemma accumulateColor_skips (acc : ColorAcc) (pd : Point) :
  countedPoint maxZ pd = false -> step acc pd = acc.
Proof.
  unfold step, accumulateColor, countedPoint.
  destruct acc as [[[tR tG] tB] c], pd as [p [d |]]; simpl; intro H.
  - now rewrite H.
  - reflexivity.
Qed.

(** The iteration sees the counted points only. *)
Lemma iterate_filter (keep : Point -> bool) (l : list Point) :
  (forall pd, countedPoint maxZ pd = true -> keep pd = true) ->
  forall acc, fold_left step (filter keep l) acc = fold_left step l acc.
Proof.
  intro Hkeep. induction l as [| pd l IH]; intro acc; simpl.
  - reflexivity.
  - destruct (keep pd) eqn:K; simpl.
    + apply IH.
    + rewrite IH. f_equal. symmetry. apply accumulateColor_skips.
      destruct (countedPoint maxZ pd) eqn:C; [| reflexivity].
      apply Hkeep in C. congruence.
Qed.

(** What the iteration accumulates: channel sums and the number of counted
    points. *)
Lemma iterate_totals (l : list Point) :
  forall tR tG tB c,
    let q := filter (countedPoint maxZ) l in
    let '(tR', tG', tB', c') := fold_left step l (tR, tG, tB, c) in
    (tR' == tR + Qsum (map redOf q))%Q /\
    (tG' == tG + Qsum (map greenOf q))%Q /\
    (tB' == tB + Qsum (map blueOf q))%Q /\
    c' = (c + Z.of_nat (List.length q))%Z.
Proof.
  induction l as [| pd l IH]; intros tR tG tB c.
  - cbn. repeat split; try ring; lia.
  - cbn [filter fold_left]. destruct (countedPoint maxZ pd) eqn:C.
    + assert (E : step (tR, tG, tB, c) pd =
                  ((tR + redOf pd)%Q, (tG + greenOf pd)%Q, (tB + blueOf pd)%Q, (c + 1)%Z)).
      { unfold step, accumulateColor, countedPoint, redOf, greenOf, blueOf in *.
        destruct pd as [p [d |]]; simpl in *; [| discriminate].
        rewrite C. destruct (RGB255 d) as [[r g] b]. reflexivity. }
      rewrite E.
      specialize (IH (tR + redOf pd)%Q (tG + greenOf pd)%Q (tB + blueOf pd)%Q (c + 1)%Z).
      destruct (fold_left step l _) as [[[tR' tG'] tB'] c'].
      destruct IH as (HR & HG & HB & Hc).
      unfold Qsum in *. cbn [map fold_right List.length].
      repeat split.
      * rewrite HR. ring.
      * rewrite HG. ring.
      * rewrite HB. ring.
      * rewrite Hc. lia.
    + rewrite accumulateColor_skips by exact C. apply IH.
Qed.

End Classifier.

(** Rounding does not depend on how a rational is written. *)
Lemma round64_comp (x y : Q) : (x == y)%Q -> round64 x = round64 y.
Proof.
  intro H. unfold round64. now rewrite (Qred_complete _ _ H).
Qed.

Lemma fdiv_comp (x x' y : Q) : (x == x')%Q -> fdiv x y = fdiv x' y.
Proof.
  intro H. unfold fdiv. apply round64_comp. now rewrite H.
Qed.

(** C1 (as amended).  The classifier depends on the cloud only through
    [MaxZ] and the points that carry a color sample and lie strictly lower
    than the float64 difference [MaxZ - 20]: two clouds with the same
    [MaxZ] and the same such points get the same answer, whatever other
    points they hold, in particular whatever points they hold in the
    20-unit band below the maximum. *)
Theorem estimatePieceColor_counted_only (pc pc' : PointCloud)
    (Hmax : MaxZ (metaData pc) = MaxZ (metaData pc'))
    (Hcounted : countedPoints pc = countedPoints pc') :
  estimatePieceColor pc = estimatePieceColor pc'.
Proof.
  unfold estimatePieceColor, Iterate.
  rewrite <- (@iterate_filter (MaxZ (metaData pc)) (countedPoint (MaxZ (metaData pc)))
                (points pc) (fun pd H => H)).
  rewrite <- (@iterate_filter (MaxZ (metaData pc')) (countedPoint (MaxZ (metaData pc')))
                (points pc') (fun pd H => H)).
  fold (countedPoints pc). fold (countedPoints pc').
  rewrite Hcounted, Hmax. reflexivity.
Qed.

(** The theorem at two clouds with the maximum 100 and the same eleven
    points at Z = 0: the band of the one holds a grey point, the band of
    the other three dark points. *)
Lemma estimatePieceColor_counted_only_witness :
  filter (bandPoint 100) (points lowWhiteCloud) = [colored 100 x80] /\
  filter (bandPoint 100) (points lowWhiteCloudDarkBand)
  = [colored 100 x00; colored 90 x00; colored 80 x00] /\
  estimatePieceColor lowWhiteCloud = estimatePieceColor lowWhiteCloudDarkBand.
Proof.
  split; [vm_compute; reflexivity |]. split; [vm_compute; reflexivity |].
  apply (@estimatePieceColor_counted_only lowWhiteCloud lowWhiteCloudDarkBand).
  - vm_compute. reflexivity.
  - vm_compute. reflexivity.
Defined.

(** C1 (as stated) fails: [lowWhiteCloud] and [lowBlackCloud] have the
    same maximum, 100, and the same single point in the 20-unit band below
    it; they differ only in the color of the eleven points that lie 100
    below the maximum, and the one is classified white, the other black.
    The points lower than 20 below the maximum decide the answer. *)
Lemma estimatePieceColor_band_counterexample :
  MaxZ (metaData lowWhiteCloud) = 100%Q /\
  MaxZ (metaData lowBlackCloud) = 100%Q /\
  filter (bandPoint 100) (points lowWhiteCloud) = [colored 100 x80] /\
  filter (bandPoint 100) (points lowBlackCloud) = [colored 100 x80] /\
  filter (fun pd => negb (bandPoint 100 pd)) (points lowWhiteCloud)
  = repeat (colored 0 xff) 11 /\
  filter (fun pd => negb (bandPoint 100 pd)) (points lowBlackCloud)
  = repeat (colored 0 x00) 11 /\
  estimatePieceColor lowWhiteCloud = 1%Z /\
  estimatePieceColor lowBlackCloud = 2%Z.
Proof.
  split; [vm_compute; reflexivity |]. split; [vm_compute; reflexivity |].
  split; [vm_compute; reflexivity |]. split; [vm_compute; reflexivity |].
  split; [vm_compute; reflexivity |]. split; [vm_compute; reflexivity |].
  split; vm_compute; reflexivity.
Qed.

(** The brightness the code computes is the float64 mean brightness of the
    counted points, and the count it tests is their number. *)
Lemma estimatePieceColor_unfold (pc : PointCloud) :
  estimatePieceColor pc =
  if (Z.of_nat (List.length (countedPoints pc)) <=? 10)%Z then 0%Z
  else if Qlt_bool 128 (meanBrightness pc) then 1%Z else 2%Z.
Proof.
  unfold estimatePieceColor, Iterate, meanBrightness, countedPoints.
  pose proof (@iterate_totals (MaxZ (metaData pc)) (points pc) 0 0 0 0%Z) as T.
  cbv zeta in T.
  destruct (fold_left _ (points pc) _) as [[[tR tG] tB] c].
  destruct T as (HR & HG & HB & Hc).
  rewrite Z.add_0_l in Hc. subst c.
  set (q := filter (countedPoint (MaxZ (metaData pc))) (points pc)) in *.
  destruct (Z.of_nat (List.length q) <=? 10)%Z; [reflexivity |].
  rewrite Qplus_0_l in HR, HG, HB.
  rewrite (fdiv_comp _ HR), (fdiv_comp _ HG), (fdiv_comp _ HB).
  reflexivity.
Qed.

(** C3 (as amended).  With more than 10 counted points the classifier
    answers white (1) exactly when the mean brightness, as float64
    arithmetic gives it, is strictly above 128, and black (2) exactly when
    it is at most 128. *)
Theorem estimatePieceColor_threshold (pc : PointCloud)
    (Hcount : (10 < List.length (countedPoints pc))%nat) :
  (estimatePieceColor pc = 1%Z <-> (128 < meanBrightness pc)%Q) /\
  (estimatePieceColor pc = 2%Z <-> (meanBrightness pc <= 128)%Q).
Proof.
  rewrite estimatePieceColor_unfold.
  destruct (Z.leb_spec (Z.of_nat (List.length (countedPoints pc))) 10) as [H | _];
    [lia |].
  destruct (Qlt_bool 128 (meanBrightness pc)) eqn:B.
  - apply Qlt_bool_iff in B. split; split; intro H; try reflexivity; try exact B.
    + discriminate.
    + exfalso. lra.
  - apply Qlt_bool_false_iff in B. split; split; intro H; try reflexivity; try exact B.
    + discriminate.
    + exfalso. lra.
Qed.

(** The theorem at a cloud of eleven counted white points, and at a cloud
    of eleven counted points whose mean brightness without rounding is
    exactly 128: float64 arithmetic gives the next float64 above 128, and
    the cloud is classified white. *)
Lemma estimatePieceColor_threshold_witness :
  estimatePieceColor lowWhiteCloud = 1%Z /\
  (exactBrightness roundedUpCloud == 128)%Q /\
  (meanBrightness roundedUpCloud == 128 + (1 # 35184372088832))%Q /\
  estimatePieceColor roundedUpCloud = 1%Z.
Proof.
  assert (Hw : (10 < List.length (countedPoints lowWhiteCloud))%nat) by (vm_compute; lia).
  assert (Hr : (10 < List.length (countedPoints roundedUpCloud))%nat) by (vm_compute; lia).
  split; [| split; [| split]].
  - apply (proj1 (@estimatePieceColor_threshold lowWhiteCloud Hw)).
    vm_compute. reflexivity.
  - vm_compute. reflexivity.
  - vm_compute. reflexivity.
  - apply (proj1 (@estimatePieceColor_threshold roundedUpCloud Hr)).
    vm_compute. reflexivity.
Defined.

(** C3 (as stated) fails at brightness exactly 128: eleven counted points
    of color (128,128,128) have mean brightness 128, with and without
    rounding, which is >= 128, and the classifier answers black, not
    white. *)
Lemma estimatePieceColor_at_128_counterexample :
  (10 < List.length (countedPoints grey128Cloud))%nat /\
  (exactBrightness grey128Cloud == 128)%Q /\
  (meanBrightness grey128Cloud == 128)%Q /\
  (128 <= meanBrightness grey128Cloud)%Q /\
  estimatePieceColor grey128Cloud = 2%Z /\
  estimatePieceColor grey128Cloud <> 1%Z.
Proof.
  assert (E : (meanBrightness grey128Cloud == 128)%Q) by (vm_compute; reflexivity).
  split; [| split; [| split; [| split; [| split]]]].
  - vm_compute. lia.
  - vm_compute. reflexivity.
  - exact E.
  - rewrite E. apply Qle_refl.
  - vm_compute. reflexivity.
  - vm_compute. discriminate.
Qed.

(** ** Labels and occupancy *)

Lemma estimatePieceColor_range (pc : PointCloud) :
  estimatePieceColor pc = 0%Z \/ estimatePieceColor pc = 1%Z \/ estimatePieceColor pc = 2%Z.
Proof.
  rewrite estimatePieceColor_unfold.
  destruct (_ <=? 10)%Z; [left; reflexivity |].
  destruct (Qlt_bool 128 _); [right; left | right; right]; reflexivity.
Qed.

Lemma length_append (a b : string) :
  String.length (a ++ b) = (String.length a + String.length b)%nat.
Proof.
  induction a as [| c a IH]; simpl; [reflexivity | now rewrite IH].
Qed.

Lemma substring_whole (b : string) : substring 0 (String.length b) b = b.
Proof.
  induction b as [| c b IH]; simpl; [reflexivity | now rewrite IH].
Qed.

Lemma substring_append (a b : string) :
  substring (String.length a) (String.length b) (a ++ b) = b.
Proof.
  induction a as [| c a IH]; simpl; [apply substring_whole | exact IH].
Qed.

Lemma HasSuffix_append (a b suf : string) :
  String.length b = String.length suf ->
  HasSuffix (a ++ b) suf = String.eqb b suf.
Proof.
  intro Hlen. unfold HasSuffix. rewrite length_append, <- Hlen.
  replace (String.length a + String.length b - String.length b)%nat
    with (String.length a) by lia.
  rewrite substring_append.
  destruct (Nat.leb_spec (String.length b) (String.length a + String.length b));
    [reflexivity | lia].
Qed.

(** The suffix test of the chess service reads the classification of the
    camera: the label of a square ends in "-0" exactly when the square's
    cloud was classified blank. *)
Lemma squareLabel_empty_iff (name : string) (pc : PointCloud) :
  HasSuffix (squareLabel name (estimatePieceColor pc)) "-0" = true <->
  estimatePieceColor pc = 0%Z.
Proof.
  unfold squareLabel.
  destruct (estimatePieceColor_range pc) as [E | [E | E]]; rewrite E;
    rewrite HasSuffix_append by reflexivity; cbn; split; intro H;
    try reflexivity; discriminate.
Qed.

(** ** The coordinate resolver *)

Section Resolver.

Context {L : Libraries}.

Lemma findObject_prefix (data : VisCapture) (pos : string) (o : viz.Object) :
  findObject data pos = Some o ->
  In o (Objects data) /\ HasPrefix (viz.Label o) pos = true.
Proof.
  unfold findObject. intro H. apply find_some in H. exact H.
Qed.

(** C7.  The label "-" resolves to the fixed point (400, -400, 400) for
    every capture; a label found in the capture resolves to the center of
    the object when its label ends in "-0" (classified empty), and
    otherwise to the point whose X and Y are the means of the center's and
    the highest point's and whose Z is the highest point's. *)
Theorem getCenterFor_cases (data : VisCapture) :
  (forall data' : VisCapture,
      getCenterFor data' "-" = Ok (r3.mkVector 400 (-400) 400)) /\
  (forall (pos : string) (o : viz.Object),
      pos <> "-" ->
      findObject data pos = Some o ->
      let center := Center (viz.MetaData o) in
      let high := PCFindHighestInRegion o (image.Rect (-1000) (-1000) 1000 1000) in
      (HasSuffix (viz.Label o) "-0" = true ->
       getCenterFor data pos = Ok center) /\
      (HasSuffix (viz.Label o) "-0" = false ->
       getCenterFor data pos =
       Ok (r3.mkVector ((r3.X center + r3.X high) / 2)
                       ((r3.Y center + r3.Y high) / 2)
                       (r3.Z high)))).
Proof.
  split.
  - intro data'. reflexivity.
  - intros pos o Hpos Hfind center high.
    apply String.eqb_neq in Hpos.
    unfold getCenterFor. rewrite Hpos, Hfind.
    split; intro Hsuf; rewrite Hsuf; reflexivity.
Qed.

End Resolver.

(** The theorem on the example board: the discard label, the empty square
    e4 and the occupied square e2. *)
Lemma getCenterFor_cases_witness :
  getCenterFor (L := exampleLibs) exampleBoard "-" = Ok (r3.mkVector 400 (-400) 400) /\
  getCenterFor (L := exampleLibs) exampleBoard "e4" = Ok (r3.mkVector 100 150 2) /\
  getCenterFor (L := exampleLibs) exampleBoard "e2" =
  Ok (r3.mkVector ((100 + 104) / 2) ((50 + 52) / 2) 25).
Proof.
  destruct (getCenterFor_cases (L := exampleLibs) exampleBoard) as [Hdash Hfound].
  split; [apply Hdash | split].
  - refine (proj1 (Hfound "e4" (square "e4-0" (r3.mkVector 100 150 2) (r3.mkVector 101 151 3))
                          _ _) _).
    + discriminate.
    + reflexivity.
    + reflexivity.
  - refine (proj2 (Hfound "e2" (square "e2-1" (r3.mkVector 100 50 10) (r3.mkVector 104 52 25))
                          _ _) _).
    + discriminate.
    + reflexivity.
    + reflexivity.
Defined.

(** ** Loading the game *)

Section Persistence.

Context {L : Libraries}.

(** C8.  With no position file getGame answers the starting position and
    no error; with a file that cannot be read, or whose content does not
    parse, it answers a persistence error and no game; it never changes
    the file. *)
Theorem getGame_cases (s : State) :
  (fenFile s = Missing -> fst (getGame s) = Ok NewGame) /\
  (fenFile s = Unreadable ->
   fst (getGame s) = Fail ErrorReadingFen /\
   classOf ErrorReadingFen = PersistenceError) /\
  (forall data : string,
      fenFile s = Content data -> FEN data = None ->
      fst (getGame s) = Fail (InvalidFen data) /\
      classOf (InvalidFen data) = PersistenceError) /\
  (forall g : Game, fst (getGame s) = Ok g ->
      fenFile s = Missing /\ g = NewGame \/
      exists data, fenFile s = Content data /\ FEN data = Some g) /\
  fenFile (snd (getGame s)) = fenFile s.
Proof.
  unfold getGame, bind, emit, getFenFile, ret, fail. simpl.
  destruct (fenFile s) as [| | data] eqn:F; simpl.
  - split; [reflexivity |]. split; [discriminate |]. split; [discriminate |].
    split; [| reflexivity].
    intros g H. inversion H. left. split; reflexivity.
  - split; [discriminate |]. split; [split; reflexivity |]. split; [discriminate |].
    split; [| reflexivity]. intros g H. discriminate.
  - split; [discriminate |]. split; [discriminate |].
    destruct (FEN data) as [g |] eqn:P; simpl.
    + split; [intros d Hd Hnone; inversion Hd; subst; congruence |].
      split; [| reflexivity].
      intros g' H. inversion H; subst. right. exists data. split; [reflexivity | exact P].
    + split; [intros d Hd Hnone; inversion Hd; subst; split; reflexivity |].
      split; [| reflexivity]. intros g' H. discriminate.
Qed.

End Persistence.

(** The theorem on three stores: no file, an unreadable file, a file whose
    content does not parse. *)
Lemma getGame_cases_witness :
  fst (getGame (L := exampleLibs) (mkState [] Missing None true)) = Ok "startpos" /\
  fst (getGame (L := exampleLibs) (mkState [] Unreadable None true)) = Fail ErrorReadingFen /\
  fst (getGame (L := exampleLibs) (mkState [] (Content "corrupt") None true))
  = Fail (InvalidFen "corrupt").
Proof.
  split; [| split].
  - apply (proj1 (getGame_cases (L := exampleLibs) (mkState [] Missing None true))).
    reflexivity.
  - apply (proj1 (proj2 (getGame_cases (L := exampleLibs) (mkState [] Unreadable None true)))).
    reflexivity.
  - apply (proj1 (proj2 (proj2 (getGame_cases (L := exampleLibs)
                                   (mkState [] (Content "corrupt") None true)))) "corrupt");
      reflexivity.
Defined.

(** ** Running the primitives *)

Lemma addEvents_nil (s : State) : addEvents s [] = s.
Proof.
  destruct s. unfold addEvents. simpl. now rewrite app_nil_r.
Qed.

Lemma addEvents_app (s : State) (a b : list Event) :
  addEvents (addEvents s a) b = addEvents s (a ++ b).
Proof.
  unfold addEvents. simpl. now rewrite app_assoc.
Qed.

Lemma moveHeights_app (a b : list Event) :
  moveHeights (a ++ b) = (moveHeights a ++ moveHeights b)%list.
Proof.
  unfold moveHeights. apply flat_map_app.
Qed.

Lemma grabCount_app (a b : list Event) :
  grabCount (a ++ b) = (grabCount a + grabCount b)%nat.
Proof.
  unfold grabCount. now rewrite filter_app, length_app.
Qed.

Lemma roundsFor_enough (h : Q) (fuel : nat) :
  (roundsFor h <= fuel)%nat ->
  (1 <= fuel)%nat /\ (h < 10 * inject_Z (Z.of_nat fuel))%Q.
Proof.
  unfold roundsFor. intro H. split; [lia |].
  assert (Hf : (Qfloor (h / 10) + 1 <= Z.of_nat fuel)%Z) by lia.
  pose proof (Qlt_floor (h / 10)) as Hlt.
  assert (Hq : (inject_Z (Qfloor (h / 10) + 1) <= inject_Z (Z.of_nat fuel))%Q).
  { rewrite <- Zle_Qle. exact Hf. }
  assert (Hh : (h / 10 < inject_Z (Z.of_nat fuel))%Q) by lra.
  assert (E : (h == 10 * (h / 10))%Q) by (field).
  lra.
Qed.

Section Primitives.

Context {L : Libraries} {C : Collaborators}.

Lemma emit_run (e : Event) (s : State) : emit e s = (Ok tt, addEvents s [e]).
Proof. reflexivity. Qed.

Lemma call_run (e : Event) (s : State) :
  call e s =
  (if fails (List.length (trace s)) e then Fail (CollaboratorError e) else Ok tt,
   addEvents s [e]).
Proof.
  unfold call, bind, now, emit, fail, ret, addEvents. simpl.
  destruct (fails _ e); reflexivity.
Qed.

Lemma moveGripper_run (p : r3.Vector) (s : State) :
  match startPose s with
  | None => moveGripper p s = (Abort NilDereference, s)
  | Some theta =>
      exists req, Destination req = p /\
      moveGripper p s =
      (if fails (List.length (trace s)) (MotionMove req)
       then Fail (CollaboratorError (MotionMove req)) else Ok tt,
       addEvents s [MotionMove req])
  end.
Proof.
  unfold moveGripper, bind, getStartPose, abort.
  destruct (startPose s) as [theta |]; [| reflexivity].
  eexists. split; [| apply call_run]. reflexivity.
Qed.

(** One grasp attempt: what it answers and what it leaves in the trace. *)
Lemma myGrab_run (s : State) :
  let n := List.length (trace s) in
  exists evs,
    snd (myGrab s) = addEvents s evs /\
    grabCount evs = 1%nat /\ moveHeights evs = [] /\
    (forall p, fst (myGrab s) <> Abort p) /\
    (fails n GripperGrab = false ->
     fails (n + 2) ArmGetGripper = false ->
     forall p, gripper_position (n + 2) = Some p ->
     fst (myGrab s) = Ok (grabbed n && negb (Qlt_bool p 20))).
Proof.
  intro n. unfold myGrab, bind, now, emit, sleep, logf, emit, fail, ret. simpl.
  fold n.
  destruct (fails n GripperGrab) eqn:F1; simpl.
  { exists [GripperGrab]. repeat split; try discriminate; try (intros; congruence). }
  rewrite !length_app. simpl.
  replace (Datatypes.length (trace s) + 1 + 1)%nat with (n + 2)%nat by (unfold n; lia).
  destruct (fails (n + 2) ArmGetGripper) eqn:F2; simpl.
  { exists [GripperGrab; Sleep 300; ArmGetGripper].
    unfold addEvents; simpl. rewrite <- !app_assoc. simpl.
    repeat split; try discriminate; try (intros; congruence). }
  destruct (gripper_position (n + 2)) as [p |] eqn:G; simpl.
  2:{ exists [GripperGrab; Sleep 300; ArmGetGripper].
      unfold addEvents; simpl. rewrite <- !app_assoc. simpl.
      repeat split; try discriminate; try (intros; congruence). }
  destruct (Qlt_bool p 20) eqn:B; simpl.
  - destruct (grabbed n) eqn:G1; simpl.
    + exists [GripperGrab; Sleep 300; ArmGetGripper; Log DebugGripperRes; Log WarnGrabSaidGot].
      unfold addEvents; simpl. rewrite <- !app_assoc. simpl.
      repeat split; try discriminate; try (intros; congruence).
      intros _ _ p' Hp'. inversion Hp'; subst. now rewrite B.
    + exists [GripperGrab; Sleep 300; ArmGetGripper; Log DebugGripperRes].
      unfold addEvents; simpl. rewrite <- !app_assoc. simpl.
      repeat split; try discriminate; try (intros; congruence).
  - exists [GripperGrab; Sleep 300; ArmGetGripper; Log DebugGripperRes].
    unfold addEvents; simpl. rewrite <- !app_assoc. simpl.
    repeat split; try discriminate; try (intros; congruence).
    intros _ _ p' Hp'. inversion Hp'; subst. rewrite B. simpl.
    now rewrite andb_true_r.
Qed.

End Primitives.

(** ** Verification of a grasp *)

Section Grasp.

Context {L : Libraries} {C : Collaborators}.

(** C4 (as amended).  A grasp attempt in which neither the gripper nor the
    arm answers an error and the arm reports an aperture [p] is accepted
    exactly when Grab reported success and [p] is at least 20; otherwise
    myGrab answers false, and in the pick loop of movePiece an accepted
    attempt ends the loop at the current height while a refused one goes
    on to the retry path (warning, 10 lower, floor check, re-open). *)
Theorem myGrab_verification (s : State) (p : Q)
    (Hgrab : fails (List.length (trace s)) GripperGrab = false)
    (Hget : fails (List.length (trace s) + 2) ArmGetGripper = false)
    (Hp : gripper_position (List.length (trace s) + 2) = Some p) :
  exists got : bool,
    fst (myGrab s) = Ok got /\
    (got = true <-> grabbed (List.length (trace s)) = true /\ (20 <= p)%Q) /\
    (grabbed (List.length (trace s)) = true -> (p < 20)%Q -> got = false) /\
    (forall (fuel : nat) (center : r3.Vector) (useZ : Q) (s0 : State),
        moveGripper (r3.mkVector (r3.X center) (r3.Y center) useZ) s0 = (Ok tt, s) ->
        grabLoop (S fuel) center useZ s0 =
        if got then (Ok useZ, snd (myGrab s))
        else (logf WarnDidntGrab ;;
              if Qlt_bool (useZ - 10) 0 then fail CouldntGrab
              else setupGripper ;; grabLoop fuel center (useZ - 10)%Q)
               (snd (myGrab s))).
Proof.
  destruct (myGrab_run s) as (evs & _ & _ & _ & _ & Hres).
  specialize (Hres Hgrab Hget p Hp).
  exists (grabbed (List.length (trace s)) && negb (Qlt_bool p 20)).
  split; [exact Hres |]. split; [| split].
  - rewrite andb_true_iff, negb_true_iff, Qlt_bool_false_iff. reflexivity.
  - intros Hg Hlt. apply Qlt_bool_iff in Hlt. rewrite Hlt. apply andb_false_r.
  - intros fuel center useZ s0 Hmove.
    cbn [grabLoop]. unfold bind at 1. rewrite Hmove.
    unfold bind at 1.
    destruct (myGrab s) as [r s'] eqn:E. simpl in Hres. subst r. simpl.
    destruct (grabbed (List.length (trace s)) && negb (Qlt_bool p 20)); reflexivity.
Qed.

End Grasp.

(** The theorem on a fresh service whose gripper reports success with an
    aperture of 25. *)
Lemma myGrab_verification_witness :
  exists got : bool,
    fst (myGrab (C := firmGripper) (freshState true)) = Ok got /\
    (got = true <-> true = true /\ (20 <= 25)%Q).
Proof.
  destruct (@myGrab_verification firmGripper (freshState true) 25%Q)
    as (got & H1 & H2 & _); try reflexivity.
  exists got. split; [exact H1 | exact H2].
Defined.

(** C4 (as stated) fails at the threshold itself: with a reported success
    and an aperture of exactly 20, which does not exceed 20, the attempt is
    accepted and the pick loop ends at its first height without a retry. *)
Lemma myGrab_at_threshold_counterexample :
  ~ (20 < 20)%Q /\
  fst (myGrab (C := thresholdGripper) (freshState true)) = Ok true /\
  fst runThreshold = Ok 25%Q /\
  grabCount (trace (snd runThreshold)) = 1%nat.
Proof.
  split; [| split; [| split]].
  - intro H. apply Qlt_irrefl in H. exact H.
  - vm_compute. reflexivity.
  - vm_compute. reflexivity.
  - vm_compute. reflexivity.
Qed.

(** ** The grab loop *)

Lemma lowered_bound (k : nat) :
  forall h : Q,
    Forall (Qle 0) (lowered (S k) h) -> (10 * inject_Z (Z.of_nat k) <= h)%Q.
Proof.
  induction k as [| k IH]; intros h H.
  - inversion H; subst. change (inject_Z (Z.of_nat 0)) with 0%Q. lra.
  - cbn [lowered] in H. inversion H as [| x l Hh Hrest]; subst.
    apply IH in Hrest.
    rewrite Nat2Z.inj_succ. unfold Z.succ. rewrite inject_Z_plus.
    change (inject_Z 1) with 1%Q. lra.
Qed.

Section GrabLoop.

Context {L : Libraries} {C : Collaborators}.

(** The facts of the invariant when the loop stops within one round. *)
Ltac one_round :=
  split; [reflexivity |];
  split; [| split; [| split; [apply Forall_nil | split]]].

Lemma grabLoop_invariant (center : r3.Vector) (fuel : nat) :
  forall (h : Q) (s s' : State) (r : Result Q),
    (1 <= fuel)%nat ->
    (h < 10 * inject_Z (Z.of_nat fuel))%Q ->
    grabLoop fuel center h s = (r, s') ->
    exists (evs : list Event) (k : nat),
      s' = addEvents s evs /\
      moveHeights evs = lowered k h /\
      (grabCount evs <= k)%nat /\
      Forall (Qle 0) (tl (lowered k h)) /\
      r <> Abort OutOfFuel /\
      (wellBehaved C -> startPose s <> None ->
       (exists z, r = Ok z) \/ r = Fail CouldntGrab).
Proof.
  induction fuel as [| fuel IH]; intros h s s' r Hone Hfuel Hrun; [lia |].
  cbn [grabLoop] in Hrun.
  pose proof (moveGripper_run (r3.mkVector (r3.X center) (r3.Y center) h) s) as Hmove.
  destruct (startPose s) as [theta |] eqn:SP.
  2:{ unfold bind at 1 in Hrun. rewrite Hmove in Hrun. inversion Hrun; subst.
      exists [], 0%nat. cbn [lowered tl]. rewrite addEvents_nil.
      one_round; [reflexivity | cbn; lia | discriminate |].
      intros _ Hne. congruence. }
  destruct Hmove as (req & Hdest & Hmove).
  unfold bind at 1 in Hrun. rewrite Hmove in Hrun.
  assert (Hh : moveHeights [MotionMove req] = [h]).
  { cbn. rewrite Hdest. reflexivity. }
  destruct (fails (List.length (trace s)) (MotionMove req)) eqn:F.
  { inversion Hrun; subst.
    exists [MotionMove req], 1%nat. cbn [lowered tl].
    one_round; [exact Hh | cbn; lia | discriminate |].
    intros [Wf _] _. rewrite Wf in F. discriminate. }
  set (s1 := addEvents s [MotionMove req]) in *.
  unfold bind at 1 in Hrun.
  destruct (myGrab_run s1) as (evg & Hs2 & Hcount & Hnomove & Hnoabort & Hres).
  destruct (myGrab s1) as [rg s2] eqn:EG. cbn [fst snd] in *. subst s2.
  assert (Hone_round :
            moveHeights ([MotionMove req] ++ evg) = lowered 1 h /\
            (grabCount ([MotionMove req] ++ evg) <= 1)%nat).
  { rewrite moveHeights_app, grabCount_app, Hh, Hnomove, Hcount. cbn. split; [reflexivity | lia]. }
  destruct Hone_round as [Hm1 Hc1].
  unfold s1 in Hrun. rewrite addEvents_app in Hrun.
  destruct rg as [got | e | p].
  - destruct got.
    + (* the grab is accepted *)
      inversion Hrun; subst.
      exists ([MotionMove req] ++ evg)%list, 1%nat. cbn [tl lowered].
      one_round; [exact Hm1 | exact Hc1 | discriminate |].
      intros _ _. left. eexists. reflexivity.
    + (* retry path *)
      unfold bind at 1, logf in Hrun. rewrite emit_run, addEvents_app in Hrun.
      destruct (Qlt_bool (h - 10) 0) eqn:Floor.
      * inversion Hrun; subst.
        exists (([MotionMove req] ++ evg) ++ [Log WarnDidntGrab])%list, 1%nat.
        cbn [tl lowered]. rewrite moveHeights_app, grabCount_app, Hm1.
        change (grabCount [Log WarnDidntGrab]) with 0%nat.
        one_round; [reflexivity | lia | discriminate |].
        intros _ _. right. reflexivity.
      * apply Qlt_bool_false_iff in Floor.
        unfold setupGripper in Hrun. unfold bind at 1 in Hrun.
        rewrite call_run, addEvents_app in Hrun.
        match type of Hrun with
        | context [fails ?n (ArmMoveGripper 450)] =>
            destruct (fails n (ArmMoveGripper 450)) eqn:F2
        end.
        { inversion Hrun; subst.
          exists ((([MotionMove req] ++ evg) ++ [Log WarnDidntGrab])
                  ++ [ArmMoveGripper 450])%list, 1%nat.
          cbn [tl lowered]. rewrite !moveHeights_app, !grabCount_app, Hh, Hnomove, Hcount.
          change (grabCount [MotionMove req]) with 0%nat.
          change (grabCount [Log WarnDidntGrab]) with 0%nat.
          change (grabCount [ArmMoveGripper 450]) with 0%nat.
          one_round; [reflexivity | lia | discriminate |].
          intros [Wf _] _. rewrite Wf in F2. discriminate. }
        assert (Hfuel' : (h - 10 < 10 * inject_Z (Z.of_nat fuel))%Q).
        { rewrite Nat2Z.inj_succ in Hfuel. unfold Z.succ in Hfuel.
          rewrite inject_Z_plus in Hfuel. change (inject_Z 1) with 1%Q in Hfuel. lra. }
        assert (Hone' : (1 <= fuel)%nat).
        { destruct fuel; [| lia].
          change (inject_Z (Z.of_nat 0)) with 0%Q in Hfuel'. exfalso. lra. }
        destruct (IH _ _ _ _ Hone' Hfuel' Hrun)
          as (evs' & k' & Hsnd & Hm' & Hc' & Htl' & Hfuel_ok & Hwb).
        exists (((([MotionMove req] ++ evg) ++ [Log WarnDidntGrab])
                 ++ [ArmMoveGripper 450]) ++ evs')%list, (S k').
        rewrite Hsnd, !addEvents_app.
        rewrite !moveHeights_app, !grabCount_app, Hh, Hnomove, Hcount, Hm'.
        cbn [lowered tl].
        change (grabCount [MotionMove req]) with 0%nat.
        change (grabCount [Log WarnDidntGrab]) with 0%nat.
        change (grabCount [ArmMoveGripper 450]) with 0%nat.
        split; [reflexivity |]. split; [reflexivity |].
        split; [lia |].
        split.
        { destruct k' as [| k']; [constructor |].
          cbn [lowered tl] in *. constructor; assumption. }
        split; [exact Hfuel_ok |].
        intros HW Hsp. apply Hwb; [exact HW |].
        cbn. congruence.
  - (* the attempt answers an error *)
    inversion Hrun; subst.
    exists ([MotionMove req] ++ evg)%list, 1%nat. cbn [tl lowered].
    one_round; [exact Hm1 | exact Hc1 | discriminate |].
    intros [Wf Wp] _. exfalso.
    destruct (gripper_position (List.length (trace s1) + 2)) as [p |] eqn:G.
    + specialize (Hres (Wf _ _) (Wf _ _) p eq_refl). discriminate.
    + apply (Wp _ G).
  - exfalso. apply (Hnoabort p). reflexivity.
Qed.

Lemma grabIndices_app (a b : list Event) :
  forall n, grabIndices n (a ++ b)
            = (grabIndices n a ++ grabIndices (n + List.length a) b)%list.
Proof.
  induction a as [| e a IH]; intro n; cbn [app grabIndices List.length].
  - rewrite Nat.add_0_r. reflexivity.
  - replace (n + S (List.length a))%nat with (S n + List.length a)%nat by lia.
    destruct e; rewrite IH; reflexivity.
Qed.

Lemma grabIndices_reading (evs : list Event) :
  Forall (fun e => isReading e = true) evs -> forall n, grabIndices n evs = [].
Proof.
  induction 1 as [| e evs He _ IH]; intro n; [reflexivity |].
  destruct e; try discriminate; cbn [grabIndices]; apply IH.
Qed.

Lemma moveHeights_reading (evs : list Event) :
  Forall (fun e => isReading e = true) evs -> moveHeights evs = [].
Proof.
  induction 1 as [| e evs He _ IH]; [reflexivity |].
  destruct e; try discriminate; cbn; exact IH.
Qed.

Lemma grabCount_reading (evs : list Event) :
  Forall (fun e => isReading e = true) evs -> grabCount evs = 0%nat.
Proof.
  induction 1 as [| e evs He _ IH]; [reflexivity |].
  destruct e; try discriminate; cbn; exact IH.
Qed.

Lemma length_lowered (k : nat) : forall h, List.length (lowered k h) = k.
Proof.
  induction k as [| k IH]; intro h; cbn; [reflexivity | now rewrite IH].
Qed.

(** With collaborators that answer no error, a grasp attempt answers its
    verdict. *)
Lemma myGrab_wellBehaved (s : State) :
  wellBehaved C ->
  exists rest,
    myGrab s = (Ok (accepted (List.length (trace s))), addEvents s (GripperGrab :: rest)) /\
    Forall (fun e => isReading e = true) rest.
Proof.
  intros [Wf Wp].
  unfold myGrab, bind, now, emit, sleep, logf, emit, fail, ret, accepted. simpl.
  rewrite !Wf. simpl. rewrite !length_app. simpl.
  replace (Datatypes.length (trace s) + 1 + 1)%nat
    with (Datatypes.length (trace s) + 2)%nat by lia.
  destruct (gripper_position (Datatypes.length (trace s) + 2)) as [p |] eqn:G;
    [| exfalso; apply (Wp _ G)].
  simpl.
  destruct (Qlt_bool p 20) eqn:B;
    destruct (grabbed (Datatypes.length (trace s))) eqn:G1; simpl;
    eexists;
    (split;
     [unfold addEvents; simpl; rewrite <- ?app_assoc; simpl; reflexivity
     | repeat constructor]).
Qed.

Lemma moveGripper_wellBehaved (p : r3.Vector) (s : State) :
  wellBehaved C -> startPose s <> None ->
  exists req, Destination req = p /\
              moveGripper p s = (Ok tt, addEvents s [MotionMove req]).
Proof.
  intros [Wf _] Hpose. pose proof (moveGripper_run p s) as Hrun.
  destruct (startPose s); [| congruence].
  destruct Hrun as (req & Hd & Hrun). exists req. split; [exact Hd |].
  rewrite Hrun, Wf. reflexivity.
Qed.

(** With collaborators that answer no error the loop goes on exactly as
    long as the attempts are refused: it answers the height of the first
    accepted attempt, or the grasp error when the next height would be
    below 0. *)
Lemma grabLoop_verdicts (center : r3.Vector) (Hwell : wellBehaved C) (fuel : nat) :
  forall (h : Q) (s s' : State) (r : Result Q),
    startPose s <> None ->
    grabLoop fuel center h s = (r, s') ->
    r <> Abort OutOfFuel ->
    exists (evs : list Event) (k : nat),
      s' = addEvents s evs /\
      moveHeights evs = lowered (S k) h /\
      grabCount evs = S k /\
      ((exists z, r = Ok z /\ (z == h - 10 * inject_Z (Z.of_nat k))%Q /\
                  verdicts (List.length (trace s)) evs = (repeat false k ++ [true])%list) \/
       (r = Fail CouldntGrab /\
        verdicts (List.length (trace s)) evs = repeat false (S k) /\
        (h - 10 * inject_Z (Z.of_nat (S k)) < 0)%Q)).
Proof.
  induction fuel as [| fuel IH]; intros h s s' r Hpose Hrun Hfuel;
    cbn [grabLoop] in Hrun.
  - inversion Hrun; subst. exfalso. apply Hfuel. reflexivity.
  - unfold bind at 1 in Hrun.
    destruct (@moveGripper_wellBehaved (r3.mkVector (r3.X center) (r3.Y center) h) s
                Hwell Hpose) as (req & Hdest & Hmove).
    rewrite Hmove in Hrun.
    unfold bind at 1 in Hrun.
    destruct (@myGrab_wellBehaved (addEvents s [MotionMove req]) Hwell)
      as (rest & Hgrab & Hrest).
    rewrite Hgrab, addEvents_app in Hrun.
    assert (Hlen : List.length (trace (addEvents s [MotionMove req]))
                   = (List.length (trace s) + 1)%nat).
    { cbn [addEvents trace]. rewrite length_app. reflexivity. }
    rewrite Hlen in Hrun.
    set (round := ([MotionMove req] ++ GripperGrab :: rest)%list) in *.
    assert (Hh : moveHeights round = [h]).
    { unfold round. rewrite moveHeights_app.
      change (GripperGrab :: rest) with ([GripperGrab] ++ rest)%list.
      rewrite moveHeights_app, (moveHeights_reading Hrest). cbn. rewrite Hdest.
      reflexivity. }
    assert (Hc : grabCount round = 1%nat).
    { unfold round. rewrite grabCount_app.
      change (GripperGrab :: rest) with ([GripperGrab] ++ rest)%list.
      rewrite grabCount_app, (grabCount_reading Hrest). reflexivity. }
    assert (Hv : grabIndices (List.length (trace s)) round = [(List.length (trace s) + 1)%nat]).
    { unfold round. rewrite grabIndices_app. cbn [grabIndices List.length app].
      rewrite (grabIndices_reading Hrest). reflexivity. }
    destruct (accepted (List.length (trace s) + 1)) eqn:Hverdict.
    + (* the attempt is accepted *)
      inversion Hrun; subst.
      exists round, 0%nat.
      split; [reflexivity |]. split; [exact Hh |]. split; [exact Hc |].
      left. exists h. split; [reflexivity |]. split.
      * change (inject_Z (Z.of_nat 0)) with 0%Q. ring.
      * unfold verdicts. rewrite Hv. cbn [map repeat app]. rewrite Hverdict. reflexivity.
    + (* the attempt is refused *)
      unfold bind at 1, logf in Hrun. rewrite emit_run, addEvents_app in Hrun.
      destruct (Qlt_bool (h - 10) 0) eqn:Floor.
      * inversion Hrun; subst.
        exists (round ++ [Log WarnDidntGrab])%list, 0%nat.
        split; [reflexivity |].
        rewrite moveHeights_app, grabCount_app, Hh, Hc.
        split; [reflexivity |]. split; [reflexivity |].
        right. split; [reflexivity |]. split.
        -- unfold verdicts. rewrite grabIndices_app, Hv. cbn [grabIndices app map repeat].
           rewrite Hverdict. reflexivity.
        -- apply Qlt_bool_iff in Floor. change (inject_Z (Z.of_nat 1)) with 1%Q. lra.
      * unfold setupGripper in Hrun. unfold bind at 1 in Hrun.
        rewrite call_run, addEvents_app in Hrun.
        rewrite (proj1 Hwell) in Hrun.
        set (prefix := ((round ++ [Log WarnDidntGrab]) ++ [ArmMoveGripper 450])%list) in *.
        assert (Hpose' : startPose (addEvents s prefix) <> None) by exact Hpose.
        destruct (IH _ _ _ _ Hpose' Hrun Hfuel) as (evs' & k' & Hs' & Hm' & Hc' & Hcases).
        assert (Hlen' : List.length (trace (addEvents s prefix))
                        = (List.length (trace s) + List.length prefix)%nat).
        { cbn [addEvents trace]. apply length_app. }
        rewrite Hlen' in Hcases.
        assert (Hvp : grabIndices (List.length (trace s)) prefix
                      = [(List.length (trace s) + 1)%nat]).
        { unfold prefix. rewrite !grabIndices_app, Hv. cbn [grabIndices app]. reflexivity. }
        assert (Hvs : verdicts (List.length (trace s)) (prefix ++ evs')
                      = false :: verdicts (List.length (trace s) + List.length prefix) evs').
        { unfold verdicts. rewrite grabIndices_app, Hvp. cbn [app map].
          rewrite Hverdict. reflexivity. }
        exists (prefix ++ evs')%list, (S k').
        rewrite Hs', addEvents_app. split; [reflexivity |].
        split.
        { rewrite moveHeights_app, Hm'. unfold prefix.
          rewrite !moveHeights_app, Hh. reflexivity. }
        split.
        { rewrite grabCount_app, Hc'. unfold prefix.
          rewrite !grabCount_app, Hc. reflexivity. }
        assert (Hk : (inject_Z (Z.of_nat (S k')) == inject_Z (Z.of_nat k') + 1)%Q).
        { rewrite Nat2Z.inj_succ. unfold Z.succ. rewrite inject_Z_plus. reflexivity. }
        destruct Hcases as [(z & Hr & Hz & Hvz) | (Hr & Hvz & Hfloor)].
        -- left. exists z. split; [exact Hr |]. split.
           ++ rewrite Hz, Hk. ring.
           ++ rewrite Hvs, Hvz. reflexivity.
        -- right. split; [exact Hr |]. split.
           ++ rewrite Hvs, Hvz. reflexivity.
           ++ assert (Hk2 : (inject_Z (Z.of_nat (S (S k')))
                             == inject_Z (Z.of_nat (S k')) + 1)%Q).
              { rewrite (Nat2Z.inj_succ (S k')). unfold Z.succ. rewrite inject_Z_plus.
                reflexivity. }
              rewrite Hk2. lra.
Qed.

(** C5 (as amended).  With fuel for [roundsFor h] rounds, which exists for
    every initial height [h], the grab loop ends, and never by running out
    of fuel: the heights it commands are [h], [h - 10], [h - 20], ..., one
    per attempt; every height after the first is at least 0; when the
    initial height is at least 0 every commanded height is at least 0 and
    the number of grasp attempts is at most [h / 10 + 1].  When no
    collaborator answers an error, every attempt but the last was refused;
    the loop answers the height of the last attempt exactly when that
    attempt was accepted (the gripper reports a hold with an aperture of
    at least 20), and otherwise ends with the grasp error, the next height
    being below 0; so it ends with the grasp error when no attempt is
    accepted. *)
Theorem grabLoop_bounded (center : r3.Vector) (h : Q) (fuel : nat) (s : State)
    (Hfuel : (roundsFor h <= fuel)%nat) :
  fst (grabLoop fuel center h s) <> Abort OutOfFuel /\
  exists (evs : list Event) (k : nat),
    trace (snd (grabLoop fuel center h s)) = (trace s ++ evs)%list /\
    moveHeights evs = lowered k h /\
    (grabCount evs <= k)%nat /\
    Forall (Qle 0) (tl (moveHeights evs)) /\
    ((0 <= h)%Q ->
     Forall (Qle 0) (moveHeights evs) /\
     (inject_Z (Z.of_nat (grabCount evs)) <= h / 10 + 1)%Q) /\
    (wellBehaved C -> startPose s <> None ->
     grabCount evs = k /\ (1 <= k)%nat /\
     ((exists z, fst (grabLoop fuel center h s) = Ok z /\
                 (z == h - 10 * (inject_Z (Z.of_nat k) - 1))%Q /\
                 verdicts (List.length (trace s)) evs
                 = (repeat false (k - 1) ++ [true])%list) \/
      (fst (grabLoop fuel center h s) = Fail CouldntGrab /\
       classOf CouldntGrab = GraspError /\
       verdicts (List.length (trace s)) evs = repeat false k /\
       (h - 10 * inject_Z (Z.of_nat k) < 0)%Q)) /\
     ((forall n, accepted n = false) ->
      fst (grabLoop fuel center h s) = Fail CouldntGrab)).
Proof.
  apply roundsFor_enough in Hfuel. destruct Hfuel as [Hone Hlt].
  destruct (grabLoop fuel center h s) as [r s'] eqn:Hrun.
  destruct (@grabLoop_invariant center fuel h s s' r Hone Hlt Hrun)
    as (evs & k & Hs & Hm & Hc & Htl & Hno & _).
  cbn [fst snd]. split; [exact Hno |].
  exists evs, k. subst s'. cbn [addEvents trace].
  split; [reflexivity |]. split; [exact Hm |]. split; [exact Hc |].
  rewrite Hm. split; [exact Htl |]. split.
  - intro Hpos. destruct k as [| k].
    + split; [constructor |].
      assert (E : grabCount evs = 0%nat) by lia. rewrite E.
      change (inject_Z (Z.of_nat 0)) with 0%Q.
      assert (Hd : (h / 10 == h * (1 # 10))%Q) by (field).
      rewrite Hd. lra.
    + assert (Hall : Forall (Qle 0) (lowered (S k) h)).
      { cbn [lowered tl] in *. constructor; assumption. }
      split; [exact Hall |].
      apply lowered_bound in Hall.
      assert (Hle : (inject_Z (Z.of_nat (grabCount evs)) <= inject_Z (Z.of_nat (S k)))%Q).
      { rewrite <- Zle_Qle. lia. }
      rewrite Nat2Z.inj_succ in Hle. unfold Z.succ in Hle.
      rewrite inject_Z_plus in Hle. change (inject_Z 1) with 1%Q in Hle.
      assert (Hd : (h / 10 == h * (1 # 10))%Q) by (field).
      rewrite Hd. lra.
  - intros HW Hsp.
    destruct (@grabLoop_verdicts center HW fuel h s (addEvents s evs) r Hsp Hrun Hno)
      as (evs' & k' & Hs' & Hm' & Hc' & Hcases).
    assert (Hevs : evs' = evs).
    { apply (f_equal trace) in Hs'. cbn [addEvents trace] in Hs'.
      apply app_inv_head in Hs'. symmetry. exact Hs'. }
    subst evs'.
    assert (Hk : k = S k').
    { rewrite Hm in Hm'. apply (f_equal (@List.length Q)) in Hm'.
      rewrite !length_lowered in Hm'. exact Hm'. }
    subst k.
    assert (Hq : (inject_Z (Z.of_nat (S k')) - 1 == inject_Z (Z.of_nat k'))%Q).
    { rewrite Nat2Z.inj_succ. unfold Z.succ. rewrite inject_Z_plus.
      change (inject_Z 1) with 1%Q. ring. }
    replace (S k' - 1)%nat with k' by lia.
    split; [exact Hc' |]. split; [lia |]. split.
    + destruct Hcases as [(z & Hr & Hz & Hv) | (Hr & Hv & Hfloor)].
      * left. exists z. split; [exact Hr |]. split; [| exact Hv].
        rewrite Hz, Hq. reflexivity.
      * right. split; [exact Hr |]. split; [reflexivity |]. split; assumption.
    + intro Hnever.
      destruct Hcases as [(z & Hr & Hz & Hv) | (Hr & _)]; [| exact Hr].
      exfalso.
      assert (Hin : In true (verdicts (List.length (trace s)) evs)).
      { rewrite Hv. apply in_or_app. right. left. reflexivity. }
      unfold verdicts in Hin. apply in_map_iff in Hin.
      destruct Hin as (n & Hn & _). rewrite Hnever in Hn. discriminate.
Qed.

End GrabLoop.

(** The theorem from height 25 with a gripper that never gets hold of the
    piece: three attempts, at 25, 15 and 5, all refused, then the grasp
    error. *)
Lemma grabLoop_bounded_witness :
  fst runFrom25 <> Abort OutOfFuel /\
  fst runFrom25 = Fail CouldntGrab /\
  moveHeights (trace (snd runFrom25)) = [25; 15; 5]%Q /\
  grabCount (trace (snd runFrom25)) = 3%nat /\
  verdicts (C := emptyGripper) 0 (trace (snd runFrom25)) = [false; false; false].
Proof.
  assert (Hfuel : (roundsFor 25 <= 4)%nat) by (vm_compute; lia).
  assert (Hwell : wellBehaved emptyGripper).
  { split; [intros n e; reflexivity | intros n H; discriminate]. }
  assert (Hpose : startPose (freshState true) <> None) by discriminate.
  destruct (@grabLoop_bounded emptyGripper (r3.mkVector 104 52 25) 25%Q 4%nat
              (freshState true) Hfuel)
    as (Hno & evs & k & _ & _ & _ & _ & _ & Hverdicts).
  destruct (Hverdicts Hwell Hpose) as (_ & _ & _ & Hnever).
  split; [exact Hno |]. split; [| split; [| split]].
  - apply Hnever. intro n. reflexivity.
  - vm_compute. reflexivity.
  - vm_compute. reflexivity.
  - vm_compute. reflexivity.
Defined.

(** The slipping gripper of the specification: success reported with an
    aperture of 5 three times, then 25; three retries, each 10 lower, and
    the piece is held at the fourth height. *)
Example grabLoop_three_retries :
  fst runSlipping = Ok 5%Q /\
  moveHeights (trace (snd runSlipping)) = [35; 25; 15; 5]%Q /\
  grabCount (trace (snd runSlipping)) = 4%nat.
Proof.
  split; [| split]; vm_compute; reflexivity.
Qed.

(** C5 (as stated) fails for an initial height below 0: from height -5 the
    first descend is commanded at -5, below the floor, and one attempt is
    made although -5 / 10 + 1 is below 1. *)
Lemma grabLoop_negative_start_counterexample :
  fst runFromMinus5 = Fail CouldntGrab /\
  moveHeights (trace (snd runFromMinus5)) = [(-5)%Q] /\
  ~ (0 <= -5)%Q /\
  grabCount (trace (snd runFromMinus5)) = 1%nat /\
  ~ (inject_Z (Z.of_nat (grabCount (trace (snd runFromMinus5)))) <= -5 / 10 + 1)%Q.
Proof.
  split; [| split; [| split; [| split]]].
  - vm_compute. reflexivity.
  - vm_compute. reflexivity.
  - intro H. vm_compute in H. apply H. reflexivity.
  - vm_compute. reflexivity.
  - intro H. vm_compute in H. apply H. reflexivity.
Qed.

(** ** What a computation may emit *)

Section Emits.

Context {L : Libraries} {C : Collaborators}.

Variable P : Event -> Prop.

Lemma emits_pure (A : Type) (m : M A) :
  (forall s, snd (m s) = s) -> emits P m.
Proof.
  intros H s. exists []. rewrite H, app_nil_r. repeat split. constructor.
Qed.

Lemma emits_ret (A : Type) (a : A) : emits P (ret a).
Proof. apply emits_pure. reflexivity. Qed.

Lemma emits_fail (A : Type) (e : Error) : emits P (fail (A := A) e).
Proof. apply emits_pure. reflexivity. Qed.

Lemma emits_abort (A : Type) (p : Abnormal) : emits P (abort (A := A) p).
Proof. apply emits_pure. reflexivity. Qed.

Lemma emits_lift (A : Type) (r : Result A) : emits P (lift r).
Proof. apply emits_pure. reflexivity. Qed.

Lemma emits_now : emits P now.
Proof. apply emits_pure. reflexivity. Qed.

Lemma emits_getStartPose : emits P getStartPose.
Proof. apply emits_pure. reflexivity. Qed.

Lemma emits_getFenFile : emits P getFenFile.
Proof. apply emits_pure. reflexivity. Qed.

Lemma emits_getEngine : emits P getEngine.
Proof. apply emits_pure. reflexivity. Qed.

Lemma emits_setStartPose (p : option Q) : emits P (setStartPose p).
Proof.
  intro s. exists []. cbn. rewrite app_nil_r. repeat split. constructor.
Qed.

Lemma emits_emit (e : Event) : P e -> emits P (emit e).
Proof.
  intros He s. exists [e]. cbn. repeat split. constructor; [exact He | constructor].
Qed.

Lemma emits_bind (A B : Type) (m : M A) (k : A -> M B) :
  emits P m -> (forall a, emits P (k a)) -> emits P (bind m k).
Proof.
  intros Hm Hk s. unfold bind.
  destruct (Hm s) as (evs1 & Ht1 & Hp1 & Hf1).
  destruct (m s) as [[a | e | p] s1]; cbn [snd] in *.
  - destruct (Hk a s1) as (evs2 & Ht2 & Hp2 & Hf2).
    exists (evs1 ++ evs2)%list. rewrite Ht2, Ht1, app_assoc.
    split; [reflexivity |]. split; [apply Forall_app; split; assumption |].
    intro Hnf. apply Forall_app in Hnf. destruct Hnf as [Hn1 Hn2].
    rewrite (Hf2 Hn2). apply Hf1, Hn1.
  - exists evs1. repeat split; assumption.
  - exists evs1. repeat split; assumption.
Qed.

Lemma emits_wrapError (A : Type) (wrap : Error -> Error) (m : M A) :
  emits P m -> emits P (wrapError wrap m).
Proof.
  intros Hm s. unfold wrapError.
  destruct (Hm s) as (evs & Ht & Hp & Hf).
  destruct (m s) as [[a | e | p] s1]; cbn [snd] in *;
    exists evs; repeat split; assumption.
Qed.

Lemma emits_call (e : Event) : P e -> emits P (call e).
Proof.
  intros He s. rewrite call_run. exists [e]. cbn.
  repeat split. constructor; [exact He | constructor].
Qed.

End Emits.

Lemma emits_weaken {A : Type} (P Q : Event -> Prop) (m : M A) :
  (forall e, P e -> Q e) -> emits P m -> emits Q m.
Proof.
  intros HPQ Hm s. destruct (Hm s) as (evs & Ht & Hp & Hf).
  exists evs. repeat split; try assumption.
  eapply Forall_impl; [exact HPQ | exact Hp].
Qed.

(** One step of the analysis of a computation. *)
Ltac emits_step :=
  match goal with
  | |- emits _ (bind _ _) => apply emits_bind; [| intro]
  | |- emits _ (ret _) => apply emits_ret
  | |- emits _ (fail _) => apply emits_fail
  | |- emits _ (abort _) => apply emits_abort
  | |- emits _ (lift _) => apply emits_lift
  | |- emits _ now => apply emits_now
  | |- emits _ getStartPose => apply emits_getStartPose
  | |- emits _ getFenFile => apply emits_getFenFile
  | |- emits _ getEngine => apply emits_getEngine
  | |- emits _ (setStartPose _) => apply emits_setStartPose
  | |- emits _ (emit _) => apply emits_emit; reflexivity
  | |- emits _ (call _) => apply emits_call; reflexivity
  | |- emits _ (logf _) => unfold logf
  | |- emits _ (sleep _) => unfold sleep
  | |- emits _ (wrapError _ _) => apply emits_wrapError
  | |- emits _ (if ?b then _ else _) => destruct b
  | |- emits _ (match ?x with _ => _ end) => destruct x
  end.

Ltac emits_auto := repeat emits_step.

Section Handling.

Context {L : Libraries} {C : Collaborators}.

Lemma setupGripper_emits : emits (fun e => isHandling e = true) setupGripper.
Proof. unfold setupGripper. emits_auto. Qed.

Lemma moveGripper_emits (p : r3.Vector) :
  emits (fun e => isHandling e = true) (moveGripper p).
Proof. unfold moveGripper. emits_auto. Qed.

Lemma myGrab_emits : emits (fun e => isHandling e = true) myGrab.
Proof. unfold myGrab. emits_auto. Qed.

Lemma grabLoop_emits (center : r3.Vector) (fuel : nat) :
  forall useZ, emits (fun e => isHandling e = true) (grabLoop fuel center useZ).
Proof.
  induction fuel as [| fuel IH]; intro useZ; cbn [grabLoop].
  - emits_auto.
  - apply emits_bind; [apply moveGripper_emits | intros _].
    apply emits_bind; [apply myGrab_emits | intros [|]]; [emits_auto |].
    apply emits_bind; [emits_auto | intros _].
    destruct (Qlt_bool (useZ - 10) 0); [emits_auto |].
    apply emits_bind; [apply setupGripper_emits | intros _]. apply IH.
Qed.

Lemma pickAndPlace_emits (fuel : nat) (data : VisCapture) (from to : string) :
  emits (fun e => isHandling e = true) (pickAndPlace fuel data from to).
Proof.
  unfold pickAndPlace.
  repeat first
    [ apply moveGripper_emits | apply setupGripper_emits | apply grabLoop_emits
    | apply emits_lift
    | apply emits_bind; [| intro] ].
Qed.

Lemma movePiece_emits (fuel : nat) (data : VisCapture) (depth : nat) :
  forall from to,
    emits (fun e => isHandling e || isMoveLog e = true)
          (movePiece depth fuel data from to).
Proof.
  induction depth as [| depth IH]; intros from to; cbn [movePiece].
  - emits_auto.
  - apply emits_bind; [emits_auto | intros _].
    apply emits_bind.
    + destruct (negb (to =? "-")); [| emits_auto].
      destruct (findObject data to) as [o |]; [| emits_auto].
      destruct (negb (HasSuffix (viz.Label o) "-0")); [| emits_auto].
      apply emits_bind; [emits_auto | intros _].
      apply emits_wrapError, IH.
    + intros _. eapply emits_weaken; [| apply pickAndPlace_emits].
      intros e He. cbn beta in *. now rewrite He.
Qed.

Lemma goToStart_emits : emits (fun e => isHoming e = true) goToStart.
Proof. unfold goToStart. emits_auto. Qed.

Lemma homeOrWarn_emits : emits (fun e => isHoming e = true) homeOrWarn.
Proof.
  intro s. unfold homeOrWarn.
  destruct (goToStart_emits s) as (evs & Ht & Hp & Hf).
  destruct (goToStart s) as [[[] | e | p] s1]; cbn [snd] in *.
  - exists evs. repeat split; assumption.
  - exists (evs ++ [Log WarnCantGoHome])%list. cbn. rewrite Ht, app_assoc.
    split; [reflexivity |]. split.
    + apply Forall_app. split; [exact Hp | repeat constructor].
    + intro Hnf. apply Forall_app in Hnf. apply Hf, Hnf.
  - exists evs. repeat split; assumption.
Qed.

Lemma capture_emits :
  emits (fun e => e = CaptureAllFromCamera) capture.
Proof. unfold capture. emits_auto. Qed.

End Handling.

(** ** Displacement of a piece on the destination *)

Lemma movePieceCalls_app (a b : list Event) :
  movePieceCalls (a ++ b) = (movePieceCalls a ++ movePieceCalls b)%list.
Proof.
  unfold movePieceCalls. apply flat_map_app.
Qed.

Lemma movePieceCalls_handling (evs : list Event) :
  Forall (fun e => isHandling e = true) evs -> movePieceCalls evs = [].
Proof.
  induction 1 as [| e evs He _ IH]; [reflexivity |].
  change (e :: evs) with ([e] ++ evs)%list.
  rewrite movePieceCalls_app, IH, app_nil_r.
  destruct e as [| | | | | | | | | | | | msg]; try reflexivity.
  destruct msg; try reflexivity; discriminate.
Qed.

Section Displacement.

Context {L : Libraries} {C : Collaborators}.

Lemma movePiece_S (depth fuel : nat) (data : VisCapture) (from to : string) :
  movePiece (S depth) fuel data from to =
  (logf (InfoMovePieceCalled from to) ;;
   (if negb (to =? "-") then
      match findObject data to with
      | None => fail (CantFindObject to)
      | Some o =>
          if negb (HasSuffix (viz.Label o) "-0") then
            logf (InfoAlreadyHasPiece to (viz.Label o)) ;;
            wrapError CantMoveOutOfTheWay (movePiece depth fuel data to "-")
          else ret tt
      end
    else ret tt) ;;
   pickAndPlace fuel data from to).
Proof. reflexivity. Qed.

(** A call with the discard label goes straight to picking and placing. *)
Lemma movePiece_discard (depth fuel : nat) (data : VisCapture) (from : string) (s : State) :
  movePiece (S depth) fuel data from "-" s =
  pickAndPlace fuel data from "-" (addEvents s [Log (InfoMovePieceCalled from "-")]).
Proof. reflexivity. Qed.

Lemma pickAndPlace_calls (fuel : nat) (data : VisCapture) (from to : string) (s : State) :
  exists evs,
    trace (snd (pickAndPlace fuel data from to s)) = (trace s ++ evs)%list /\
    movePieceCalls evs = [].
Proof.
  destruct (pickAndPlace_emits fuel data from to s) as (evs & Ht & Hp & _).
  exists evs. split; [exact Ht | apply movePieceCalls_handling, Hp].
Qed.

(** C6.  For a destination other than "-" that is found in the capture:
    when its label ends in "-0" (empty) movePiece is the pick-and-place
    sequence alone and logs one invocation; when it does not (occupied),
    one invocation movePiece(data, to, "-") runs first, before any event of
    the main sequence, the main sequence follows only if it succeeded, and
    two invocations are logged in all; an invocation with destination "-"
    never looks at the destination, so the nesting stops there. *)
Theorem movePiece_displacement (depth fuel : nat) (data : VisCapture)
    (from to : string) (s : State) (o : viz.Object)
    (Hto : to <> "-") (Hfind : findObject data to = Some o) :
  let run := movePiece (S (S depth)) fuel data from to s in
  let called := Log (InfoMovePieceCalled from to) in
  (HasSuffix (viz.Label o) "-0" = true ->
   run = pickAndPlace fuel data from to (addEvents s [called]) /\
   exists evs,
     trace (snd run) = (trace s ++ evs)%list /\
     movePieceCalls evs = [(from, to)]) /\
  (HasSuffix (viz.Label o) "-0" = false ->
   let s0 := addEvents s [called; Log (InfoAlreadyHasPiece to (viz.Label o))] in
   let sub := movePiece (S depth) fuel data to "-" s0 in
   (exists evs',
       trace (snd sub) = (trace s0 ++ evs')%list /\
       movePieceCalls evs' = [(to, "-")]) /\
   run = match fst sub with
         | Ok _ => pickAndPlace fuel data from to (snd sub)
         | Fail e => (Fail (CantMoveOutOfTheWay e), snd sub)
         | Abort p => (Abort p, snd sub)
         end /\
   exists evs,
     trace (snd run) = (trace s ++ evs)%list /\
     movePieceCalls evs = [(from, to); (to, "-")]) /\
  (forall (from' : string) (s' : State),
      movePiece (S depth) fuel data from' "-" s' =
      pickAndPlace fuel data from' "-"
                   (addEvents s' [Log (InfoMovePieceCalled from' "-")])).
Proof.
  intros run called.
  apply String.eqb_neq in Hto.
  assert (Hrun : run =
                 ((if negb (HasSuffix (viz.Label o) "-0") then
                     logf (InfoAlreadyHasPiece to (viz.Label o)) ;;
                     wrapError CantMoveOutOfTheWay (movePiece (S depth) fuel data to "-")
                   else ret tt) ;;
                  pickAndPlace fuel data from to) (addEvents s [called])).
  { unfold run. rewrite movePiece_S. unfold bind at 1, logf. rewrite emit_run.
    rewrite Hto, Hfind. reflexivity. }
  split; [| split].
  - intro Hsuf. rewrite Hsuf in Hrun. cbn [negb] in Hrun.
    assert (E : run = pickAndPlace fuel data from to (addEvents s [called])).
    { rewrite Hrun. reflexivity. }
    split; [exact E |].
    destruct (pickAndPlace_calls fuel data from to (addEvents s [called]))
      as (evs & Ht & Hc).
    exists (called :: evs). rewrite E, Ht. cbn [addEvents trace].
    rewrite <- app_assoc. split; [reflexivity |].
    change (called :: evs) with ([called] ++ evs)%list.
    rewrite movePieceCalls_app, Hc. reflexivity.
  - intros Hsuf s0 sub. rewrite Hsuf in Hrun. cbn [negb] in Hrun.
    assert (Hsub : exists evs',
               trace (snd sub) = (trace s0 ++ evs')%list /\
               movePieceCalls evs' = [(to, "-")]).
    { unfold sub. rewrite movePiece_discard.
      destruct (pickAndPlace_calls fuel data to "-"
                  (addEvents s0 [Log (InfoMovePieceCalled to "-")])) as (evs & Ht & Hc).
      exists (Log (InfoMovePieceCalled to "-") :: evs). rewrite Ht. cbn [addEvents trace].
      rewrite <- app_assoc. split; [reflexivity |].
      change (Log (InfoMovePieceCalled to "-") :: evs)
        with ([Log (InfoMovePieceCalled to "-")] ++ evs)%list.
      rewrite movePieceCalls_app, Hc. reflexivity. }
    assert (E : run = match fst sub with
                      | Ok _ => pickAndPlace fuel data from to (snd sub)
                      | Fail e => (Fail (CantMoveOutOfTheWay e), snd sub)
                      | Abort p => (Abort p, snd sub)
                      end).
    { rewrite Hrun. unfold bind at 1. unfold bind at 1, logf. rewrite emit_run.
      rewrite addEvents_app. cbn [app]. fold s0. unfold wrapError. fold sub.
      destruct sub as [[[] | e | p] s1]; reflexivity. }
    split; [exact Hsub |]. split; [exact E |].
    destruct Hsub as (evs' & Ht' & Hc').
    assert (Hs0 : trace s0 = (trace s ++ [called; Log (InfoAlreadyHasPiece to (viz.Label o))])%list)
      by reflexivity.
    destruct (fst sub) as [[] | e | p] eqn:Hr.
    + destruct (pickAndPlace_calls fuel data from to (snd sub)) as (evs & Ht & Hc).
      exists (([called; Log (InfoAlreadyHasPiece to (viz.Label o))] ++ evs') ++ evs)%list.
      rewrite E, Ht, Ht', Hs0, <- !app_assoc. split; [reflexivity |].
      rewrite !movePieceCalls_app, Hc', Hc. reflexivity.
    + exists ([called; Log (InfoAlreadyHasPiece to (viz.Label o))] ++ evs')%list.
      rewrite E. cbn [snd]. rewrite Ht', Hs0, <- !app_assoc. split; [reflexivity |].
      rewrite !movePieceCalls_app, Hc'. reflexivity.
    + exists ([called; Log (InfoAlreadyHasPiece to (viz.Label o))] ++ evs')%list.
      rewrite E. cbn [snd]. rewrite Ht', Hs0, <- !app_assoc. split; [reflexivity |].
      rewrite !movePieceCalls_app, Hc'. reflexivity.
  - intros from' s'. apply movePiece_discard.
Qed.

End Displacement.

(** ** Homing *)

Section Homing.

Context {L : Libraries} {C : Collaborators}.

(** goToStart walks through the homing events and stops at the first call
    that answers an error; it never ends abnormally and never touches the
    position file. *)
Lemma goToStart_run (s : State) :
  exists n : nat,
    (1 <= n <= 4)%nat /\
    trace (snd (goToStart s)) = (trace s ++ firstn n homingEvents)%list /\
    (fst (goToStart s) = Ok tt -> n = 4%nat) /\
    (forall p, fst (goToStart s) <> Abort p) /\
    fenFile (snd (goToStart s)) = fenFile s.
Proof.
  unfold goToStart, bind, call, now, emit, sleep, emit, setStartPose, fail, ret, bind.
  cbn.
  destruct (fails (List.length (trace s)) (SwitchSetPosition 2)); cbn.
  { exists 1%nat. repeat split; try lia; try discriminate. }
  destruct (fails _ GripperOpen); cbn.
  { exists 2%nat. rewrite <- !app_assoc. repeat split; try lia; try discriminate. }
  destruct (fails _ FrameGetPose); cbn.
  { exists 4%nat. rewrite <- !app_assoc. repeat split; try lia; try discriminate. }
  exists 4%nat. rewrite <- !app_assoc. repeat split; try lia; try discriminate.
Qed.

Lemma emits_defer (A : Type) (P : Event -> Prop) (finalizer : M unit) (body : M A) :
  emits P body -> emits P finalizer -> emits P (defer finalizer body).
Proof.
  intros Hb Hf s. unfold defer.
  destruct (Hb s) as (evs1 & Ht1 & Hp1 & Hf1).
  destruct (body s) as [r s1]. cbn [snd] in *.
  destruct (Hf s1) as (evs2 & Ht2 & Hp2 & Hf2).
  exists (evs1 ++ evs2)%list.
  assert (Hsnd : snd (match finalizer s1 with
                      | (Abort p, s2) => (Abort p, s2)
                      | (_, s2) => (r, s2)
                      end) = snd (finalizer s1)).
  { destruct (finalizer s1) as [[[] | e | p] s2]; reflexivity. }
  rewrite Hsnd, Ht2, Ht1, app_assoc.
  split; [reflexivity |]. split; [apply Forall_app; split; assumption |].
  intro Hnf. apply Forall_app in Hnf. destruct Hnf as [Hn1 Hn2].
  rewrite (Hf2 Hn2). apply Hf1, Hn1.
Qed.

(** C9.  Whatever the command and whatever way the body of DoCommand ends
    (a reply, an error — a command that does not decode or matches no shape
    included — or a run-time failure), the homing sequence is started on the
    state the body left: the staging switch is set to 2 first, then the
    gripper is opened, then the pose is read, up to the first step that
    answers an error; such an error only adds the warning to the log; and
    DoCommand answers exactly what its body answered. *)
Theorem DoCommand_always_homes (depth fuel : nat) (cmdMap : CmdMap) (s : State) :
  let body := DoCommandBody depth fuel cmdMap s in
  let home := goToStart (snd body) in
  fst (DoCommand depth fuel cmdMap s) = fst body /\
  (exists n : nat,
      (1 <= n <= 4)%nat /\
      trace (snd home) = (trace (snd body) ++ firstn n homingEvents)%list /\
      (fst home = Ok tt -> n = 4%nat)) /\
  trace (snd (DoCommand depth fuel cmdMap s)) =
  (trace (snd home)
   ++ match fst home with Fail _ => [Log WarnCantGoHome] | _ => [] end)%list /\
  (Decode cmdMap = None -> fst (DoCommand depth fuel cmdMap s) = Fail DecodeError).
Proof.
  intros body home.
  destruct (goToStart_run (snd body)) as (n & Hn & Ht & Hok & Hab & _).
  fold home in Ht, Hok, Hab.
  assert (Hrun : DoCommand depth fuel cmdMap s =
                 (fst body,
                  match fst home with
                  | Fail _ => addEvents (snd home) [Log WarnCantGoHome]
                  | _ => snd home
                  end)).
  { unfold DoCommand, defer, homeOrWarn. fold body.
    destruct body as [r s1]. cbn [fst snd] in *. fold home.
    destruct home as [[[] | e | p] s2]; cbn [fst snd] in *.
    - reflexivity.
    - reflexivity.
    - exfalso. apply (Hab p). reflexivity. }
  split; [rewrite Hrun; reflexivity |].
  split; [exists n; repeat split; try lia; assumption |].
  split.
  - rewrite Hrun. cbn [snd]. destruct (fst home) as [[] | e | p]; cbn.
    + now rewrite app_nil_r.
    + reflexivity.
    + now rewrite app_nil_r.
  - intro Hdec. rewrite Hrun. cbn [fst]. unfold body, DoCommandBody.
    rewrite Hdec. reflexivity.
Qed.

End Homing.

(** ** Manual moves and the position file *)

Lemma isManual_not_file (e : Event) : isManual e = true -> isFileEvent e = false.
Proof.
  destruct e as [| | | | | | | | | | | | msg]; try reflexivity; discriminate.
Qed.

Section Manual.

Context {L : Libraries} {C : Collaborators}.

Lemma manualRounds_emits (depth fuel : nat) (cmd : MoveCmd) (rounds : nat) :
  forall x, emits (fun e => isManual e = true) (manualRounds depth fuel cmd x rounds).
Proof.
  induction rounds as [| rounds IH]; intro x; cbn [manualRounds].
  - apply emits_ret.
  - apply emits_bind; [| intros _].
    { eapply emits_weaken; [| apply goToStart_emits].
      intros e He. unfold isManual. cbn beta in He. rewrite He.
      now rewrite orb_true_r. }
    destruct (x mod 2 =? 1)%Z.
    + apply emits_bind; [| intro all].
      { eapply emits_weaken; [| apply capture_emits]. intros e ->. reflexivity. }
      apply emits_bind; [| intros _; apply IH].
      eapply emits_weaken; [| apply movePiece_emits].
      intros e He. unfold isManual. cbn beta in He. now rewrite He.
    + apply emits_bind; [| intro all].
      { eapply emits_weaken; [| apply capture_emits]. intros e ->. reflexivity. }
      apply emits_bind; [| intros _; apply IH].
      eapply emits_weaken; [| apply movePiece_emits].
      intros e He. unfold isManual. cbn beta in He. now rewrite He.
Qed.

(** C10.  A command that decodes to a move with both squares given takes
    the manual path whatever its Go field says, and from first to last,
    the deferred homing included and whether it succeeds or fails, it
    neither reads nor writes the position file: the file is what it was
    and no event of the call is a file event. *)
Theorem manual_move_keeps_position_file (depth fuel : nat) (cmdMap : CmdMap)
    (cmd : cmdStruct) (s : State)
    (Hdecode : Decode cmdMap = Some cmd)
    (Hfrom : From (Move cmd) <> "")
    (Hto : To (Move cmd) <> "") :
  fenFile (snd (DoCommand depth fuel cmdMap s)) = fenFile s /\
  exists evs : list Event,
    trace (snd (DoCommand depth fuel cmdMap s)) = (trace s ++ evs)%list /\
    Forall (fun e => isFileEvent e = false) evs.
Proof.
  apply String.eqb_neq in Hfrom, Hto.
  assert (H : emits (fun e => isManual e = true) (DoCommand depth fuel cmdMap)).
  { unfold DoCommand. apply emits_defer.
    - unfold DoCommandBody. rewrite Hdecode, Hfrom, Hto. cbn [negb andb].
      apply emits_bind; [unfold logf; apply emits_emit; reflexivity | intros _].
      apply emits_bind; [apply manualRounds_emits | intros _; apply emits_ret].
    - eapply emits_weaken; [| apply homeOrWarn_emits].
      intros e He. unfold isManual. cbn beta in He. rewrite He.
      now rewrite orb_true_r. }
  destruct (H s) as (evs & Ht & Hp & Hf).
  assert (Hnf : Forall (fun e => isFileEvent e = false) evs).
  { eapply Forall_impl; [| exact Hp]. apply isManual_not_file. }
  split; [apply Hf, Hnf |].
  exists evs. split; assumption.
Qed.

End Manual.

(** ** Castling *)

Lemma isEngineRun_quiet (e : Event) :
  isEngineRun e = true -> isPhysical e = false /\ isFileEvent e = false.
Proof.
  destruct e; try discriminate. intros _. split; reflexivity.
Qed.

Section Castling.

Context {L : Libraries} {C : Collaborators}.

Lemma getGame_emits : emits (fun e => isPhysical e = false) getGame.
Proof. unfold getGame. emits_auto. Qed.

Lemma getGame_fenFile (s : State) : fenFile (snd (getGame s)) = fenFile s.
Proof.
  unfold getGame, bind, emit, getFenFile, ret, fail. cbn.
  destruct (fenFile s) as [| | data]; cbn; try reflexivity.
  destruct (FEN data); reflexivity.
Qed.

Lemma pickMove_emits (game : Game) :
  emits (fun e => isEngineRun e = true) (pickMove game).
Proof. unfold pickMove. emits_auto. Qed.

(** C2 (as amended).  When the homing at the start of makeAMove succeeds,
    the game loads and pickMove answers a move tagged as castling on either
    side, makeAMove answers the unsupported-move error; by then it has
    issued the four homing events (staging switch, gripper open, pause,
    pose query), after them only events that are no arm, gripper, motion,
    switch or camera call and no write of the position file, and the file
    is what it was. *)
Theorem makeAMove_rejects_castling (depth fuel : nat) (s s1 s2 s3 : State)
    (game : Game) (m : chess.Move)
    (Hhome : goToStart s = (Ok tt, s1))
    (Hgame : getGame s1 = (Ok game, s2))
    (Hpick : pickMove game s2 = (Ok (Some m), s3))
    (Hcastle : chess.HasTag m chess.KingSideCastle
               || chess.HasTag m chess.QueenSideCastle = true) :
  makeAMove depth fuel s = (Fail (CantHandleCastle m), s3) /\
  classOf (CantHandleCastle m) = UnsupportedMoveError /\
  trace s1 = (trace s ++ homingEvents)%list /\
  (exists rest : list Event,
      trace s3 = (trace s1 ++ rest)%list /\
      Forall (fun e => isPhysical e = false) rest) /\
  fenFile s3 = fenFile s.
Proof.
  split; [| split; [reflexivity |]].
  { unfold makeAMove. unfold bind at 1. unfold wrapError. rewrite Hhome.
    unfold bind at 1. rewrite Hgame. unfold bind at 1. rewrite Hpick.
    rewrite Hcastle. reflexivity. }
  destruct (goToStart_run s) as (n & _ & Ht1 & Hok & _ & Hfen1).
  rewrite Hhome in Ht1, Hok, Hfen1. cbn [fst snd] in *.
  rewrite (Hok eq_refl) in Ht1.
  destruct (getGame_emits s1) as (evs2 & Ht2 & Hp2 & _).
  pose proof (getGame_fenFile s1) as Hfen2.
  rewrite Hgame in Ht2, Hfen2. cbn [snd] in *.
  destruct (pickMove_emits game s2) as (evs3 & Ht3 & Hp3 & Hfen3).
  rewrite Hpick in Ht3, Hfen3. cbn [snd] in *.
  split; [exact Ht1 |]. split.
  - exists (evs2 ++ evs3)%list. rewrite Ht3, Ht2, app_assoc.
    split; [reflexivity |]. apply Forall_app. split; [exact Hp2 |].
    eapply Forall_impl; [| exact Hp3]. intros e He. apply isEngineRun_quiet, He.
  - rewrite <- Hfen1, <- Hfen2. apply Hfen3.
    eapply Forall_impl; [| exact Hp3]. intros e He. apply isEngineRun_quiet, He.
Qed.

End Castling.

(** ** The theorems on the example runs *)

(** Castling answered by the engine: the theorem gives the error and the
    homing events at the head of the trace. *)
Lemma makeAMove_rejects_castling_witness :
  fst castlingEngineRun = Fail (CantHandleCastle castleShort) /\
  trace (snd castlingEngineRun) = (homingEvents ++ [ReadFile; EngineRun "startpos"])%list.
Proof.
  pose proof (@makeAMove_rejects_castling exampleLibs firmGripper 2 3
                (freshState true)
                (snd (goToStart (C := firmGripper) (freshState true)))
                (snd (getGame (L := exampleLibs)
                        (snd (goToStart (C := firmGripper) (freshState true)))))
                (snd (pickMove (L := exampleLibs) (C := firmGripper) "startpos"
                        (snd (getGame (L := exampleLibs)
                                (snd (goToStart (C := firmGripper) (freshState true)))))))
                "startpos" castleShort
                eq_refl eq_refl eq_refl eq_refl) as (Hrun & _).
  unfold castlingEngineRun. rewrite Hrun. split; reflexivity.
Defined.

(** C2 (as stated) fails: with castling as the only legal move the call is
    rejected, and by then the staging switch has been set and the gripper
    has been opened by the homing at the start of makeAMove. *)
Lemma makeAMove_castling_counterexample :
  fst castlingRun = Fail (CantHandleCastle castleShort) /\
  trace (snd castlingRun) =
  [SwitchSetPosition 2; GripperOpen; Sleep 1000; FrameGetPose; ReadFile] /\
  In GripperOpen (trace (snd castlingRun)) /\
  isPhysical GripperOpen = true.
Proof.
  split; [| split; [| split]].
  - vm_compute. reflexivity.
  - vm_compute. reflexivity.
  - right. left. reflexivity.
  - reflexivity.
Qed.

(** The displacement theorem on the example board: d5 is occupied, so the
    move e2 -> d5 logs two invocations, the second one d5 -> "-". *)
Lemma movePiece_displacement_witness :
  exists evs : list Event,
    trace (snd captureRun) = (trace (freshState true) ++ evs)%list /\
    movePieceCalls evs = [("e2", "d5"); ("d5", "-")].
Proof.
  destruct (@movePiece_displacement exampleLibs firmGripper 0 3 exampleBoard
              "e2" "d5" (freshState true)
              (square "d5-2" (r3.mkVector 60 200 12) (r3.mkVector 62 204 30)))
    as (_ & Hoccupied & _).
  - discriminate.
  - reflexivity.
  - destruct (Hoccupied eq_refl) as (_ & _ & Hcalls). exact Hcalls.
Defined.

(** The same board, the empty destination e4: one invocation, and the
    heights of one pick and one place. *)
Example movePiece_empty_destination :
  fst quietRun = Ok tt /\
  movePieceCalls (trace (snd quietRun)) = [("e2", "e4")] /\
  moveHeights (trace (snd quietRun)) = [200; 25; 200; 200; 25; 200]%Q.
Proof.
  split; [| split]; vm_compute; reflexivity.
Qed.

(** The homing theorem on a command that does not decode: the error of the
    decoder is the answer and the four homing events are the trace. *)
Lemma DoCommand_always_homes_witness :
  fst undecodableRun = Fail DecodeError /\
  trace (snd undecodableRun) = homingEvents.
Proof.
  destruct (@DoCommand_always_homes exampleLibs firmGripper 2 3 None storedState)
    as (_ & _ & Htrace & Hdecode).
  split.
  - apply Hdecode. reflexivity.
  - unfold undecodableRun. rewrite Htrace. reflexivity.
Defined.

(** The frame theorem on the manual move e2 -> e4 with a stored position:
    the file still holds it. *)
Lemma manual_move_keeps_position_file_witness :
  fenFile (snd manualRun) = Content "startpos".
Proof.
  apply (proj1 (@manual_move_keeps_position_file exampleLibs firmGripper 2 3
                  (Some manualCmd) manualCmd storedState eq_refl
                  ltac:(discriminate) ltac:(discriminate))).
Defined.

(* ================================================================== *)
(** * Part III: further properties of the code *)
(* ================================================================== *)

(** ** The classifier on few points and under reordering *)

(** X1.  estimatePieceColor answers blank (0) exactly when at most 10
    points are counted (points with a color sample whose Z is below the
    float64 difference of the maximum Z and 20), whatever their colors;
    with more it answers 1 or 2. *)
Theorem estimatePieceColor_blank_iff (pc : PointCloud) :
  (estimatePieceColor pc = 0%Z <-> (List.length (countedPoints pc) <= 10)%nat) /\
  ((10 < List.length (countedPoints pc))%nat ->
   estimatePieceColor pc = 1%Z \/ estimatePieceColor pc = 2%Z).
Proof.
  rewrite estimatePieceColor_unfold.
  destruct (Z.leb_spec (Z.of_nat (List.length (countedPoints pc))) 10) as [H | H].
  - split; [split; [lia | reflexivity] | lia].
  - split.
    + split; [| lia].
      destruct (Qlt_bool 128 (meanBrightness pc)); discriminate.
    + intros _. destruct (Qlt_bool 128 (meanBrightness pc)); [left | right]; reflexivity.
Qed.

(** A cloud of ten counted white points is blank.  So is a cloud of
    eleven white points at the float64 nearest to -19.3 under a maximum at
    the float64 nearest to 0.7: the eleven lie below the maximum less 20,
    but the float64 difference is their own Z, and none is counted. *)
Lemma estimatePieceColor_blank_iff_witness :
  estimatePieceColor tenWhiteCloud = 0%Z /\
  MaxZ (metaData grazingCloud) = near_0_7 /\
  (near_minus_19_3 < near_0_7 - 20)%Q /\
  fsub near_0_7 minPieceSize = near_minus_19_3 /\
  estimatePieceColor grazingCloud = 0%Z.
Proof.
  split; [| split; [| split; [| split]]].
  - apply (proj1 (estimatePieceColor_blank_iff tenWhiteCloud)).
    vm_compute. lia.
  - vm_compute. reflexivity.
  - vm_compute. reflexivity.
  - vm_compute. reflexivity.
  - apply (proj1 (estimatePieceColor_blank_iff grazingCloud)).
    vm_compute. lia.
Defined.

Lemma Qsum_permutation (l l' : list Q) :
  Permutation l l' -> (Qsum l == Qsum l')%Q.
Proof.
  induction 1 as [| x l l' _ IH | x y l | l l' l'' _ IH1 _ IH2]; cbn.
  - reflexivity.
  - rewrite IH. reflexivity.
  - ring.
  - rewrite IH1. exact IH2.
Qed.

Lemma filter_permutation (A : Type) (f : A -> bool) (l l' : list A) :
  Permutation l l' -> Permutation (filter f l) (filter f l').
Proof.
  induction 1 as [| x l l' _ IH | x y l | l l' l'' _ IH1 _ IH2]; cbn.
  - constructor.
  - destruct (f x); [constructor |]; exact IH.
  - destruct (f x), (f y); try reflexivity. constructor.
  - eapply Permutation_trans; eassumption.
Qed.

(** X2.  The answer of estimatePieceColor does not depend on the order in
    which Iterate visits the points: two clouds with the same metadata whose
    points are a permutation of each other get the same answer. *)
Theorem estimatePieceColor_order_independent (pc pc' : PointCloud)
    (Hmeta : metaData pc = metaData pc')
    (Hperm : Permutation (points pc) (points pc')) :
  estimatePieceColor pc = estimatePieceColor pc'.
Proof.
  rewrite !estimatePieceColor_unfold.
  assert (Hq : Permutation (countedPoints pc) (countedPoints pc')).
  { unfold countedPoints. rewrite Hmeta. apply filter_permutation, Hperm. }
  rewrite (Permutation_length Hq).
  destruct (_ <=? 10)%Z; [reflexivity |].
  assert (E : meanBrightness pc = meanBrightness pc').
  { unfold meanBrightness. rewrite (Permutation_length Hq).
    rewrite (fdiv_comp _ (Qsum_permutation (Permutation_map redOf Hq))).
    rewrite (fdiv_comp _ (Qsum_permutation (Permutation_map greenOf Hq))).
    rewrite (fdiv_comp _ (Qsum_permutation (Permutation_map blueOf Hq))).
    reflexivity. }
  now rewrite E.
Qed.

(** The theorem on a cloud and the same points visited in another order. *)
Lemma estimatePieceColor_order_independent_witness :
  estimatePieceColor mixedCloud = estimatePieceColor mixedCloudReordered.
Proof.
  apply estimatePieceColor_order_independent.
  - reflexivity.
  - unfold mixedCloud, mixedCloudReordered. cbn [points].
    apply Permutation_cons_append.
Defined.

(** ** The grid of the board camera *)

Lemma distinct_NoDup (l : list string) : distinct l = true -> NoDup l.
Proof.
  induction l as [| x l IH]; cbn; intro H; [constructor |].
  apply andb_true_iff in H. destruct H as [Hx Hl].
  constructor; [| apply IH, Hl].
  intro Hin. apply negb_true_iff in Hx.
  assert (E : existsb (String.eqb x) l = true).
  { apply existsb_exists. exists x. split; [exact Hin | apply String.eqb_refl]. }
  congruence.
Qed.

Lemma Forall2_in_left (A B : Type) (R : A -> B -> Prop) (l : list A) (l' : list B) :
  Forall2 R l l' -> forall x, In x l -> exists y, In y l' /\ R x y.
Proof.
  induction 1 as [| a b l l' Hab _ IH]; intros x Hin; [destruct Hin |].
  destruct Hin as [-> | Hin].
  - exists b. split; [left; reflexivity | exact Hab].
  - destruct (IH x Hin) as (y & Hy & Hxy). exists y. split; [right; exact Hy | exact Hxy].
Qed.

Lemma boardNames_NoDup : NoDup boardNames.
Proof. apply distinct_NoDup. vm_compute. reflexivity. Qed.

Section Grid.

Variable limit : PointCloud -> list image.Rectangle -> option PointCloud.
Variables maxX maxY : Z.
Variable cloud : PointCloud.

Lemma squareAt_cases (rank file : Z) :
  match squareAt limit maxX maxY cloud rank file with
  | Done sq => squareOf limit maxX maxY cloud (rank, file) sq
  | Failed e => e = LimitError /\ limit cloud [srcRect maxX maxY rank file] = None
  | Panicked => False
  end.
Proof.
  unfold squareAt.
  destruct (limit cloud [srcRect maxX maxY rank file]) as [subPc |] eqn:E.
  - destruct (estimatePieceColor_range subPc) as [H | [H | H]]; rewrite H; cbn;
      repeat split; try assumption; symmetry; assumption.
  - split; reflexivity.
Qed.

Lemma fileLoop_cases (rank : Z) (files : list Z) :
  forall squares,
    match fileLoop limit maxX maxY cloud rank files squares with
    | Done out =>
        exists new, out = (squares ++ new)%list /\
                    Forall2 (squareOf limit maxX maxY cloud)
                            (map (fun f => (rank, f)) files) new
    | Failed e =>
        e = LimitError /\
        Exists (fun cell => limit cloud [srcRect maxX maxY (fst cell) (snd cell)] = None)
               (map (fun f => (rank, f)) files)
    | Panicked => False
    end.
Proof.
  induction files as [| f files IH]; intro squares; cbn [fileLoop map].
  - exists []. rewrite app_nil_r. split; [reflexivity | constructor].
  - pose proof (squareAt_cases rank f) as Hsq.
    destruct (squareAt limit maxX maxY cloud rank f) as [sq | e |].
    + specialize (IH (squares ++ [sq])%list).
      destruct (fileLoop limit maxX maxY cloud rank files (squares ++ [sq]))
        as [out | e |].
      * destruct IH as (new & Hout & Hall). exists (sq :: new).
        rewrite Hout, <- app_assoc. split; [reflexivity |].
        constructor; assumption.
      * destruct IH as [He Hex]. split; [exact He | apply Exists_cons_tl, Hex].
      * exact IH.
    + destruct Hsq as [He Hnone]. split; [exact He | apply Exists_cons_hd, Hnone].
    + exact Hsq.
Qed.

Lemma rankLoop_cases (ranks : list Z) :
  forall squares,
    match rankLoop limit maxX maxY cloud ranks squares with
    | Done out =>
        exists new, out = (squares ++ new)%list /\
                    Forall2 (squareOf limit maxX maxY cloud)
                            (flat_map (fun r => map (fun f => (r, f)) boardFiles) ranks)
                            new
    | Failed e =>
        e = LimitError /\
        Exists (fun cell => limit cloud [srcRect maxX maxY (fst cell) (snd cell)] = None)
               (flat_map (fun r => map (fun f => (r, f)) boardFiles) ranks)
    | Panicked => False
    end.
Proof.
  induction ranks as [| r ranks IH]; intro squares; cbn [rankLoop flat_map].
  - exists []. rewrite app_nil_r. split; [reflexivity | constructor].
  - pose proof (fileLoop_cases r boardFiles squares) as Hrow.
    destruct (fileLoop limit maxX maxY cloud r boardFiles squares) as [row | e |].
    + destruct Hrow as (new1 & Hrow & Hall1).
      specialize (IH row).
      destruct (rankLoop limit maxX maxY cloud ranks row) as [out | e |].
      * destruct IH as (new2 & Hout & Hall2). exists (new1 ++ new2)%list.
        rewrite Hout, Hrow, <- app_assoc. split; [reflexivity |].
        apply Forall2_app; assumption.
      * destruct IH as [He Hex]. split; [exact He |].
        apply Exists_app. right. exact Hex.
      * exact IH.
    + destruct Hrow as [He Hex]. split; [exact He |].
      apply Exists_app. left. exact Hex.
    + exact Hrow.
Qed.

Lemma squareOf_names (cells : list (Z * Z)) (squares : list boardcamera.squareInfo) :
  Forall2 (squareOf limit maxX maxY cloud) cells squares ->
  map boardcamera.name squares = map (fun cell => squareName (fst cell) (snd cell)) cells /\
  map (fun sq => (boardcamera.rank sq, boardcamera.file sq)) squares = cells.
Proof.
  induction 1 as [| cell sq cells squares Hsq _ IH]; [split; reflexivity |].
  destruct IH as [IH1 IH2]. destruct Hsq as (Hr & Hf & Hn & _).
  cbn [map]. rewrite IH1, IH2, Hn, Hr, Hf. destruct cell. split; reflexivity.
Qed.

(** X3.  BoardDebugImageHack never indexes colorNames out of range.  When
    it answers squares there are 64 of them, one per cell in the order a1,
    b1, ..., h1, a2, ..., h8, each the clip of the cloud to its cell's
    rectangle with the classification of that clip, and their names are
    the 64 distinct names file+rank.  It answers an error exactly when the
    clip of some cell fails, and the error is the clip's. *)
Theorem BoardDebugImageHack_squares :
  BoardDebugImageHack limit maxX maxY cloud <> Panicked /\
  (forall squares,
      BoardDebugImageHack limit maxX maxY cloud = Done squares ->
      Forall2 (squareOf limit maxX maxY cloud) boardCells squares /\
      List.length squares = 64%nat /\
      map boardcamera.name squares = boardNames /\
      NoDup (map boardcamera.name squares)) /\
  (forall e,
      BoardDebugImageHack limit maxX maxY cloud = Failed e <->
      e = LimitError /\
      Exists (fun cell => limit cloud [srcRect maxX maxY (fst cell) (snd cell)] = None)
             boardCells).
Proof.
  unfold BoardDebugImageHack.
  pose proof (rankLoop_cases boardRanks []) as H.
  fold boardCells in H.
  destruct (rankLoop limit maxX maxY cloud boardRanks []) as [out | e |].
  - destruct H as (new & Hout & Hall). cbn [app] in Hout. subst new.
    split; [discriminate |]. split.
    + intros squares E. inversion E; subst squares.
      destruct (squareOf_names Hall) as [Hnames _].
      split; [exact Hall |]. split; [| split].
      * rewrite <- (Forall2_length Hall). reflexivity.
      * exact Hnames.
      * rewrite Hnames. apply boardNames_NoDup.
    + intro e. split; [discriminate |].
      intros [_ Hex]. exfalso.
      apply Exists_exists in Hex. destruct Hex as (cell & Hin & Hnone).
      destruct (Forall2_in_left Hall cell Hin) as (sq & _ & Hsq).
      destruct Hsq as (_ & _ & _ & Hsome & _). congruence.
  - destruct H as [He Hex]. subst e. split; [discriminate |]. split.
    + intros squares E. discriminate.
    + intro e. split.
      * intro E. inversion E. split; [reflexivity | exact Hex].
      * intros [-> _]. reflexivity.
  - destruct H.
Qed.

End Grid.

(** The grid theorem on a 640 x 480 image with a clip that keeps the whole
    cloud. *)
Lemma BoardDebugImageHack_squares_witness :
  exists squares,
    BoardDebugImageHack keepAll 640 480 lowWhiteCloud = Done squares /\
    List.length squares = 64%nat /\
    map boardcamera.name squares = boardNames.
Proof.
  destruct (BoardDebugImageHack_squares keepAll 640 480 lowWhiteCloud) as (_ & Hdone & _).
  assert (E : exists squares, BoardDebugImageHack keepAll 640 480 lowWhiteCloud = Done squares)
    by (eexists; vm_compute; reflexivity).
  destruct E as [squares E]. exists squares. split; [exact E |].
  destruct (Hdone squares E) as (_ & Hlen & Hnames & _). split; assumption.
Defined.

Lemma srcRect_corners (maxX maxY rank file : Z) :
  (8 <= maxY)%Z ->
  srcRect maxX maxY rank file =
  image.Rect ((104 - file) * squareSize maxY + xOffset maxX maxY)
             ((rank - 1) * squareSize maxY)
             ((104 - file) * squareSize maxY + xOffset maxX maxY + squareSize maxY)
             ((rank - 1) * squareSize maxY + squareSize maxY)
  /\ (1 <= squareSize maxY)%Z /\ (8 * squareSize maxY <= maxY)%Z.
Proof.
  intro H8. unfold squareSize.
  rewrite Z.quot_div_nonneg by lia.
  assert (Hsz : (1 <= maxY / 8)%Z) by (apply Z.div_le_lower_bound; lia).
  assert (Hup : (8 * (maxY / 8) <= maxY)%Z) by (apply Z.mul_div_le; lia).
  split; [| split; assumption].
  unfold srcRect, imageRect, squareSize. rewrite Z.quot_div_nonneg by lia.
  set (a := ((104 - file) * (maxY / 8))%Z).
  set (b := ((rank - 1) * (maxY / 8))%Z).
  destruct (Z.ltb_spec (a + xOffset maxX maxY + maxY / 8) (a + xOffset maxX maxY)); [lia |].
  destruct (Z.ltb_spec (b + maxY / 8) b); [lia |].
  reflexivity.
Qed.

(** X4.  For an image at least 8 high and at least as wide as high, the
    64 source rectangles of BoardDebugImageHack are squares of side
    [maxY / 8] that lie inside the image, file h leftmost and rank 1 on
    top, and the rectangles of two different cells share no pixel. *)
Theorem srcRect_tiling (maxX maxY : Z) (Hhigh : (8 <= maxY)%Z) (Hwide : (maxY <= maxX)%Z) :
  (forall rank file,
      (1 <= rank <= 8)%Z -> (97 <= file <= 104)%Z ->
      let r := srcRect maxX maxY rank file in
      (image.x1 r - image.x0 r = squareSize maxY /\
       image.y1 r - image.y0 r = squareSize maxY /\
       1 <= squareSize maxY /\
       0 <= image.x0 r /\ image.x1 r <= maxX /\
       0 <= image.y0 r /\ image.y1 r <= maxY /\
       image.x0 r = xOffset maxX maxY + (104 - file) * squareSize maxY /\
       image.y0 r = (rank - 1) * squareSize maxY)%Z) /\
  (forall rank file rank' file',
      (1 <= rank <= 8)%Z -> (97 <= file <= 104)%Z ->
      (1 <= rank' <= 8)%Z -> (97 <= file' <= 104)%Z ->
      (rank, file) <> (rank', file') ->
      disjointRects (srcRect maxX maxY rank file) (srcRect maxX maxY rank' file')).
Proof.
  assert (Hoff : (0 <= xOffset maxX maxY /\ xOffset maxX maxY + maxY <= maxX)%Z).
  { unfold xOffset. rewrite Z.quot_div_nonneg by lia.
    split; [apply Z.div_pos; lia |].
    assert ((maxX - maxY) / 2 <= maxX - maxY)%Z by (apply Z.div_le_upper_bound; lia).
    lia. }
  split.
  - intros rank file Hr Hf r. unfold r.
    destruct (srcRect_corners maxX rank file Hhigh) as (E & Hsz & Hup).
    rewrite E. cbn [image.x0 image.x1 image.y0 image.y1].
    assert (0 <= (104 - file) * squareSize maxY <= 7 * squareSize maxY)%Z by nia.
    assert (0 <= (rank - 1) * squareSize maxY <= 7 * squareSize maxY)%Z by nia.
    repeat split; lia.
  - intros rank file rank' file' Hr Hf Hr' Hf' Hne.
    destruct (srcRect_corners maxX rank file Hhigh) as (E & Hsz & _).
    destruct (srcRect_corners maxX rank' file' Hhigh) as (E' & _ & _).
    rewrite E, E'. unfold disjointRects. cbn [image.x0 image.x1 image.y0 image.y1].
    destruct (Z.eq_dec file file') as [Ef | Ef].
    + assert (Er : rank <> rank') by (intro; subst; apply Hne; reflexivity).
      right. right.
      destruct (Z.lt_ge_cases rank rank'); [left | right]; nia.
    + destruct (Z.lt_ge_cases file file'); [right; left | left]; nia.
Qed.

(** The tiling theorem on a 640 x 480 image: the corner square a1. *)
Lemma srcRect_tiling_witness :
  srcRect 640 480 1 97 = image.Rect 500 0 560 60 /\
  disjointRects (srcRect 640 480 1 97) (srcRect 640 480 1 98).
Proof.
  split; [reflexivity |].
  apply (proj2 (@srcRect_tiling 640 480 ltac:(lia) ltac:(lia))); try lia.
  discriminate.
Defined.

(** ** Labels of the camera and the lookup of the chess service *)

Lemma prefix_append (a b : string) : String.prefix a (a ++ b) = true.
Proof.
  induction a as [| c a IH]; cbn; [destruct b; reflexivity |].
  destruct (ascii_dec c c) as [_ | Hne]; [exact IH | contradiction].
Qed.

Lemma Forall2_compose (A B D : Type) (R : A -> B -> Prop) (S : B -> D -> Prop)
    (l1 : list A) (l2 : list B) :
  Forall2 R l1 l2 ->
  forall l3, Forall2 S l2 l3 -> Forall2 (fun a d => exists b, R a b /\ S b d) l1 l3.
Proof.
  induction 1 as [| a b l1 l2 Hab _ IH]; intros l3 H23; inversion H23; subst.
  - constructor.
  - constructor; [exists b; split; assumption | apply IH; assumption].
Qed.

Lemma Forall2_in_right (A B : Type) (R : A -> B -> Prop) (l : list A) (l' : list B) :
  Forall2 R l l' -> forall y, In y l' -> exists x, In x l /\ R x y.
Proof.
  induction 1 as [| a b l l' Hab _ IH]; intros y Hin; [destruct Hin |].
  destruct Hin as [-> | Hin].
  - exists a. split; [left; reflexivity | exact Hab].
  - destruct (IH y Hin) as (x & Hx & Hxy). exists x. split; [right; exact Hx | exact Hxy].
Qed.

Lemma prefix_two (a d a' d' : ascii) (rest : string) :
  String.prefix (String a (String d "")) (String a' (String d' rest)) = true ->
  a = a' /\ d = d'.
Proof.
  cbn. destruct (ascii_dec a a') as [-> | _]; [| discriminate].
  destruct (ascii_dec d d') as [-> | _]; [| discriminate].
  intros _. split; reflexivity.
Qed.

Lemma squareName_shape (rank file : Z) :
  (1 <= rank <= 8)%Z ->
  exists d, squareName rank file = String (ascii_of_N (Z.to_N (file mod 256))) (String d "")
            /\ NilZero.string_of_int (Z.to_int rank) = String d "".
Proof.
  intro Hr. unfold squareName.
  assert (H : (rank = 1 \/ rank = 2 \/ rank = 3 \/ rank = 4 \/
               rank = 5 \/ rank = 6 \/ rank = 7 \/ rank = 8)%Z) by lia.
  repeat (destruct H as [-> | H]); try subst rank; eexists; split; reflexivity.
Qed.

Lemma squareName_injective (rank file rank' file' : Z) :
  (1 <= rank <= 8)%Z -> (97 <= file <= 104)%Z ->
  (1 <= rank' <= 8)%Z -> (97 <= file' <= 104)%Z ->
  squareName rank file = squareName rank' file' ->
  rank = rank' /\ file = file'.
Proof.
  intros Hr Hf Hr' Hf' E.
  assert (H1 : (rank = 1 \/ rank = 2 \/ rank = 3 \/ rank = 4 \/
                rank = 5 \/ rank = 6 \/ rank = 7 \/ rank = 8)%Z) by lia.
  assert (H2 : (rank' = 1 \/ rank' = 2 \/ rank' = 3 \/ rank' = 4 \/
                rank' = 5 \/ rank' = 6 \/ rank' = 7 \/ rank' = 8)%Z) by lia.
  assert (H3 : (file = 97 \/ file = 98 \/ file = 99 \/ file = 100 \/
                file = 101 \/ file = 102 \/ file = 103 \/ file = 104)%Z) by lia.
  assert (H4 : (file' = 97 \/ file' = 98 \/ file' = 99 \/ file' = 100 \/
                file' = 101 \/ file' = 102 \/ file' = 103 \/ file' = 104)%Z) by lia.
  clear Hr Hf Hr' Hf'.
  assert (Ef : file = file').
  { repeat (destruct H3 as [-> | H3]); try subst file;
      repeat (destruct H4 as [-> | H4]); try subst file';
      first [reflexivity | exfalso; unfold squareName in E; cbn in E; congruence]. }
  subst file'. split; [| reflexivity].
  unfold squareName in E. inversion E as [E'].
  clear E H3 H4.
  repeat (destruct H1 as [-> | H1]); try subst rank;
    repeat (destruct H2 as [-> | H2]); try subst rank';
    first [reflexivity | exfalso; cbn in E'; congruence].
Qed.

Lemma boardCells_range (rank file : Z) :
  In (rank, file) boardCells <-> (1 <= rank <= 8)%Z /\ (97 <= file <= 104)%Z.
Proof.
  unfold boardCells, boardRanks, boardFiles. rewrite in_flat_map. split.
  - intros (r & Hr & Hin). apply in_map_iff in Hin. destruct Hin as (f & E & Hf).
    inversion E; subst r f.
    apply in_map_iff in Hr. destruct Hr as (n & <- & Hn).
    apply in_map_iff in Hf. destruct Hf as (m & <- & Hm).
    apply in_seq in Hn. apply in_seq in Hm. lia.
  - intros [Hr Hf]. exists rank. split.
    + apply in_map_iff. exists (Z.to_nat rank). split; [lia | apply in_seq; lia].
    + apply in_map_iff. exists file. split; [reflexivity |].
      apply in_map_iff. exists (Z.to_nat file). split; [lia | apply in_seq; lia].
Qed.

Section Lookup.

Variable limit : PointCloud -> list image.Rectangle -> option PointCloud.
Variable transform : PointCloud -> option PointCloud.
Variable newObject : PointCloud -> string -> option viz.Object.

(** What the library promises of viz.NewObjectWithLabel: the object carries
    the label it was given. *)
Hypothesis newObject_label :
  forall cloud label o, newObject cloud label = Some o -> viz.Label o = label.

Lemma objectsLoop_labels (rfs : bool) (squares : list boardcamera.squareInfo) :
  forall objs out,
    objectsLoop transform newObject rfs squares objs = Done out ->
    exists new,
      out = (objs ++ new)%list /\
      Forall2 (fun sq o =>
                 viz.Label o = squareLabel (boardcamera.name sq) (boardcamera.color sq))
              squares new.
Proof.
  induction squares as [| sq squares IH]; intros objs out Hrun; cbn [objectsLoop] in Hrun.
  - inversion Hrun; subst. exists []. rewrite app_nil_r. split; [reflexivity | constructor].
  - destruct rfs; cbn [negb] in Hrun; [| discriminate].
    destruct (transform (boardcamera.pc sq)) as [moved |]; [| discriminate].
    destruct (newObject moved _) as [o |] eqn:Hnew; [| discriminate].
    apply newObject_label in Hnew.
    destruct (IH _ _ Hrun) as (new & Hout & Hall).
    exists (o :: new). rewrite Hout, <- app_assoc. split; [reflexivity |].
    constructor; assumption.
Qed.

(** X5.  When GetObjectPointClouds succeeds it answers 64 objects, and the
    lookup of the chess service by a square's name (the first object whose
    label starts with the name) finds the object of that very square: its
    label is the name, "-" and the classification of the clip of the cloud
    to the square's rectangle, so the label ends in "-0" exactly when that
    clip was classified blank. *)
Theorem GetObjectPointClouds_lookup (rfs : bool) (maxX maxY : Z)
    (others : list (option (Z * Z))) (cloud : PointCloud) (objs : list viz.Object)
    (Hrun : GetObjectPointClouds limit transform newObject rfs
              (Some (Some (maxX, maxY) :: others)) (Some cloud) = Done objs) :
  List.length objs = 64%nat /\
  forall rank file,
    (1 <= rank <= 8)%Z -> (97 <= file <= 104)%Z ->
    exists o clip,
      findObject (mkVisCapture objs) (squareName rank file) = Some o /\
      limit cloud [srcRect maxX maxY rank file] = Some clip /\
      viz.Label o = squareLabel (squareName rank file) (estimatePieceColor clip) /\
      (HasSuffix (viz.Label o) "-0" = true <-> estimatePieceColor clip = 0%Z).
Proof.
  cbn [GetObjectPointClouds] in Hrun. unfold BoardDebugImageHack in Hrun.
  pose proof (rankLoop_cases limit maxX maxY cloud boardRanks []) as Hgrid.
  fold boardCells in Hgrid.
  destruct (rankLoop limit maxX maxY cloud boardRanks []) as [squares | e |];
    try discriminate.
  destruct Hgrid as (new & E & Hsquares). cbn [app] in E. subst new.
  destruct (objectsLoop_labels _ _ _ Hrun) as (new & E & Hlabels).
  cbn [app] in E. subst new.
  pose proof (Forall2_compose Hsquares Hlabels) as Hall.
  split.
  { rewrite <- (Forall2_length Hall). reflexivity. }
  intros rank file Hr Hf.
  assert (Hcell : In (rank, file) boardCells) by (apply boardCells_range; split; assumption).
  destruct (Forall2_in_left Hall _ Hcell) as (o0 & Hin0 & sq0 & Hsq0 & Hl0).
  destruct Hsq0 as (_ & _ & Hn0 & _ & _). cbn [fst snd] in Hn0.
  destruct (findObject (mkVisCapture objs) (squareName rank file)) as [o |] eqn:Hfind.
  - unfold findObject in Hfind. apply find_some in Hfind. cbn [Objects] in Hfind.
    destruct Hfind as [Hin Hpre].
    destruct (Forall2_in_right Hall _ Hin) as ([r' f'] & Hcell' & sq & Hsq & Hl).
    apply boardCells_range in Hcell'. destruct Hcell' as [Hr' Hf'].
    destruct Hsq as (_ & _ & Hn & Hclip & Hcol). cbn [fst snd] in *.
    assert (Esame : rank = r' /\ file = f').
    { destruct (squareName_shape file Hr) as (d & Ename & _).
      destruct (squareName_shape f' Hr') as (d' & Ename' & _).
      unfold HasPrefix in Hpre. rewrite Hl, Hn in Hpre. unfold squareLabel in Hpre.
      rewrite Ename, Ename' in Hpre. cbn [append] in Hpre.
      apply prefix_two in Hpre. destruct Hpre as [Ea Ed].
      apply squareName_injective; try assumption.
      rewrite Ename, Ename', Ea, Ed. reflexivity. }
    destruct Esame as [<- <-].
    exists o, (boardcamera.pc sq).
    split; [reflexivity |]. split; [exact Hclip |].
    rewrite Hl, Hn, Hcol. split; [reflexivity |]. apply squareLabel_empty_iff.
  - exfalso. unfold findObject in Hfind. cbn [Objects] in Hfind.
    pose proof (find_none _ _ Hfind o0 Hin0) as Hno. cbn beta in Hno.
    unfold HasPrefix in Hno. rewrite Hl0, Hn0 in Hno. unfold squareLabel in Hno.
    rewrite prefix_append in Hno. discriminate.
Qed.

End Lookup.

(** The lookup theorem on the example camera: the square e4. *)
Lemma GetObjectPointClouds_lookup_witness :
  exists objs o,
    cameraRun = Done objs /\
    findObject (mkVisCapture objs) "e4" = Some o /\
    viz.Label o = "e4-1".
Proof.
  assert (E : exists objs, cameraRun = Done objs) by (eexists; vm_compute; reflexivity).
  destruct E as [objs E]. exists objs.
  assert (Hnew : forall cloud label o, plainObject cloud label = Some o -> viz.Label o = label).
  { intros cloud label o H. inversion H. reflexivity. }
  destruct (@GetObjectPointClouds_lookup keepAll noTransform plainObject Hnew
              true 640 480 [] lowWhiteCloud objs E) as [_ Hfind].
  destruct (Hfind 4%Z 101%Z ltac:(lia) ltac:(lia)) as (o & clip & Ho & Hclip & Hlabel & _).
  exists o. split; [exact E |]. split; [exact Ho |].
  inversion Hclip; subst clip. rewrite Hlabel. vm_compute. reflexivity.
Defined.

(** ** Resolving, loading and saving *)

Section Resolving.

Context {L : Libraries}.

(** X6.  For a capture whose objects all carry a labelled geometry,
    getCenterFor answers an error exactly when the label is not "-" and no
    object of the capture has a label that starts with it, and the error
    is then the "can't find object" error for that label (a perception
    error): in particular "-" always resolves, and a label that is a
    prefix of some object's label always resolves, to the first such
    object in the capture's order. *)
Theorem getCenterFor_fails_iff (data : VisCapture) (pos : string) :
  (forall e,
      getCenterFor data pos = Fail e <->
      e = CantFindObject pos /\ pos <> "-" /\
      Forall (fun o => HasPrefix (viz.Label o) pos = false) (Objects data)) /\
  classOf (CantFindObject pos) = PerceptionError /\
  (forall before o after,
      pos <> "-" ->
      Objects data = (before ++ o :: after)%list ->
      Forall (fun o' => HasPrefix (viz.Label o') pos = false) before ->
      HasPrefix (viz.Label o) pos = true ->
      findObject data pos = Some o /\ exists center, getCenterFor data pos = Ok center).
Proof.
  split; [| split; [reflexivity |]].
  - unfold getCenterFor, findObject.
    destruct (String.eqb_spec pos "-") as [Hdash | Hdash].
    + intro e. split; [discriminate | intros (_ & Hne & _); contradiction].
    + destruct (find _ (Objects data)) as [o |] eqn:Hfind.
      * apply find_some in Hfind. destruct Hfind as [Hin Hpre].
        intro e. split.
        -- destruct (HasSuffix (viz.Label o) "-0"); discriminate.
        -- intros (_ & _ & Hall). exfalso.
           rewrite Forall_forall in Hall. specialize (Hall o Hin). congruence.
      * intro e. split.
        -- intro E. inversion E. split; [reflexivity |]. split; [exact Hdash |].
           apply Forall_forall. intros o Hin. apply (find_none _ _ Hfind o Hin).
        -- intros (-> & _). reflexivity.
  - intros before o after Hdash Hobjs Hbefore Hpre.
    assert (Hfind : findObject data pos = Some o).
    { unfold findObject. rewrite Hobjs. clear Hobjs.
      induction Hbefore as [| o' before Ho' _ IH]; cbn [app find].
      - rewrite Hpre. reflexivity.
      - rewrite Ho'. exact IH. }
    split; [exact Hfind |].
    unfold getCenterFor. apply String.eqb_neq in Hdash. rewrite Hdash, Hfind.
    destruct (HasSuffix (viz.Label o) "-0"); eexists; reflexivity.
Qed.

(** What a saveGame leaves behind. *)
Lemma saveGame_run {C : Collaborators} (g : Game) (s : State) :
  saveGame g s =
  if fails (List.length (trace s)) (WriteFile (GameFEN g))
  then (Fail (CollaboratorError (WriteFile (GameFEN g))),
        match failedWrite (List.length (trace s)) with
        | OpenFailed => addEvents s [WriteFile (GameFEN g)]
        | WroteBytes k =>
            mkState (trace s ++ [WriteFile (GameFEN g)])
                    (Content (substring 0 k (GameFEN g))) (startPose s) (engine s)
        end)
  else (Ok tt,
        mkState (trace s ++ [WriteFile (GameFEN g)]) (Content (GameFEN g))
                (startPose s) (engine s)).
Proof.
  unfold saveGame, bind, now, emit, setFenFile, fail, ret, addEvents. cbn.
  destruct (fails _ (WriteFile (GameFEN g))); [| reflexivity].
  destruct (failedWrite _); reflexivity.
Qed.

(** X7.  After a saveGame that succeeds the file holds the printed
    position, and the next getGame answers what the library's parser makes
    of that text: the game it reads, or the "invalid fen" error, and never
    a new game; so it answers the game that was saved whenever the parser
    reads back what the library prints for it.  A saveGame that fails
    answers the error of the write, and the file is then as it was or
    holds the first bytes of the printed position. *)
Theorem saveGame_then_getGame (g : Game) (s : State) {C : Collaborators} :
  (fst (saveGame g s) = Ok tt ->
   fenFile (snd (saveGame g s)) = Content (GameFEN g) /\
   fst (getGame (snd (saveGame g s)))
   = match FEN (GameFEN g) with
     | Some g' => Ok g'
     | None => Fail (InvalidFen (GameFEN g))
     end /\
   (FEN (GameFEN g) = Some g -> fst (getGame (snd (saveGame g s))) = Ok g)) /\
  (fst (saveGame g s) <> Ok tt ->
   fst (saveGame g s) = Fail (CollaboratorError (WriteFile (GameFEN g))) /\
   (fenFile (snd (saveGame g s)) = fenFile s \/
    exists k, fenFile (snd (saveGame g s)) = Content (substring 0 k (GameFEN g)))).
Proof.
  rewrite saveGame_run.
  destruct (fails (List.length (trace s)) (WriteFile (GameFEN g))); cbn [fst snd].
  - split; [discriminate |]. intros _. split; [reflexivity |].
    destruct (failedWrite (List.length (trace s))) as [| k]; cbn [fenFile addEvents].
    + left. reflexivity.
    + right. exists k. reflexivity.
  - split; [| intro H; exfalso; apply H; reflexivity].
    intros _. cbn [fenFile]. split; [reflexivity |].
    assert (E : fst (getGame (mkState (trace s ++ [WriteFile (GameFEN g)])
                                      (Content (GameFEN g)) (startPose s) (engine s)))
                = match FEN (GameFEN g) with
                  | Some g' => Ok g'
                  | None => Fail (InvalidFen (GameFEN g))
                  end).
    { unfold getGame, bind, emit, getFenFile, ret, fail. cbn.
      destruct (FEN (GameFEN g)); reflexivity. }
    split; [exact E |]. intro Hlibrary. rewrite E, Hlibrary. reflexivity.
Qed.

End Resolving.

(** The theorem on the example board: a1 is not in the capture, and d5 is
    found behind e2 and e4. *)
Lemma getCenterFor_fails_iff_witness :
  getCenterFor (L := exampleLibs) exampleBoard "a1" = Fail (CantFindObject "a1") /\
  findObject exampleBoard "d5"
  = Some (square "d5-2" (r3.mkVector 60 200 12) (r3.mkVector 62 204 30)).
Proof.
  split.
  - apply (proj1 (@getCenterFor_fails_iff exampleLibs exampleBoard "a1")).
    split; [reflexivity |]. split; [discriminate |].
    repeat constructor.
  - destruct (@getCenterFor_fails_iff exampleLibs exampleBoard "d5") as (_ & _ & Hfound).
    apply (Hfound [square "e2-1" (r3.mkVector 100 50 10) (r3.mkVector 104 52 25);
                   square "e4-0" (r3.mkVector 100 150 2) (r3.mkVector 101 151 3)]
                  (square "d5-2" (r3.mkVector 60 200 12) (r3.mkVector 62 204 30)) []).
    + discriminate.
    + reflexivity.
    + repeat constructor.
    + reflexivity.
Defined.

(** The round trip on the example libraries, whose parser reads back every
    text but "corrupt"; and the same save on a full disk, which leaves the
    first four bytes of the position. *)
Lemma saveGame_then_getGame_witness :
  fst (getGame (L := exampleLibs)
         (snd (saveGame (L := exampleLibs) (C := firmGripper) "startpos e2e4" storedState)))
  = Ok "startpos e2e4" /\
  fst (saveGame (L := exampleLibs) (C := fullDisk) "startpos e2e4" storedState)
  = Fail (CollaboratorError (WriteFile "startpos e2e4")) /\
  fenFile (snd (saveGame (L := exampleLibs) (C := fullDisk) "startpos e2e4" storedState))
  = Content "star".
Proof.
  split; [| split].
  - apply (proj1 (@saveGame_then_getGame exampleLibs "startpos e2e4" storedState
                    firmGripper)); reflexivity.
  - apply (proj2 (@saveGame_then_getGame exampleLibs "startpos e2e4" storedState
                    fullDisk)). discriminate.
  - reflexivity.
Defined.

(** ** Automatic moves and the position file *)

Lemma emits_keeps_fen (A : Type) (P : Event -> Prop) (m : M A) :
  emits P m -> (forall e, P e -> isFileEvent e = false) ->
  forall s, fenFile (snd (m s)) = fenFile s.
Proof.
  intros Hm HP s. destruct (Hm s) as (evs & _ & Hp & Hf).
  apply Hf. eapply Forall_impl; [exact HP | exact Hp].
Qed.

Lemma isHoming_not_file (e : Event) : isHoming e = true -> isFileEvent e = false.
Proof. destruct e; try discriminate; reflexivity. Qed.

Lemma isMoving_not_file (e : Event) :
  isHandling e || isMoveLog e = true -> isFileEvent e = false.
Proof. destruct e; try discriminate; reflexivity. Qed.

Section AutoPlay.

Context {L : Libraries} {C : Collaborators}.

Lemma getGame_loaded (s s' : State) (game : Game) :
  getGame s = (Ok game, s') -> loadedFrom (fenFile s) game.
Proof.
  unfold getGame, bind, emit, getFenFile, ret, fail. cbn.
  destruct (fenFile s) as [| | data]; cbn.
  - intro H. inversion H. left. split; reflexivity.
  - discriminate.
  - destruct (FEN data) as [g |] eqn:P; cbn; [| discriminate].
    intro H. inversion H; subst. right. exists data. split; [reflexivity | exact P].
Qed.

(** What one automatic move leaves behind. *)
Lemma makeAMove_outcome (depth fuel : nat) (s s' : State) (r : Result chess.Move) :
  makeAMove depth fuel s = (r, s') ->
  match r with
  | Ok m =>
      exists game game',
        loadedFrom (fenFile s) game /\
        GameMove game m = Some game' /\
        fenFile s' = Content (GameFEN game') /\
        isCastling m = false /\
        exists before, trace s' = (before ++ [WriteFile (GameFEN game')])%list
  | Fail e =>
      fenFile s' = fenFile s \/
      exists game game' m k,
        loadedFrom (fenFile s) game /\
        GameMove game m = Some game' /\
        e = CollaboratorError (WriteFile (GameFEN game')) /\
        fenFile s' = Content (substring 0 k (GameFEN game'))
  | Abort _ => fenFile s' = fenFile s
  end.
Proof.
  intro Hrun.
  unfold makeAMove in Hrun.
  pose proof (emits_keeps_fen goToStart_emits isHoming_not_file s) as F1.
  unfold bind at 1 in Hrun. unfold wrapError in Hrun.
  destruct (goToStart s) as [[[] | e | p] s1]; cbn [fst snd] in *;
    try (inversion Hrun; subst; first [exact F1 | left; exact F1]).
  pose proof (getGame_fenFile s1) as F2.
  pose proof (@getGame_loaded s1) as Hload.
  unfold bind at 1 in Hrun.
  destruct (getGame s1) as [[game | e | p] s2]; cbn [fst snd] in *;
    try (inversion Hrun; subst; first [congruence | left; congruence]).
  specialize (Hload s2 game eq_refl). rewrite F1 in Hload.
  pose proof (emits_keeps_fen (pickMove_emits game)
                (fun e He => proj2 (isEngineRun_quiet e He)) s2) as F3.
  unfold bind at 1 in Hrun.
  destruct (pickMove game s2) as [[[m |] | e | p] s3]; cbn [fst snd] in *;
    try (inversion Hrun; subst; first [congruence | left; congruence]).
  fold (isCastling m) in Hrun.
  destruct (isCastling m) eqn:Hcastle; [inversion Hrun; subst; left; congruence |].
  assert (Hcap : forall e, e = CaptureAllFromCamera -> isFileEvent e = false)
    by (intros e ->; reflexivity).
  pose proof (emits_keeps_fen capture_emits Hcap s3) as F4.
  unfold bind at 1 in Hrun.
  destruct (capture s3) as [[all | e | p] s4]; cbn [fst snd] in *;
    try (inversion Hrun; subst; first [congruence | left; congruence]).
  pose proof (emits_keeps_fen (movePiece_emits fuel all depth (chess.S1 m) (chess.S2 m))
                isMoving_not_file s4) as F5.
  unfold bind at 1 in Hrun.
  destruct (movePiece depth fuel all (chess.S1 m) (chess.S2 m) s4) as [[[] | e | p] s5];
    cbn [fst snd] in *; try (inversion Hrun; subst; first [congruence | left; congruence]).
  destruct (GameMove game m) as [game' |] eqn:Hmove;
    [| inversion Hrun; subst; left; congruence].
  unfold bind at 1 in Hrun. rewrite saveGame_run in Hrun.
  destruct (fails (List.length (trace s5)) (WriteFile (GameFEN game'))).
  - destruct (failedWrite (List.length (trace s5))) as [| k];
      inversion Hrun; subst; cbn [addEvents fenFile trace].
    + left. congruence.
    + right. exists game, game', m, k. repeat split; try assumption; reflexivity.
  - inversion Hrun; subst; cbn [fenFile trace].
    exists game, game'. repeat split; try assumption.
    eexists. reflexivity.
Qed.

(** X8.  An automatic move that succeeds has played a move that is not
    tagged as castling on the game the position file stood for, and has
    then written the position after that move, the write being its last
    event.  An automatic move that fails leaves the position file as it
    was, with one exception: when it is the write of the new position that
    failed, after the piece was moved, the file may hold the first bytes
    of that position instead. *)
Theorem makeAMove_persists_after_success (depth fuel : nat) (s : State) :
  match fst (makeAMove depth fuel s) with
  | Ok m =>
      exists game game',
        loadedFrom (fenFile s) game /\
        GameMove game m = Some game' /\
        fenFile (snd (makeAMove depth fuel s)) = Content (GameFEN game') /\
        isCastling m = false /\
        exists before,
          trace (snd (makeAMove depth fuel s)) = (before ++ [WriteFile (GameFEN game')])%list
  | Fail e =>
      fenFile (snd (makeAMove depth fuel s)) = fenFile s \/
      exists game game' m k,
        loadedFrom (fenFile s) game /\
        GameMove game m = Some game' /\
        e = CollaboratorError (WriteFile (GameFEN game')) /\
        fenFile (snd (makeAMove depth fuel s)) = Content (substring 0 k (GameFEN game'))
  | Abort _ => fenFile (snd (makeAMove depth fuel s)) = fenFile s
  end.
Proof.
  destruct (makeAMove depth fuel s) as [r s'] eqn:Hrun. cbn [fst snd].
  pose proof (makeAMove_outcome depth fuel s Hrun) as H.
  destruct r as [m | e | p]; exact H.
Qed.

End AutoPlay.

Lemma last_cons (A : Type) (l : list A) :
  forall a d : A, last (a :: l) d = last l a.
Proof.
  induction l as [| b l IH]; intros a d; [reflexivity |].
  change (last (a :: b :: l) d) with (last (b :: l) d).
  rewrite (IH b d). symmetry. apply IH.
Qed.

Section AutoPlayRounds.

Context {L : Libraries} {C : Collaborators}.

Lemma goRounds_outcome (depth fuel : nat) (rounds : nat) :
  forall (m0 : option chess.Move) (s s' : State) (r : Result (option chess.Move)),
    goRounds depth fuel m0 rounds s = (r, s') ->
    exists (moves : list chess.Move) (reached : FileState),
      (List.length moves <= rounds)%nat /\
      played (fenFile s) moves reached /\
      Forall (fun m => isCastling m = false) moves /\
      (fenFile s' = reached \/
       exists game game' m k,
         loadedFrom reached game /\
         GameMove game m = Some game' /\
         r = Fail (CollaboratorError (WriteFile (GameFEN game'))) /\
         fenFile s' = Content (substring 0 k (GameFEN game'))) /\
      (forall last,
          r = Ok last ->
          List.length moves = rounds /\ fenFile s' = reached /\
          last = List.last (map Some moves) m0).
Proof.
  induction rounds as [| rounds IH]; intros m0 s s' r Hrun; cbn [goRounds] in Hrun.
  - inversion Hrun; subst. exists [], (fenFile s'). cbn.
    split; [lia |]. split; [constructor |]. split; [constructor |].
    split; [left; reflexivity |].
    intros last H. inversion H. split; [reflexivity |]. split; reflexivity.
  - unfold bind in Hrun.
    destruct (makeAMove depth fuel s) as [r1 s1] eqn:Hmake.
    pose proof (makeAMove_outcome depth fuel s Hmake) as Hmove.
    destruct r1 as [m | e | p].
    + destruct Hmove as (game & game' & Hload & Hgm & Hfen & Hcastle & _).
      destruct (IH (Some m) s1 s' r Hrun) as (moves & reached & Hlen & Hplayed & Hnc & Hfile & Hok).
      exists (m :: moves), reached. cbn [List.length].
      split; [lia |]. split; [| split; [| split]].
      * rewrite Hfen in Hplayed. econstructor; eassumption.
      * constructor; assumption.
      * exact Hfile.
      * intros last Hlast. destruct (Hok last Hlast) as (Hl & Hf & ->).
        split; [lia |]. split; [exact Hf |]. cbn [map]. symmetry. apply last_cons.
    + inversion Hrun; subst. exists [], (fenFile s). cbn [List.length].
      split; [lia |]. split; [constructor |]. split; [constructor |].
      split; [| discriminate].
      destruct Hmove as [Hsame | (game & game' & m & k & Hload & Hgm & He & Hfen)].
      * left. exact Hsame.
      * right. exists game, game', m, k. subst e. repeat split; assumption.
    + inversion Hrun; subst. exists [], (fenFile s). cbn [List.length].
      split; [lia |]. split; [constructor |]. split; [constructor |].
      split; [left; exact Hmove | discriminate].
Qed.

(** DoCommand is its body followed by the homing, which never ends
    abnormally, with the answer of the body. *)
Lemma DoCommand_run (depth fuel : nat) (cmdMap : CmdMap) (s : State) :
  let body := DoCommandBody depth fuel cmdMap s in
  let home := goToStart (snd body) in
  DoCommand depth fuel cmdMap s =
  (fst body,
   match fst home with
   | Fail _ => addEvents (snd home) [Log WarnCantGoHome]
   | _ => snd home
   end).
Proof.
  intros body home.
  destruct (goToStart_run (snd body)) as (n & _ & _ & _ & Hab & _).
  fold home in Hab.
  unfold DoCommand, defer, homeOrWarn. fold body.
  destruct body as [r s1]. cbn [fst snd] in *. fold home.
  destruct home as [[[] | e | p] s2]; cbn [fst snd] in *; try reflexivity.
  exfalso. apply (Hab p). reflexivity.
Qed.

Lemma DoCommand_fenFile (depth fuel : nat) (cmdMap : CmdMap) (s : State) :
  fenFile (snd (DoCommand depth fuel cmdMap s)) =
  fenFile (snd (DoCommandBody depth fuel cmdMap s)).
Proof.
  rewrite DoCommand_run. cbn [snd].
  destruct (goToStart_run (snd (DoCommandBody depth fuel cmdMap s)))
    as (n & _ & _ & _ & _ & Hfen).
  destruct (fst (goToStart (snd (DoCommandBody depth fuel cmdMap s)))); exact Hfen.
Qed.

(** X9.  A command {go: n} with n > 0 (and no manual move in it) plays
    automatic moves one after the other, each on the game the one before
    saved, and stops at the first that fails, none of the moves played
    being castling.  The position file then holds the position after the
    moves that succeeded, unless the stop was a failed write of the next
    position, which may leave the first bytes of that position in the
    file.  When DoCommand answers a reply, n moves were played, the file
    holds the position after them and the reply is the text of the last
    one. *)
Theorem DoCommand_autoplay (depth fuel : nat) (cmdMap : CmdMap) (cmd : cmdStruct)
    (s : State)
    (Hdecode : Decode cmdMap = Some cmd)
    (Hshape : To (Move cmd) = "" \/ From (Move cmd) = "")
    (Hgo : (0 < Go cmd)%Z) :
  exists (moves : list chess.Move) (reached : FileState),
    (List.length moves <= Z.to_nat (Go cmd))%nat /\
    played (fenFile s) moves reached /\
    Forall (fun m => isCastling m = false) moves /\
    (fenFile (snd (DoCommand depth fuel cmdMap s)) = reached \/
     exists game game' m k,
       loadedFrom reached game /\
       GameMove game m = Some game' /\
       fst (DoCommand depth fuel cmdMap s)
       = Fail (CollaboratorError (WriteFile (GameFEN game'))) /\
       fenFile (snd (DoCommand depth fuel cmdMap s))
       = Content (substring 0 k (GameFEN game'))) /\
    (forall reply,
        fst (DoCommand depth fuel cmdMap s) = Ok reply ->
        List.length moves = Z.to_nat (Go cmd) /\
        fenFile (snd (DoCommand depth fuel cmdMap s)) = reached /\
        exists m, List.last (map Some moves) None = Some m /\
                  reply = MoveReply (chess.MoveString m)).
Proof.
  assert (Hbody : DoCommandBody depth fuel cmdMap s =
                  (m <- goRounds depth fuel None (Z.to_nat (Go cmd)) ;;
                   match m with
                   | None => abort NilDereference
                   | Some m => ret (MoveReply (chess.MoveString m))
                   end) s).
  { unfold DoCommandBody. rewrite Hdecode.
    assert (E : negb (To (Move cmd) =? "") && negb (From (Move cmd) =? "") = false).
    { destruct Hshape as [-> | ->]; cbn; [reflexivity | apply andb_false_r]. }
    rewrite E. apply Z.ltb_lt in Hgo. rewrite Hgo. reflexivity. }
  destruct (goRounds depth fuel None (Z.to_nat (Go cmd)) s) as [r s1] eqn:Hrun.
  destruct (goRounds_outcome depth fuel (Z.to_nat (Go cmd)) None s Hrun)
    as (moves & reached & Hlen & Hplayed & Hnc & Hfile & Hok).
  exists moves, reached. rewrite DoCommand_fenFile, DoCommand_run. cbn [fst].
  rewrite Hbody. unfold bind. rewrite Hrun.
  split; [exact Hlen |]. split; [exact Hplayed |]. split; [exact Hnc |].
  destruct r as [[m |] | e | p]; cbn [fst snd].
  - destruct (Hok (Some m) eq_refl) as (Hl & Hf & Hlast).
    split; [left; exact Hf |].
    intros reply Hreply. split; [exact Hl |]. split; [exact Hf |].
    exists m. split; [symmetry; exact Hlast |].
    inversion Hreply. reflexivity.
  - destruct (Hok None eq_refl) as (_ & Hf & _).
    split; [left; exact Hf | discriminate].
  - split; [| discriminate].
    destruct Hfile as [Hf | (game & game' & m & k & Hload & Hgm & He & Hfen)].
    + left. exact Hf.
    + right. exists game, game', m, k.
      split; [exact Hload |]. split; [exact Hgm |]. split; [| exact Hfen].
      inversion He. reflexivity.
  - split; [| discriminate].
    destruct Hfile as [Hf | (game & game' & m & k & _ & _ & He & _)].
    + left. exact Hf.
    + discriminate.
Qed.

End AutoPlayRounds.

(** The theorem on {go: 2} with an engine that answers the pawn push: two
    moves played, the last one answered. *)
Lemma DoCommand_autoplay_witness :
  fst autoRun = Ok (MoveReply "e2e4") /\
  fenFile (snd autoRun) = Content "startpos e2e4 e2e4" /\
  exists moves : list chess.Move,
    List.length moves = 2%nat /\
    played (L := exampleLibs) Missing moves (fenFile (snd autoRun)).
Proof.
  split; [vm_compute; reflexivity |]. split; [vm_compute; reflexivity |].
  destruct (@DoCommand_autoplay exampleLibs pawnEngine 2 3 (Some autoCmd) autoCmd
              (freshState true) eq_refl (or_introl eq_refl) ltac:(reflexivity))
    as (moves & reached & _ & Hplayed & _ & _ & Hok).
  assert (Hreply : fst (DoCommand (L := exampleLibs) (C := pawnEngine) 2 3 (Some autoCmd)
                          (freshState true)) = Ok (MoveReply "e2e4"))
    by (vm_compute; reflexivity).
  destruct (Hok (MoveReply "e2e4") Hreply) as (Hl & Hf & _).
  exists moves. split; [exact Hl |].
  unfold autoRun. rewrite Hf. exact Hplayed.
Defined.

(** ** Commands that move nothing *)

Section IdleCommands.

Context {L : Libraries} {C : Collaborators}.

Lemma DoCommand_after_body (depth fuel : nat) (cmdMap : CmdMap) (s s0 : State)
    (r : Result Reply) :
  DoCommandBody depth fuel cmdMap s = (r, s0) ->
  fst (DoCommand depth fuel cmdMap s) = r /\
  exists evs,
    trace (snd (DoCommand depth fuel cmdMap s)) = (trace s0 ++ evs)%list /\
    Forall (fun e => isHoming e = true) evs.
Proof.
  intro Hbody. unfold DoCommand, defer. rewrite Hbody.
  destruct (homeOrWarn_emits s0) as (evs & Ht & Hp & _).
  assert (Hab : forall p, fst (homeOrWarn s0) <> Abort p).
  { intro p. unfold homeOrWarn.
    destruct (goToStart_run s0) as (n & _ & _ & _ & Hab & _).
    destruct (goToStart s0) as [[[] | e | q] s1]; cbn [fst snd] in *; try discriminate.
    exfalso. apply (Hab q). reflexivity. }
  destruct (homeOrWarn s0) as [[[] | e | p] s1]; cbn [fst snd] in *.
  - split; [reflexivity |]. exists evs. split; assumption.
  - split; [reflexivity |]. exists evs. split; assumption.
  - exfalso. apply (Hab p). reflexivity.
Qed.

(** X10.  A decoded command with a square missing and a Go that is not
    positive is refused with the "bad cmd" error, and a manual move whose N
    is zero or negative is answered with success and an empty reply,
    whatever its Go: in both cases nothing is captured, moved or grasped;
    apart from the message of the manual branch every event of the call
    belongs to the homing that ends it. *)
Theorem DoCommand_without_motion (depth fuel : nat) (cmdMap : CmdMap) (cmd : cmdStruct)
    (s : State) (Hdecode : Decode cmdMap = Some cmd) :
  (To (Move cmd) = "" \/ From (Move cmd) = "" ->
   (Go cmd <= 0)%Z ->
   fst (DoCommand depth fuel cmdMap s) = Fail BadCmd /\
   classOf BadCmd = CommandError /\
   exists evs,
     trace (snd (DoCommand depth fuel cmdMap s)) = (trace s ++ evs)%list /\
     Forall (fun e => isHoming e = true) evs) /\
  (To (Move cmd) <> "" -> From (Move cmd) <> "" ->
   (N (Move cmd) <= 0)%Z ->
   fst (DoCommand depth fuel cmdMap s) = Ok NilReply /\
   exists evs,
     trace (snd (DoCommand depth fuel cmdMap s)) =
     (trace s ++ Log (InfoMove (From (Move cmd)) (To (Move cmd))) :: evs)%list /\
     Forall (fun e => isHoming e = true) evs).
Proof.
  split.
  - intros Hshape Hgo.
    assert (Hbody : DoCommandBody depth fuel cmdMap s = (Fail BadCmd, s)).
    { unfold DoCommandBody. rewrite Hdecode.
      assert (E : negb (To (Move cmd) =? "") && negb (From (Move cmd) =? "") = false).
      { destruct Hshape as [-> | ->]; cbn; [reflexivity | apply andb_false_r]. }
      rewrite E. apply Z.ltb_ge in Hgo. rewrite Hgo. reflexivity. }
    destruct (DoCommand_after_body _ _ _ _ Hbody) as [Hr Hev].
    split; [exact Hr |]. split; [reflexivity | exact Hev].
  - intros Hto Hfrom Hn.
    assert (Hbody : DoCommandBody depth fuel cmdMap s =
                    (Ok NilReply,
                     addEvents s [Log (InfoMove (From (Move cmd)) (To (Move cmd)))])).
    { unfold DoCommandBody. rewrite Hdecode.
      apply String.eqb_neq in Hto, Hfrom. rewrite Hto, Hfrom. cbn [negb andb].
      replace (Z.to_nat (N (Move cmd))) with 0%nat by lia. reflexivity. }
    destruct (DoCommand_after_body _ _ _ _ Hbody) as [Hr (evs & Ht & Hp)].
    split; [exact Hr |]. exists evs. split; [| exact Hp].
    rewrite Ht. cbn [addEvents trace]. rewrite <- app_assoc. reflexivity.
Qed.

End IdleCommands.

(** The theorem on a command without a destination and on a manual move
    repeated -1 times. *)
Lemma DoCommand_without_motion_witness :
  fst (DoCommand (L := exampleLibs) (C := firmGripper) 2 3 (Some emptyCmd) storedState)
  = Fail BadCmd /\
  fst (DoCommand (L := exampleLibs) (C := firmGripper) 2 3 (Some backwardsCmd) storedState)
  = Ok NilReply.
Proof.
  split.
  - apply (proj1 (@DoCommand_without_motion exampleLibs firmGripper 2 3
                    (Some emptyCmd) emptyCmd storedState eq_refl)).
    + left. reflexivity.
    + cbn. lia.
  - apply (proj2 (@DoCommand_without_motion exampleLibs firmGripper 2 3
                    (Some backwardsCmd) backwardsCmd storedState eq_refl)).
    + discriminate.
    + discriminate.
    + cbn. lia.
Defined.

(** ** The motion of a move that succeeds *)

Lemma moveTargets_app (a b : list Event) :
  moveTargets (a ++ b) = (moveTargets a ++ moveTargets b)%list.
Proof. unfold moveTargets. apply flat_map_app. Qed.

Lemma moveHeights_targets (evs : list Event) :
  moveHeights evs = map r3.Z (moveTargets evs).
Proof.
  induction evs as [| e evs IH]; [reflexivity |].
  change (e :: evs) with ([e] ++ evs)%list.
  rewrite moveHeights_app, moveTargets_app, map_app, IH.
  destruct e; reflexivity.
Qed.

Section Profile.

Context {L : Libraries} {C : Collaborators}.

Lemma moveGripper_ok (p : r3.Vector) (s s' : State) :
  moveGripper p s = (Ok tt, s') ->
  exists req, Destination req = p /\ s' = addEvents s [MotionMove req].
Proof.
  intro H. pose proof (moveGripper_run p s) as Hrun.
  destruct (startPose s); [| rewrite Hrun in H; discriminate].
  destruct Hrun as (req & Hd & Hrun). rewrite Hrun in H.
  exists req. split; [exact Hd |].
  destruct (fails _ (MotionMove req)); inversion H. reflexivity.
Qed.

Lemma setupGripper_ok (s s' : State) :
  setupGripper s = (Ok tt, s') -> s' = addEvents s [ArmMoveGripper 450].
Proof.
  unfold setupGripper. rewrite call_run.
  destruct (fails _ (ArmMoveGripper 450)); intro H; inversion H. reflexivity.
Qed.

Lemma myGrab_no_target (s : State) :
  exists evs, snd (myGrab s) = addEvents s evs /\ moveTargets evs = [] /\ grabCount evs = 1%nat.
Proof.
  destruct (myGrab_run s) as (evs & Hs & Hc & Hm & _).
  exists evs. split; [exact Hs |]. split; [| exact Hc].
  rewrite moveHeights_targets in Hm. apply map_eq_nil in Hm. exact Hm.
Qed.

(** A grab loop that succeeds went down step by step and holds the piece
    at the last height it reached. *)
Lemma grabLoop_ok (center : r3.Vector) (fuel : nat) :
  forall (h z : Q) (s s' : State),
    grabLoop fuel center h s = (Ok z, s') ->
    exists (evs : list Event) (k : nat),
      s' = addEvents s evs /\
      moveTargets evs = map (atHeight center) (lowered (S k) h) /\
      z = List.last (lowered (S k) h) h /\
      grabCount evs = S k.
Proof.
  induction fuel as [| fuel IH]; intros h z s s' Hrun; cbn [grabLoop] in Hrun;
    [discriminate |].
  unfold bind at 1 in Hrun.
  destruct (moveGripper (r3.mkVector (r3.X center) (r3.Y center) h) s)
    as [[[] | e | p] s1] eqn:E1; try discriminate.
  apply moveGripper_ok in E1. destruct E1 as (req & Hd & ->).
  unfold bind at 1 in Hrun.
  destruct (myGrab_no_target (addEvents s [MotionMove req])) as (evg & Hs2 & Hnt & Hgc).
  destruct (myGrab (addEvents s [MotionMove req])) as [[got | e | p] s2];
    try discriminate.
  cbn [snd] in Hs2. subst s2. rewrite addEvents_app in Hrun.
  assert (Hfirst : moveTargets ([MotionMove req] ++ evg) = [atHeight center h]).
  { rewrite moveTargets_app, Hnt. cbn. rewrite Hd. reflexivity. }
  assert (Hcount : grabCount ([MotionMove req] ++ evg) = 1%nat).
  { rewrite grabCount_app, Hgc. reflexivity. }
  destruct got.
  - inversion Hrun; subst. exists ([MotionMove req] ++ evg)%list, 0%nat.
    repeat split; assumption.
  - unfold bind at 1, logf in Hrun. rewrite emit_run, addEvents_app in Hrun.
    destruct (Qlt_bool (h - 10) 0); [discriminate |].
    unfold bind at 1 in Hrun.
    destruct (setupGripper _) as [[[] | e | p] s3] eqn:E3; try discriminate.
    apply setupGripper_ok in E3. subst s3. rewrite addEvents_app in Hrun.
    destruct (IH _ _ _ _ Hrun) as (evs & k & -> & Ht & Hz & Hc).
    exists (((([MotionMove req] ++ evg) ++ [Log WarnDidntGrab]) ++ [ArmMoveGripper 450])
              ++ evs)%list, (S k).
    rewrite addEvents_app.
    split; [reflexivity |]. split; [| split].
    + rewrite !moveTargets_app, Hnt, Ht. cbn [moveTargets flat_map app lowered map].
      rewrite Hd. reflexivity.
    + rewrite Hz. cbn [lowered]. rewrite !last_cons. reflexivity.
    + rewrite !grabCount_app, Hgc, Hc. reflexivity.
Qed.

(** X11.  A pick and place that succeeds has asked the motion service for
    exactly these points, in this order: above the source at the transit
    height 200; down at the source from its resolved height in steps of 10,
    one per grasp attempt, the last being where the piece was held; up to
    200; above the destination at 200; down at the destination to the
    height where the piece was held, or to 300 when the destination is
    "-"; and up to 200.  So the gripper changes square only at the transit
    height. *)
Theorem pickAndPlace_profile (fuel : nat) (data : VisCapture) (from to : string)
    (s s' : State) (Hrun : pickAndPlace fuel data from to s = (Ok tt, s')) :
  exists (source target : r3.Vector) (k : nat) (evs : list Event),
    getCenterFor data from = Ok source /\
    getCenterFor data to = Ok target /\
    s' = addEvents s evs /\
    grabCount evs = S k /\
    let held := List.last (lowered (S k) (r3.Z source)) (r3.Z source) in
    let release := if to =? "-" then 300%Q else held in
    moveTargets evs =
    ([atHeight source safeZ]
       ++ map (atHeight source) (lowered (S k) (r3.Z source))
       ++ [atHeight source safeZ; atHeight target safeZ;
           atHeight target release; atHeight target safeZ])%list.
Proof.
  unfold pickAndPlace in Hrun.
  unfold bind at 1, lift in Hrun.
  destruct (getCenterFor data from) as [source | e | p] eqn:Hsource; try discriminate.
  unfold bind at 1 in Hrun.
  destruct (setupGripper s) as [[[] | e | p] s1] eqn:E1; try discriminate.
  apply setupGripper_ok in E1. subst s1.
  unfold bind at 1 in Hrun.
  destruct (moveGripper _ _) as [[[] | e | p] s2] eqn:E2; try discriminate.
  apply moveGripper_ok in E2. destruct E2 as (req2 & Hd2 & ->).
  unfold bind at 1 in Hrun.
  destruct (grabLoop fuel source (r3.Z source) _) as [[held | e | p] s3] eqn:E3;
    try discriminate.
  apply grabLoop_ok in E3. destruct E3 as (evl & k & -> & Htl & Hheld & Hcl).
  unfold bind at 1 in Hrun.
  destruct (moveGripper _ _) as [[[] | e | p] s4] eqn:E4; try discriminate.
  apply moveGripper_ok in E4. destruct E4 as (req4 & Hd4 & ->).
  unfold bind at 1 in Hrun.
  destruct (getCenterFor data to) as [target | e | p] eqn:Htarget; try discriminate.
  unfold bind at 1 in Hrun.
  destruct (moveGripper _ _) as [[[] | e | p] s5] eqn:E5; try discriminate.
  apply moveGripper_ok in E5. destruct E5 as (req5 & Hd5 & ->).
  unfold bind at 1 in Hrun.
  destruct (moveGripper _ _) as [[[] | e | p] s6] eqn:E6; try discriminate.
  apply moveGripper_ok in E6. destruct E6 as (req6 & Hd6 & ->).
  unfold bind at 1 in Hrun.
  destruct (setupGripper _) as [[[] | e | p] s7] eqn:E7; try discriminate.
  apply setupGripper_ok in E7. subst s7.
  apply moveGripper_ok in Hrun. destruct Hrun as (req8 & Hd8 & ->).
  exists source, target, k.
  rewrite !addEvents_app.
  eexists. split; [first [reflexivity | assumption] |].
  split; [first [reflexivity | assumption] |].
  split; [reflexivity |].
  split.
  - rewrite !grabCount_app, Hcl. cbn. lia.
  - cbn zeta. rewrite !moveTargets_app, Htl.
    cbn [moveTargets flat_map app].
    rewrite Hd2, Hd4, Hd5, Hd6, Hd8, <- Hheld. reflexivity.
Qed.

End Profile.

(** The profile of the quiet move e2 -> e4 of the example board. *)
Lemma pickAndPlace_profile_witness :
  exists (source target : r3.Vector) (k : nat),
    getCenterFor (L := exampleLibs) exampleBoard "e2" = Ok source /\
    getCenterFor (L := exampleLibs) exampleBoard "e4" = Ok target /\
    grabCount (trace (snd (pickAndPlace (L := exampleLibs) (C := firmGripper) 3
                              exampleBoard "e2" "e4" (freshState true)))) = S k.
Proof.
  destruct (@pickAndPlace_profile exampleLibs firmGripper 3 exampleBoard "e2" "e4"
              (freshState true)
              (snd (pickAndPlace (L := exampleLibs) (C := firmGripper) 3
                      exampleBoard "e2" "e4" (freshState true)))
              eq_refl)
    as (source & target & k & evs & Hs & Ht & Hst & Hc & _).
  exists source, target, k. split; [exact Hs |]. split; [exact Ht |].
  rewrite Hst. exact Hc.
Defined.

(** ** Manual moves end with a reply or an error *)

Section NilFree.

Context {L : Libraries} {C : Collaborators}.

Lemma nilFree_quiet (A : Type) (m : M A) :
  (forall s, startPose (snd (m s)) = startPose s) ->
  (forall s, fst (m s) <> Abort NilDereference) ->
  nilFree m.
Proof.
  intros Hs Hr s Hpose. split; [apply Hr |]. intros a _. now rewrite Hs.
Qed.

Lemma nilFree_ret (A : Type) (a : A) : nilFree (ret a).
Proof. apply nilFree_quiet; [reflexivity | discriminate]. Qed.

Lemma nilFree_fail (A : Type) (e : Error) : nilFree (fail (A := A) e).
Proof. apply nilFree_quiet; [reflexivity | discriminate]. Qed.

Lemma nilFree_lift (A : Type) (r : Result A) :
  r <> Abort NilDereference -> nilFree (lift r).
Proof. intro H. apply nilFree_quiet; [reflexivity | intro s; exact H]. Qed.

Lemma nilFree_emit (e : Event) : nilFree (emit e).
Proof. apply nilFree_quiet; [reflexivity | discriminate]. Qed.

Lemma nilFree_now : nilFree now.
Proof. apply nilFree_quiet; [reflexivity | discriminate]. Qed.

Lemma nilFree_call (e : Event) : nilFree (call e).
Proof.
  apply nilFree_quiet; intro s; rewrite call_run; [reflexivity |].
  destruct (fails _ e); discriminate.
Qed.

Lemma nilFree_bind (A B : Type) (m : M A) (k : A -> M B) :
  nilFree m -> (forall a, nilFree (k a)) -> nilFree (bind m k).
Proof.
  intros Hm Hk s Hpose. unfold bind.
  destruct (Hm s Hpose) as [Hr Hs].
  destruct (m s) as [[a | e | p] s1]; cbn [fst snd] in *.
  - apply Hk. apply (Hs a). reflexivity.
  - split; [discriminate | intros a H; discriminate].
  - split; [| intros a H; discriminate].
    intro E. apply Hr. inversion E. reflexivity.
Qed.

Lemma nilFree_wrapError (A : Type) (wrap : Error -> Error) (m : M A) :
  nilFree m -> nilFree (wrapError wrap m).
Proof.
  intros Hm s Hpose. unfold wrapError.
  destruct (Hm s Hpose) as [Hr Hs].
  destruct (m s) as [[a | e | p] s1]; cbn [fst snd] in *.
  - split; [discriminate | exact Hs].
  - split; [discriminate | intros a H; discriminate].
  - split; [exact Hr | intros a H; discriminate].
Qed.

Lemma nilFree_moveGripper (p : r3.Vector) : nilFree (moveGripper p).
Proof.
  intros s Hpose. pose proof (moveGripper_run p s) as Hrun.
  destruct (startPose s) as [theta |] eqn:E; [| contradiction].
  destruct Hrun as (req & _ & ->). cbn [fst snd addEvents startPose].
  split; [destruct (fails _ (MotionMove req)); discriminate |].
  intros _ _. rewrite E. discriminate.
Qed.

Lemma nilFree_myGrab : nilFree myGrab.
Proof.
  intros s Hpose. destruct (myGrab_run s) as (evs & Hs & _ & _ & Hab & _).
  split; [apply Hab |]. intros a _. rewrite Hs. exact Hpose.
Qed.

Lemma nilFree_grabLoop (center : r3.Vector) (fuel : nat) :
  forall useZ, nilFree (grabLoop fuel center useZ).
Proof.
  induction fuel as [| fuel IH]; intro useZ; cbn [grabLoop].
  - apply nilFree_quiet; [reflexivity | discriminate].
  - apply nilFree_bind; [apply nilFree_moveGripper | intros _].
    apply nilFree_bind; [apply nilFree_myGrab | intros [|]]; [apply nilFree_ret |].
    apply nilFree_bind; [apply nilFree_emit | intros _].
    destruct (Qlt_bool (useZ - 10) 0); [apply nilFree_fail |].
    apply nilFree_bind; [apply nilFree_call | intros _]. apply IH.
Qed.

Lemma getCenterFor_no_abort (data : VisCapture) (pos : string) (p : Abnormal) :
  getCenterFor data pos <> Abort p.
Proof.
  unfold getCenterFor.
  destruct (pos =? "-"); [discriminate |].
  destruct (findObject data pos) as [o |]; [| discriminate].
  destruct (HasSuffix (viz.Label o) "-0"); discriminate.
Qed.

Lemma nilFree_pickAndPlace (fuel : nat) (data : VisCapture) (from to : string) :
  nilFree (pickAndPlace fuel data from to).
Proof.
  unfold pickAndPlace.
  repeat first
    [ apply nilFree_moveGripper | apply nilFree_call | apply nilFree_grabLoop
    | apply nilFree_lift, getCenterFor_no_abort
    | apply nilFree_bind; [| intro] ].
Qed.

Lemma nilFree_movePiece (fuel : nat) (data : VisCapture) (depth : nat) :
  forall from to, nilFree (movePiece depth fuel data from to).
Proof.
  induction depth as [| depth IH]; intros from to; cbn [movePiece].
  - apply nilFree_quiet; [reflexivity | discriminate].
  - apply nilFree_bind; [apply nilFree_emit | intros _].
    apply nilFree_bind; [| intros _; apply nilFree_pickAndPlace].
    destruct (negb (to =? "-")); [| apply nilFree_ret].
    destruct (findObject data to) as [o |]; [| apply nilFree_fail].
    destruct (negb (HasSuffix (viz.Label o) "-0")); [| apply nilFree_ret].
    apply nilFree_bind; [apply nilFree_emit | intros _].
    apply nilFree_wrapError, IH.
Qed.

Lemma nilFree_capture : nilFree capture.
Proof.
  unfold capture.
  apply nilFree_bind; [apply nilFree_now | intro n].
  apply nilFree_bind; [apply nilFree_call | intros _; apply nilFree_ret].
Qed.

(** goToStart needs no start pose and sets one when it succeeds. *)
Lemma homed_goToStart : homed goToStart.
Proof.
  intro s.
  unfold goToStart, bind, call, now, emit, sleep, emit, setStartPose, fail, ret, bind.
  cbn.
  destruct (fails (List.length (trace s)) (SwitchSetPosition 2)); cbn;
    [split; [discriminate | intros a H; discriminate] |].
  destruct (fails _ GripperOpen); cbn;
    [split; [discriminate | intros a H; discriminate] |].
  destruct (fails _ FrameGetPose); cbn;
    split; try discriminate; intros a H; discriminate.
Qed.

Lemma homed_bind (A B : Type) (m : M A) (k : A -> M B) :
  homed m -> (forall a, nilFree (k a)) -> homed (bind m k).
Proof.
  intros Hm Hk s. unfold bind.
  destruct (Hm s) as [Hr Hs].
  destruct (m s) as [[a | e | p] s1]; cbn [fst snd] in *.
  - apply Hk. apply (Hs a). reflexivity.
  - split; [discriminate | intros a H; discriminate].
  - split; [| intros a H; discriminate].
    intro E. apply Hr. inversion E. reflexivity.
Qed.

Lemma homed_nilFree (A : Type) (m : M A) : homed m -> nilFree m.
Proof. intros H s _. apply H. Qed.

Lemma homed_manualRounds (depth fuel : nat) (cmd : MoveCmd) (rounds : nat) :
  forall x, nilFree (manualRounds depth fuel cmd x rounds).
Proof.
  induction rounds as [| rounds IH]; intro x; cbn [manualRounds].
  - apply nilFree_ret.
  - apply homed_nilFree, homed_bind; [apply homed_goToStart | intros _].
    destruct (x mod 2 =? 1)%Z;
      (apply nilFree_bind; [apply nilFree_capture | intro all];
       apply nilFree_bind; [apply nilFree_movePiece | intros _; apply IH]).
Qed.

End NilFree.

Section Fuelled.

Context {L : Libraries} {C : Collaborators}.

Lemma fuelled_quiet (A : Type) (m : M A) :
  (forall s, fst (m s) <> Abort OutOfFuel) -> fuelled m.
Proof. intros H s. apply H. Qed.

Lemma fuelled_bind (A B : Type) (m : M A) (k : A -> M B) :
  fuelled m -> (forall a, fuelled (k a)) -> fuelled (bind m k).
Proof.
  intros Hm Hk s. unfold bind. specialize (Hm s).
  destruct (m s) as [[a | e | p] s1]; cbn [fst snd] in *.
  - apply Hk.
  - discriminate.
  - intro E. apply Hm. inversion E. reflexivity.
Qed.

Lemma fuelled_wrapError (A : Type) (wrap : Error -> Error) (m : M A) :
  fuelled m -> fuelled (wrapError wrap m).
Proof.
  intros Hm s. unfold wrapError. specialize (Hm s).
  destruct (m s) as [[a | e | p] s1]; cbn [fst snd] in *; try discriminate. exact Hm.
Qed.

Lemma fuelled_call (e : Event) : fuelled (call e).
Proof. intro s. rewrite call_run. destruct (fails _ e); discriminate. Qed.

Lemma fuelled_emit (e : Event) : fuelled (emit e).
Proof. intro s. discriminate. Qed.

Lemma fuelled_moveGripper (p : r3.Vector) : fuelled (moveGripper p).
Proof.
  intro s. pose proof (moveGripper_run p s) as Hrun.
  destruct (startPose s); [| rewrite Hrun; discriminate].
  destruct Hrun as (req & _ & ->). destruct (fails _ (MotionMove req)); discriminate.
Qed.

Lemma fuelled_grabLoop (center : r3.Vector) (fuel : nat) (h : Q) :
  (roundsFor h <= fuel)%nat -> fuelled (grabLoop fuel center h).
Proof.
  intros Hfuel s. apply roundsFor_enough in Hfuel. destruct Hfuel as [Hone Hlt].
  destruct (grabLoop fuel center h s) as [r s'] eqn:Hrun.
  destruct (@grabLoop_invariant C center fuel h s s' r Hone Hlt Hrun)
    as (_ & _ & _ & _ & _ & _ & Hno & _).
  exact Hno.
Qed.

Lemma fuelled_pickAndPlace (fuel : nat) (data : VisCapture) (from to : string) :
  (forall center, getCenterFor data from = Ok center ->
                  (roundsFor (r3.Z center) <= fuel)%nat) ->
  fuelled (pickAndPlace fuel data from to).
Proof.
  intros Hfuel s. unfold pickAndPlace. unfold bind at 1, lift.
  destruct (getCenterFor data from) as [source | e | p] eqn:Hfrom.
  - revert s.
    apply fuelled_bind; [apply fuelled_call | intros _].
    apply fuelled_bind; [apply fuelled_moveGripper | intros _].
    apply fuelled_bind; [apply fuelled_grabLoop, Hfuel; reflexivity | intro useZ].
    apply fuelled_bind; [apply fuelled_moveGripper | intros _].
    apply fuelled_bind; [intro s; apply getCenterFor_no_abort | intro target].
    apply fuelled_bind; [apply fuelled_moveGripper | intros _].
    apply fuelled_bind; [apply fuelled_moveGripper | intros _].
    apply fuelled_bind; [apply fuelled_call | intros _].
    apply fuelled_moveGripper.
  - discriminate.
  - exfalso. apply (@getCenterFor_no_abort L data from p Hfrom).
Qed.

Lemma fuelled_movePiece (depth fuel : nat) (data : VisCapture) (from to : string) :
  (forall pos center, getCenterFor data pos = Ok center ->
                      (roundsFor (r3.Z center) <= fuel)%nat) ->
  fuelled (movePiece (S (S depth)) fuel data from to).
Proof.
  intro Hfuel. rewrite movePiece_S.
  apply fuelled_bind; [apply fuelled_emit | intros _].
  apply fuelled_bind; [| intros _; apply fuelled_pickAndPlace, Hfuel].
  destruct (negb (to =? "-")); [| intro s; discriminate].
  destruct (findObject data to) as [o |]; [| intro s; discriminate].
  destruct (negb (HasSuffix (viz.Label o) "-0")); [| intro s; discriminate].
  apply fuelled_bind; [apply fuelled_emit | intros _].
  apply fuelled_wrapError. intro s. rewrite movePiece_discard.
  apply fuelled_pickAndPlace, Hfuel.
Qed.

Lemma fuelled_capture_then (A : Type) (k : VisCapture -> M A) :
  (forall n, fuelled (k (captured n))) -> fuelled (bind capture k).
Proof.
  intros Hk s. unfold bind at 1, capture. unfold bind at 1, now. cbn [fst snd].
  unfold bind at 1. rewrite call_run.
  destruct (fails _ CaptureAllFromCamera); cbn [fst snd ret]; [discriminate |].
  apply Hk.
Qed.

Lemma fuelled_goToStart : fuelled goToStart.
Proof.
  intro s. destruct (goToStart_run s) as (_ & _ & _ & _ & Hab & _). apply Hab.
Qed.

Lemma fuelled_manualRounds (depth fuel : nat) (cmd : MoveCmd) (rounds : nat) :
  fuelForCaptures fuel ->
  forall x, fuelled (manualRounds (S (S depth)) fuel cmd x rounds).
Proof.
  intro Hfuel. induction rounds as [| rounds IH]; intro x; cbn [manualRounds].
  - intro s. discriminate.
  - apply fuelled_bind; [apply fuelled_goToStart | intros _].
    destruct (x mod 2 =? 1)%Z;
      (apply fuelled_capture_then; intro n;
       apply fuelled_bind; [apply fuelled_movePiece, Hfuel | intros _; apply IH]).
Qed.

(** X12.  A manual command never ends in a nil dereference, whatever the
    state DoCommand finds, since every round homes before it moves and a
    homing that succeeds sets the start pose moveGripper reads.  With a
    nesting depth of at least 2 and fuel for the heights the resolver can
    answer, it does not end abnormally at all: DoCommand answers a reply or
    an error value. *)
Theorem DoCommand_manual_ends (depth fuel : nat) (cmdMap : CmdMap) (cmd : cmdStruct)
    (s : State)
    (Hdecode : Decode cmdMap = Some cmd)
    (Hfrom : From (Move cmd) <> "")
    (Hto : To (Move cmd) <> "") :
  fst (DoCommand depth fuel cmdMap s) <> Abort NilDereference /\
  ((2 <= depth)%nat -> fuelForCaptures fuel ->
   (exists reply, fst (DoCommand depth fuel cmdMap s) = Ok reply) \/
   (exists e, fst (DoCommand depth fuel cmdMap s) = Fail e)).
Proof.
  apply String.eqb_neq in Hfrom, Hto.
  assert (Hbody : DoCommandBody depth fuel cmdMap =
                  (logf (InfoMove (From (Move cmd)) (To (Move cmd))) ;;
                   manualRounds depth fuel (Move cmd) 0 (Z.to_nat (N (Move cmd))) ;;
                   ret NilReply)).
  { unfold DoCommandBody. rewrite Hdecode, Hfrom, Hto. reflexivity. }
  rewrite DoCommand_run. cbn [fst]. rewrite Hbody.
  assert (Hnil : forall s0,
             fst ((manualRounds depth fuel (Move cmd) 0 (Z.to_nat (N (Move cmd))) ;;
                   ret NilReply) s0) <> Abort NilDereference).
  { intro s0. unfold bind.
    pose proof (homed_manualRounds depth fuel (Move cmd) (Z.to_nat (N (Move cmd))) 0%Z) as H.
    destruct (Z.to_nat (N (Move cmd))) as [| rounds] eqn:En.
    - cbn. discriminate.
    - cbn [manualRounds] in *.
      assert (Hh : homed (goToStart ;;
                          (let '(from, to) :=
                             if (0 mod 2 =? 1)%Z
                             then (To (Move cmd), From (Move cmd))
                             else (From (Move cmd), To (Move cmd)) in
                           all <- capture ;;
                           movePiece depth fuel all from to ;;
                           manualRounds depth fuel (Move cmd) (0 + 1) rounds))).
      { apply homed_bind; [apply homed_goToStart | intros _].
        cbn [Z.modulo Z.eqb]. 
        apply nilFree_bind; [apply nilFree_capture | intro all].
        apply nilFree_bind; [apply nilFree_movePiece | intros _].
        apply homed_manualRounds. }
      destruct (Hh s0) as [Hr _].
      match goal with
      | |- fst (match ?run with _ => _ end) <> _ =>
          destruct run as [[[] | e | p] s1]
      end; cbn [fst snd] in *; try discriminate.
      intro E. apply Hr. inversion E. reflexivity. }
  split.
  - unfold bind at 1, logf. rewrite emit_run. apply Hnil.
  - intros Hdepth Hfuel.
    destruct depth as [| [| depth]]; try lia.
    assert (Hfl : fst ((logf (InfoMove (From (Move cmd)) (To (Move cmd))) ;;
                        manualRounds (S (S depth)) fuel (Move cmd) 0
                                     (Z.to_nat (N (Move cmd))) ;;
                        ret NilReply) s) <> Abort OutOfFuel).
    { apply fuelled_bind; [apply fuelled_emit | intros _].
      apply fuelled_bind; [apply fuelled_manualRounds, Hfuel | intros _].
      intro s0. discriminate. }
    assert (Hn : fst ((logf (InfoMove (From (Move cmd)) (To (Move cmd))) ;;
                       manualRounds (S (S depth)) fuel (Move cmd) 0
                                    (Z.to_nat (N (Move cmd))) ;;
                       ret NilReply) s) <> Abort NilDereference).
    { unfold bind at 1, logf. rewrite emit_run. apply Hnil. }
    destruct (fst _) as [reply | e | [|]].
    + left. exists reply. reflexivity.
    + right. exists e. reflexivity.
    + exfalso. apply Hn. reflexivity.
    + exfalso. apply Hfl. reflexivity.
Qed.

End Fuelled.

Lemma exampleBoard_fuel :
  fuelForCaptures (L := exampleLibs) (C := firmGripper) 50.
Proof.
  intros n pos center H. cbn [captured firmGripper obliging] in H.
  unfold getCenterFor in H.
  destruct (pos =? "-").
  - inversion H. vm_compute. lia.
  - destruct (findObject exampleBoard pos) as [o |] eqn:Hfind; [| discriminate].
    apply find_some in Hfind. destruct Hfind as [Hin _].
    cbn [Objects exampleBoard] in Hin.
    destruct Hin as [<- | [<- | [<- | []]]]; cbn in H; inversion H; vm_compute; lia.
Qed.

(** The theorem on the manual move e2 -> e4 of the example board. *)
Lemma DoCommand_manual_ends_witness :
  (exists reply, fst manualRunFuelled = Ok reply) \/
  (exists e, fst manualRunFuelled = Fail e).
Proof.
  apply (proj2 (@DoCommand_manual_ends exampleLibs firmGripper 2 50
                  (Some manualCmd) manualCmd storedState eq_refl
                  ltac:(discriminate) ltac:(discriminate))).
  - lia.
  - exact exampleBoard_fuel.
Defined.

(** ** A gripper that never holds *)

Section Exhaust.

Context {L : Libraries} {C : Collaborators}.

Lemma grabLoop_never_holding (center : r3.Vector) (fuel : nat) :
  wellBehaved C ->
  (forall n, grabbed n = false) ->
  forall (h : Q) (s s' : State) (r : Result Q),
    startPose s <> None ->
    (0 <= h)%Q ->
    (h < 10 * inject_Z (Z.of_nat fuel))%Q ->
    grabLoop fuel center h s = (r, s') ->
    r = Fail CouldntGrab /\
    exists (evs : list Event) (k : nat),
      s' = addEvents s evs /\
      moveHeights evs = lowered (S k) h /\
      grabCount evs = S k /\
      (10 * inject_Z (Z.of_nat k) <= h)%Q /\
      (h < 10 * inject_Z (Z.of_nat (S k)))%Q.
Proof.
  intros [Wf Wp] Hnever.
  induction fuel as [| fuel IH]; intros h s s' r Hpose Hh Hfuel Hrun.
  { change (inject_Z (Z.of_nat 0)) with 0%Q in Hfuel. exfalso. lra. }
  cbn [grabLoop] in Hrun.
  pose proof (moveGripper_run (r3.mkVector (r3.X center) (r3.Y center) h) s) as Hmove.
  destruct (startPose s) as [theta |] eqn:SP; [| contradiction].
  destruct Hmove as (req & Hdest & Hmove).
  unfold bind at 1 in Hrun. rewrite Hmove, Wf in Hrun.
  assert (Hh1 : moveHeights [MotionMove req] = [h]).
  { cbn. rewrite Hdest. reflexivity. }
  set (s1 := addEvents s [MotionMove req]) in *.
  unfold bind at 1 in Hrun.
  destruct (myGrab_run s1) as (evg & Hs2 & Hcount & Hnomove & _ & Hres).
  destruct (gripper_position (List.length (trace s1) + 2)) as [p |] eqn:G;
    [| exfalso; apply (Wp _ G)].
  specialize (Hres (Wf _ _) (Wf _ _) p eq_refl). rewrite Hnever in Hres.
  destruct (myGrab s1) as [rg s2]. cbn [fst snd andb] in *. subst rg s2.
  unfold s1 in Hrun. rewrite addEvents_app in Hrun.
  unfold bind at 1, logf in Hrun. rewrite emit_run, addEvents_app in Hrun.
  destruct (Qlt_bool (h - 10) 0) eqn:Floor.
  - apply Qlt_bool_iff in Floor. inversion Hrun; subst.
    split; [reflexivity |].
    exists (([MotionMove req] ++ evg) ++ [Log WarnDidntGrab])%list, 0%nat.
    rewrite !moveHeights_app, !grabCount_app, Hh1, Hnomove, Hcount.
    split; [reflexivity |]. split; [reflexivity |]. split; [reflexivity |].
    change (inject_Z (Z.of_nat 0)) with 0%Q. change (inject_Z (Z.of_nat 1)) with 1%Q.
    split; lra.
  - apply Qlt_bool_false_iff in Floor.
    unfold setupGripper in Hrun. unfold bind at 1 in Hrun.
    rewrite call_run, Wf, addEvents_app in Hrun.
    assert (Hfuel' : (h - 10 < 10 * inject_Z (Z.of_nat fuel))%Q).
    { rewrite Nat2Z.inj_succ in Hfuel. unfold Z.succ in Hfuel.
      rewrite inject_Z_plus in Hfuel. change (inject_Z 1) with 1%Q in Hfuel. lra. }
    assert (Hpose' : startPose
                       (addEvents s ((([MotionMove req] ++ evg) ++ [Log WarnDidntGrab])
                                       ++ [ArmMoveGripper 450])) <> None).
    { cbn. rewrite SP. discriminate. }
    assert (Hh' : (0 <= h - 10)%Q) by lra.
    destruct (IH _ _ _ _ Hpose' Hh' Hfuel' Hrun)
      as (-> & evs & k & -> & Hm & Hc & Hlow & Hup).
    split; [reflexivity |].
    exists (((([MotionMove req] ++ evg) ++ [Log WarnDidntGrab]) ++ [ArmMoveGripper 450])
              ++ evs)%list, (S k).
    rewrite addEvents_app, !moveHeights_app, !grabCount_app, Hh1, Hnomove, Hcount, Hm, Hc.
    split; [reflexivity |]. split; [reflexivity |]. split; [reflexivity |].
    rewrite !Nat2Z.inj_succ in *. unfold Z.succ in *. rewrite !inject_Z_plus in *.
    change (inject_Z 1) with 1%Q in *. split; lra.
Qed.

(** X13.  When no collaborator answers an error and the gripper never
    reports a grasp, the grab loop started at a height h >= 0 after a
    homing makes exactly floor(h / 10) + 1 attempts, at h, h - 10, ..., the
    last being the lowest of these heights that is not below 0, and ends
    with the "couldn't grab" error. *)
Theorem grabLoop_exhausts (center : r3.Vector) (h : Q) (fuel : nat) (s : State)
    (Hwell : wellBehaved C)
    (Hnever : forall n, grabbed n = false)
    (Hpose : startPose s <> None)
    (Hheight : (0 <= h)%Q)
    (Hfuel : (roundsFor h <= fuel)%nat) :
  fst (grabLoop fuel center h s) = Fail CouldntGrab /\
  exists (evs : list Event) (k : nat),
    trace (snd (grabLoop fuel center h s)) = (trace s ++ evs)%list /\
    moveHeights evs = lowered k h /\
    grabCount evs = k /\
    (10 * (inject_Z (Z.of_nat k) - 1) <= h)%Q /\
    (h < 10 * inject_Z (Z.of_nat k))%Q.
Proof.
  apply roundsFor_enough in Hfuel. destruct Hfuel as [_ Hlt].
  destruct (grabLoop fuel center h s) as [r s'] eqn:Hrun.
  destruct (@grabLoop_never_holding center fuel Hwell Hnever h s s' r Hpose Hheight Hlt Hrun)
    as (-> & evs & k & -> & Hm & Hc & Hlow & Hup).
  split; [reflexivity |]. exists evs, (S k). cbn [snd addEvents trace].
  split; [reflexivity |]. split; [exact Hm |]. split; [exact Hc |].
  split; [| exact Hup].
  rewrite Nat2Z.inj_succ. unfold Z.succ. rewrite inject_Z_plus.
  change (inject_Z 1) with 1%Q. lra.
Qed.

End Exhaust.

(** The theorem from height 25: three attempts, then the grasp error. *)
Lemma grabLoop_exhausts_witness :
  fst runFrom25 = Fail CouldntGrab.
Proof.
  apply (@grabLoop_exhausts emptyGripper (r3.mkVector 104 52 25) 25%Q 4%nat
           (freshState true)).
  - split; [reflexivity | discriminate].
  - reflexivity.
  - discriminate.
  - vm_compute. discriminate.
  - vm_compute. lia.
Defined.

(** ** The rounds of a manual command *)

Lemma topCalls_app (a b : list Event) :
  topCalls (a ++ b) = (topCalls a ++ topCalls b)%list.
Proof.
  unfold topCalls. now rewrite movePieceCalls_app, filter_app.
Qed.

Lemma topCalls_aside (evs : list Event) :
  Forall (fun e => isAside e = true) evs -> topCalls evs = [].
Proof.
  induction 1 as [| e evs He _ IH]; [reflexivity |].
  change (e :: evs) with ([e] ++ evs)%list. rewrite topCalls_app, IH, app_nil_r.
  destruct e as [| | | | | | | | | | | | msg]; try reflexivity.
  destruct msg; try reflexivity.
  unfold topCalls. cbn in *. now rewrite He.
Qed.

Lemma isHandling_aside (e : Event) : isHandling e = true -> isAside e = true.
Proof.
  destruct e as [| | | | | | | | | | | | msg]; try reflexivity.
  destruct msg; try reflexivity; discriminate.
Qed.

Lemma isHoming_aside (e : Event) : isHoming e = true -> isAside e = true.
Proof.
  destruct e as [| | | | | | | | | | | | msg]; try reflexivity.
  destruct msg; try reflexivity; discriminate.
Qed.

Section Rounds.

Context {L : Libraries} {C : Collaborators}.

Lemma movePiece_discard_aside (depth fuel : nat) (data : VisCapture) (from : string) :
  emits (fun e => isAside e = true) (movePiece depth fuel data from "-").
Proof.
  destruct depth as [| depth]; cbn [movePiece]; [emits_auto |].
  apply emits_bind; [emits_auto | intros _].
  apply emits_bind; [cbn; emits_auto | intros _].
  eapply emits_weaken; [apply isHandling_aside | apply pickAndPlace_emits].
Qed.

(** An invocation for a square logs itself first; nothing it does after
    that is the entry of another invocation for a square. *)
Lemma movePiece_top (depth fuel : nat) (data : VisCapture) (from to : string) (s : State) :
  exists evs,
    trace (snd (movePiece (S depth) fuel data from to s)) =
    (trace s ++ Log (InfoMovePieceCalled from to) :: evs)%list /\
    Forall (fun e => isAside e = true) evs.
Proof.
  rewrite movePiece_S. unfold bind at 1, logf. rewrite emit_run.
  match goal with
  | |- context [snd (?rest (addEvents s ?l))] =>
      assert (H : emits (fun e => isAside e = true) rest)
  end.
  { apply emits_bind.
    - destruct (negb (to =? "-")); [| emits_auto].
      destruct (findObject data to) as [o |]; [| emits_auto].
      destruct (negb (HasSuffix (viz.Label o) "-0")); [| emits_auto].
      apply emits_bind; [emits_auto | intros _].
      apply emits_wrapError, movePiece_discard_aside.
    - intros _. eapply emits_weaken; [apply isHandling_aside | apply pickAndPlace_emits]. }
  destruct (H (addEvents s [Log (InfoMovePieceCalled from to)])) as (evs & Ht & Hp & _).
  exists evs. rewrite Ht. cbn [addEvents trace]. rewrite <- app_assoc. split; [reflexivity | exact Hp].
Qed.

Lemma manualRounds_calls (depth fuel : nat) (cmd : MoveCmd)
    (Hfrom : From cmd <> "-") (Hto : To cmd <> "-") (rounds : nat) :
  forall (x : Z) (s s' : State) (r : Result unit),
    manualRounds (S depth) fuel cmd x rounds s = (r, s') ->
    exists (evs : list Event) (j : nat),
      trace s' = (trace s ++ evs)%list /\
      (j <= rounds)%nat /\
      topCalls evs = alternating (From cmd) (To cmd) x j /\
      (r = Ok tt -> j = rounds).
Proof.
  apply String.eqb_neq in Hfrom, Hto.
  induction rounds as [| rounds IH]; intros x s s' r Hrun; cbn [manualRounds] in Hrun.
  - inversion Hrun; subst. exists [], 0%nat. rewrite app_nil_r.
    split; [reflexivity |]. split; [lia |]. split; reflexivity.
  - unfold bind at 1 in Hrun.
    assert (Hg : emits (fun e => isAside e = true) goToStart).
    { eapply emits_weaken; [apply isHoming_aside | apply goToStart_emits]. }
    destruct (Hg s) as (ev1 & Ht1 & Hp1 & _).
    destruct (goToStart s) as [[[] | e | p] s1]; cbn [snd] in *.
    2,3: inversion Hrun; subst; exists ev1, 0%nat; split; [exact Ht1 |]; split; [lia |];
         split; [apply topCalls_aside, Hp1 | discriminate].
    assert (Hpair : exists from to,
               (if (x mod 2 =? 1)%Z then (To cmd, From cmd) else (From cmd, To cmd))
               = (from, to) /\ (to =? "-") = false).
    { destruct (x mod 2 =? 1)%Z; eexists; eexists; split; try reflexivity; assumption. }
    destruct Hpair as (from & to & Epair & Hsq). rewrite Epair in Hrun.
    unfold bind at 1 in Hrun.
    assert (Hc : emits (fun e => isAside e = true) capture).
    { eapply emits_weaken; [| apply capture_emits]. intros e ->. reflexivity. }
    destruct (Hc s1) as (ev2 & Ht2 & Hp2 & _).
    destruct (capture s1) as [[all | e | p] s2]; cbn [snd] in *.
    2,3: inversion Hrun; subst; exists (ev1 ++ ev2)%list, 0%nat; rewrite Ht2, Ht1, app_assoc;
         split; [reflexivity |]; split; [lia |];
         split; [apply topCalls_aside, Forall_app; split; assumption | discriminate].
    unfold bind at 1 in Hrun.
    destruct (movePiece_top depth fuel all from to s2) as (ev3 & Ht3 & Hp3).
    assert (Hcalls : topCalls (ev1 ++ ev2 ++ Log (InfoMovePieceCalled from to) :: ev3)
                     = [(from, to)]).
    { change (Log (InfoMovePieceCalled from to) :: ev3)
        with ([Log (InfoMovePieceCalled from to)] ++ ev3)%list.
      rewrite !topCalls_app, (topCalls_aside Hp1), (topCalls_aside Hp2),
        (topCalls_aside Hp3).
      unfold topCalls. cbn. rewrite Hsq. reflexivity. }
    destruct (movePiece (S depth) fuel all from to s2) as [[[] | e | p] s3];
      cbn [snd] in *.
    2,3: inversion Hrun; subst;
         exists (ev1 ++ ev2 ++ Log (InfoMovePieceCalled from to) :: ev3)%list, 1%nat;
         rewrite Ht3, Ht2, Ht1, <- !app_assoc;
         split; [reflexivity |]; split; [lia |];
         split; [rewrite Hcalls; cbn [alternating]; rewrite Epair; reflexivity
                | discriminate].
    destruct (IH (x + 1)%Z s3 s' r Hrun) as (ev4 & j & Ht4 & Hj & Hcalls4 & Hok).
    exists ((ev1 ++ ev2 ++ Log (InfoMovePieceCalled from to) :: ev3) ++ ev4)%list, (S j).
    split; [rewrite Ht4, Ht3, Ht2, Ht1, <- !app_assoc; reflexivity |].
    split; [lia |]. split.
    + rewrite topCalls_app, Hcalls, Hcalls4. cbn [alternating]. rewrite Epair. reflexivity.
    + intro H. rewrite (Hok H). reflexivity.
Qed.

(** X14.  A manual command between two squares moves the piece to and fro:
    the invocations of movePiece for a square that DoCommand makes are, in
    order, from -> to, to -> from, from -> to, ... (those that put a piece
    aside go to "-" and are not counted); there are N of them when the
    command succeeds and fewer only when a round fails. *)
Theorem DoCommand_manual_alternates (depth fuel : nat) (cmdMap : CmdMap)
    (cmd : cmdStruct) (s : State)
    (Hdecode : Decode cmdMap = Some cmd)
    (Hfrom : From (Move cmd) <> "" /\ From (Move cmd) <> "-")
    (Hto : To (Move cmd) <> "" /\ To (Move cmd) <> "-") :
  exists (evs : list Event) (j : nat),
    trace (snd (DoCommand (S depth) fuel cmdMap s)) = (trace s ++ evs)%list /\
    (j <= Z.to_nat (N (Move cmd)))%nat /\
    topCalls evs = alternating (From (Move cmd)) (To (Move cmd)) 0 j /\
    (forall reply,
        fst (DoCommand (S depth) fuel cmdMap s) = Ok reply -> j = Z.to_nat (N (Move cmd))).
Proof.
  destruct Hfrom as [Hfrom Hfrom']. destruct Hto as [Hto Hto'].
  apply String.eqb_neq in Hfrom, Hto.
  assert (Hbody : DoCommandBody (S depth) fuel cmdMap s =
                  (manualRounds (S depth) fuel (Move cmd) 0 (Z.to_nat (N (Move cmd))) ;;
                   ret NilReply)
                    (addEvents s [Log (InfoMove (From (Move cmd)) (To (Move cmd)))])).
  { unfold DoCommandBody. rewrite Hdecode, Hfrom, Hto. reflexivity. }
  destruct (manualRounds (S depth) fuel (Move cmd) 0 (Z.to_nat (N (Move cmd)))
              (addEvents s [Log (InfoMove (From (Move cmd)) (To (Move cmd)))]))
    as [r s1] eqn:Hrun.
  destruct (@manualRounds_calls depth fuel (Move cmd) Hfrom' Hto' _ _ _ _ _ Hrun)
    as (evr & j & Htr & Hj & Hcalls & Hok).
  assert (Hb : DoCommandBody (S depth) fuel cmdMap s =
               (match r with
                | Ok _ => Ok NilReply
                | Fail e => Fail e
                | Abort p => Abort p
                end, s1)).
  { rewrite Hbody. unfold bind. rewrite Hrun. destruct r as [[] | e | p]; reflexivity. }
  destruct (DoCommand_after_body _ _ _ _ Hb) as [Hr (evh & Hth & Hph)].
  exists ((Log (InfoMove (From (Move cmd)) (To (Move cmd))) :: evr) ++ evh)%list, j.
  split; [| split; [exact Hj | split]].
  - rewrite Hth, Htr. cbn [addEvents trace]. rewrite <- !app_assoc. reflexivity.
  - change (Log (InfoMove (From (Move cmd)) (To (Move cmd))) :: evr)
      with ([Log (InfoMove (From (Move cmd)) (To (Move cmd)))] ++ evr)%list.
    rewrite !topCalls_app, Hcalls.
    rewrite (topCalls_aside (Forall_impl _ isHoming_aside Hph)), app_nil_r.
    reflexivity.
  - intros reply Hreply. apply Hok. rewrite Hr in Hreply.
    destruct r as [[] | e | p]; [reflexivity | discriminate | discriminate].
Qed.

End Rounds.

(** The theorem on three rounds between e2 and e4. *)
Lemma DoCommand_manual_alternates_witness :
  fst swingRun = Ok NilReply /\
  topCalls (trace (snd swingRun)) = [("e2", "e4"); ("e4", "e2"); ("e2", "e4")] /\
  exists (evs : list Event) (j : nat),
    trace (snd swingRun) = (trace storedState ++ evs)%list /\
    topCalls evs = alternating "e2" "e4" 0 j.
Proof.
  split; [vm_compute; reflexivity |]. split; [vm_compute; reflexivity |].
  destruct (@DoCommand_manual_alternates exampleLibs firmGripper 1 4 (Some swingCmd)
              swingCmd storedState eq_refl)
    as (evs & j & Ht & _ & Hcalls & _).
  - split; discriminate.
  - split; discriminate.
  - exists evs, j. split; [exact Ht | exact Hcalls].
Defined.

(** ** A source the camera does not report *)

Section UnknownSource.

Context {L : Libraries} {C : Collaborators}.

Lemma pickAndPlace_unknown_source (fuel : nat) (data : VisCapture) (from to : string)
    (s : State) :
  from <> "-" -> findObject data from = None ->
  pickAndPlace fuel data from to s = (Fail (CantFindObject from), s).
Proof.
  intros Hfrom Hnone. apply String.eqb_neq in Hfrom.
  unfold pickAndPlace, bind, lift, getCenterFor. rewrite Hfrom, Hnone. reflexivity.
Qed.

(** X15.  movePiece looks for its source only after it has dealt with the
    destination.  With a source the camera does not report the call never
    succeeds.  When the destination is "-" or an empty square it fails
    with "can't find object" having done nothing but log its entry; when
    the destination is occupied, the occupant is first carried aside by a
    complete nested pick and place, and the call then fails with the same
    error, the board left without the occupant. *)
Theorem movePiece_unknown_source (depth fuel : nat) (data : VisCapture)
    (from to : string) (s : State)
    (Hfrom : from <> "-") (Hnone : findObject data from = None) :
  fst (movePiece (S (S depth)) fuel data from to s) <> Ok tt /\
  ((to = "-" \/
    exists o, findObject data to = Some o /\ HasSuffix (viz.Label o) "-0" = true) ->
   movePiece (S (S depth)) fuel data from to s =
   (Fail (CantFindObject from), addEvents s [Log (InfoMovePieceCalled from to)])) /\
  (forall (o : viz.Object) (s2 : State),
      to <> "-" -> findObject data to = Some o ->
      HasSuffix (viz.Label o) "-0" = false ->
      pickAndPlace fuel data to "-"
        (addEvents s [Log (InfoMovePieceCalled from to);
                      Log (InfoAlreadyHasPiece to (viz.Label o));
                      Log (InfoMovePieceCalled to "-")]) = (Ok tt, s2) ->
      movePiece (S (S depth)) fuel data from to s = (Fail (CantFindObject from), s2)).
Proof.
  split; [| split].
  - destruct (movePiece (S (S depth)) fuel data from to s) as [r s'] eqn:Hrun.
    rewrite movePiece_S in Hrun. unfold bind at 1, logf in Hrun. rewrite emit_run in Hrun.
    unfold bind at 1 in Hrun.
    match type of Hrun with
    | context [match ?check ?st with _ => _ end] =>
        destruct (check st) as [[[] | e | p] s1]
    end.
    + rewrite (@pickAndPlace_unknown_source _ _ _ _ _ Hfrom Hnone) in Hrun.
      inversion Hrun; subst. discriminate.
    + inversion Hrun; subst. discriminate.
    + inversion Hrun; subst. discriminate.
  - intros Hfree. rewrite movePiece_S. unfold bind at 1, logf. rewrite emit_run.
    unfold bind at 1.
    destruct Hfree as [-> | (o & Ho & Hsuffix)].
    + cbn [String.eqb Ascii.eqb Bool.eqb negb ret].
      apply (@pickAndPlace_unknown_source _ _ _ _ _ Hfrom Hnone).
    + rewrite Ho, Hsuffix.
      destruct (negb (to =? "-")); cbn [negb ret];
        apply (@pickAndPlace_unknown_source _ _ _ _ _ Hfrom Hnone).
  - intros o s2 Hto Ho Hsuffix Hcarry. apply String.eqb_neq in Hto.
    rewrite movePiece_S. unfold bind at 1, logf. rewrite emit_run.
    unfold bind at 1. rewrite Hto, Ho, Hsuffix. cbn [negb].
    unfold bind at 1, logf. rewrite emit_run.
    unfold wrapError. rewrite movePiece_S.
    unfold bind at 1, logf. rewrite emit_run.
    cbn [String.eqb Ascii.eqb Bool.eqb negb]. unfold bind at 1, ret at 1.
    rewrite !addEvents_app. cbn [app].
    rewrite Hcarry.
    apply (@pickAndPlace_unknown_source _ _ _ _ _ Hfrom Hnone).
Qed.

End UnknownSource.

(** The theorem on the example board: asked to move from a1, which the
    camera does not report, to the occupied d5, the arm carries the piece
    of d5 aside and the call fails. *)
Lemma movePiece_unknown_source_witness :
  fst ghostRun = Fail (CantFindObject "a1") /\
  movePieceCalls (trace (snd ghostRun)) = [("a1", "d5"); ("d5", "-")] /\
  grabCount (trace (snd ghostRun)) = 1%nat.
Proof.
  destruct (@movePiece_unknown_source exampleLibs firmGripper 0 3 exampleBoard "a1" "d5"
              (freshState true)) as (_ & _ & Hcarry).
  - discriminate.
  - reflexivity.
  - unfold ghostRun.
    rewrite (Hcarry (square "d5-2" (r3.mkVector 60 200 12) (r3.mkVector 62 204 30))
               (snd (pickAndPlace (L := exampleLibs) (C := firmGripper) 3 exampleBoard
                       "d5" "-"
                       (addEvents (freshState true)
                          [Log (InfoMovePieceCalled "a1" "d5");
                           Log (InfoAlreadyHasPiece "d5" "d5-2");
                           Log (InfoMovePieceCalled "d5" "-")])))).
    + split; [reflexivity |]. split; vm_compute; reflexivity.
    + discriminate.
    + reflexivity.
    + reflexivity.
    + vm_compute. reflexivity.
Defined.

(** ** The orientation of the gripper *)

Section Steady.

Context {L : Libraries} {C : Collaborators}.
Variable theta : float64.
Variable P : Event -> Prop.

Lemma steady_pure (A : Type) (m : M A) :
  (forall s, snd (m s) = s) -> steady theta P m.
Proof.
  intros Hm s _. exists []. rewrite addEvents_nil. split; [apply Hm | constructor].
Qed.

Lemma steady_bind (A B : Type) (m : M A) (k : A -> M B) :
  steady theta P m -> (forall a, steady theta P (k a)) -> steady theta P (bind m k).
Proof.
  intros Hm Hk s Hpose. unfold bind.
  destruct (Hm s Hpose) as (evs1 & Hs1 & Hp1).
  destruct (m s) as [[a | e | p] s1]; cbn [snd] in *; subst s1.
  - destruct (Hk a (addEvents s evs1) Hpose) as (evs2 & Hs2 & Hp2).
    exists (evs1 ++ evs2)%list. rewrite Hs2, addEvents_app.
    split; [reflexivity | apply Forall_app; split; assumption].
  - exists evs1. split; [reflexivity | assumption].
  - exists evs1. split; [reflexivity | assumption].
Qed.

Lemma steady_wrapError (A : Type) (wrap : Error -> Error) (m : M A) :
  steady theta P m -> steady theta P (wrapError wrap m).
Proof.
  intros Hm s Hpose. unfold wrapError.
  destruct (Hm s Hpose) as (evs & Hs & Hp).
  destruct (m s) as [[a | e | p] s1]; cbn [snd] in *; exists evs; split; assumption.
Qed.

Lemma steady_emit (e : Event) : P e -> steady theta P (emit e).
Proof.
  intros He s _. exists [e]. split; [reflexivity | constructor; [exact He | constructor]].
Qed.

Lemma steady_call (e : Event) : P e -> steady theta P (call e).
Proof.
  intros He s _. rewrite call_run. exists [e].
  split; [reflexivity | constructor; [exact He | constructor]].
Qed.

End Steady.

Ltac steady_step :=
  match goal with
  | |- steady _ _ (bind _ _) => apply steady_bind; [| intro]
  | |- steady _ _ (ret _) => apply steady_pure; reflexivity
  | |- steady _ _ (fail _) => apply steady_pure; reflexivity
  | |- steady _ _ (abort _) => apply steady_pure; reflexivity
  | |- steady _ _ (lift _) => apply steady_pure; reflexivity
  | |- steady _ _ now => apply steady_pure; reflexivity
  | |- steady _ _ (emit _) => apply steady_emit; exact I
  | |- steady _ _ (call _) => apply steady_call; exact I
  | |- steady _ _ (logf _) => unfold logf
  | |- steady _ _ (sleep _) => unfold sleep
  | |- steady _ _ (wrapError _ _) => apply steady_wrapError
  | |- steady _ _ (if ?b then _ else _) => destruct b
  | |- steady _ _ (match ?x with _ => _ end) => destruct x
  end.

Section Orientation.

Context {L : Libraries} {C : Collaborators}.
Variable theta : float64.

Lemma moveGripper_downward (p : r3.Vector) : steady theta (downward theta) (moveGripper p).
Proof.
  intros s Hpose. unfold moveGripper, bind, getStartPose. rewrite Hpose, call_run.
  eexists. split; [reflexivity |].
  constructor; [| constructor]. cbn. split; [reflexivity |]. split; reflexivity.
Qed.

Lemma setupGripper_downward : steady theta (downward theta) setupGripper.
Proof. unfold setupGripper. repeat steady_step. Qed.

Lemma myGrab_downward : steady theta (downward theta) myGrab.
Proof. unfold myGrab. repeat steady_step. Qed.

Lemma grabLoop_downward (center : r3.Vector) (fuel : nat) :
  forall useZ, steady theta (downward theta) (grabLoop fuel center useZ).
Proof.
  induction fuel as [| fuel IH]; intro useZ; cbn [grabLoop].
  - repeat steady_step.
  - apply steady_bind; [apply moveGripper_downward | intros _].
    apply steady_bind; [apply myGrab_downward | intros [|]]; [repeat steady_step |].
    apply steady_bind; [repeat steady_step | intros _].
    destruct (Qlt_bool (useZ - 10) 0); [repeat steady_step |].
    apply steady_bind; [apply setupGripper_downward | intros _]. apply IH.
Qed.

Lemma pickAndPlace_downward (fuel : nat) (data : VisCapture) (from to : string) :
  steady theta (downward theta) (pickAndPlace fuel data from to).
Proof.
  unfold pickAndPlace.
  repeat first
    [ apply moveGripper_downward | apply setupGripper_downward | apply grabLoop_downward
    | apply steady_pure; reflexivity
    | apply steady_bind; [| intro] ].
Qed.

(** X16.  Whatever happens in a movePiece that starts with a start pose of
    angle theta, every motion request it makes, the nested one's included,
    asks for the gripper pointing down (OZ = -1) at that angle, leaning
    along X by (X - 300) / 1000 when the target lies beyond X = 300 and
    not at all otherwise; and movePiece changes nothing of the service's
    state but what it asked of its collaborators: the start pose, the
    position file and the engine stay as they were. *)
Theorem movePiece_orientation (depth fuel : nat) (data : VisCapture)
    (from to : string) (s : State)
    (Hpose : startPose s = Some theta) :
  exists evs,
    snd (movePiece depth fuel data from to s) = addEvents s evs /\
    Forall (downward theta) evs.
Proof.
  revert from to s Hpose.
  induction depth as [| depth IH]; intros from to s Hpose.
  - exists []. rewrite addEvents_nil. split; [reflexivity | constructor].
  - assert (Hsteady : steady theta (downward theta) (movePiece (S depth) fuel data from to)).
    { rewrite movePiece_S.
      apply steady_bind; [repeat steady_step | intros _].
      apply steady_bind; [| intros _; apply pickAndPlace_downward].
      destruct (negb (to =? "-")); [| repeat steady_step].
      destruct (findObject data to) as [o |]; [| repeat steady_step].
      destruct (negb (HasSuffix (viz.Label o) "-0")); [| repeat steady_step].
      apply steady_bind; [repeat steady_step | intros _].
      apply steady_wrapError. intros s0 Hpose0. apply IH, Hpose0. }
    apply Hsteady, Hpose.
Qed.

End Orientation.

(** The theorem on the capture e2 -> d5 of the example board. *)
Lemma movePiece_orientation_witness :
  exists evs,
    snd captureRun = addEvents (freshState true) evs /\
    Forall (downward 0) evs.
Proof.
  apply (@movePiece_orientation exampleLibs firmGripper 0%Q 2 3 exampleBoard "e2" "d5"
           (freshState true)).
  reflexivity.
Defined.
